(** * Release votes: tabulation, outcome, resolution and trusted automation

    A shallow embedding of three modules of the release tooling:

    - [atr/tabulate.py]: the ballot parser, the vote tabulator, the outcome
      evaluator, the vote summary, the renderer of the resolution and the
      committee of a vote;
    - [atr/db/interaction.py]: the version ordering of [all_releases], the
      checks of the trusted automation verifier, the releases of a project
      by phase, the unfinished releases of a user and the latest vote task
      of a release;
    - [atr/storage/writers/vote.py]: the commands [start], [resolve],
      [resolve_release] and [send_resolution] of a committee member.

    Python values are modelled as follows.  A [str] is a [string], one
    [ascii] per character.  An [int] is a [Z].  A [float] is a binary64
    [spec_float].  A [dict] keyed by strings is an association list kept in
    insertion order.  A function that can raise returns in the sum monad
    over [PyExn]; a method that also reads and writes the database session
    runs in a state monad over it. *)

From Stdlib Require Import String Ascii List ZArith Bool Lia Arith.
From Stdlib Require Import Floats.SpecFloat.
From Stdlib Require Import Sorting.Sorted Sorting.Permutation.
From ExtLib Require Import Structures.Monad Structures.MonadState Structures.MonadExc.
From ExtLib Require Import Data.Monads.StateMonad Data.Monads.EitherMonad.
Import ListNotations.
Import MonadNotation.

Local Open Scope string_scope.
Local Open Scope list_scope.

(* ===================================================================== *)
(** * Python strings *)
(* ===================================================================== *)

Module PyStr.

(** [s.startswith(p)] *)
Definition startswith (s p : string) : bool := String.prefix p s.

(** [sub in s] *)
Fixpoint contains (s sub : string) : bool :=
  String.prefix sub s ||
  match s with
  | EmptyString => false
  | String _ rest => contains rest sub
  end.

(** [s.endswith(p)] *)
Definition endswith (s p : string) : bool :=
  let n := String.length s in
  let k := String.length p in
  (k <=? n)%nat && String.eqb (String.substring (n - k) k s) p.

(** [s[i:j]] for non-negative [i <= j]; the slice is cut at the end of [s]. *)
Definition slice (s : string) (i j : nat) : string := String.substring i (j - i) s.

(** [s.removeprefix(p)] *)
Definition removeprefix (s p : string) : string :=
  if startswith s p
  then String.substring (String.length p) (String.length s - String.length p) s
  else s.

(** [s.removesuffix(p)]; Python leaves [s] alone when [p] is empty. *)
Definition removesuffix (s p : string) : string :=
  if endswith s p && negb (String.eqb p "")
  then String.substring 0 (String.length s - String.length p) s
  else s.

(** [s.replace(a, b)] for single characters [a] and [b]. *)
Fixpoint replace_char (a b : ascii) (s : string) : string :=
  match s with
  | EmptyString => EmptyString
  | String c rest =>
      String (if Ascii.eqb c a then b else c) (replace_char a b rest)
  end.

(** The loop of [s.split(sep)] for a single character [sep]: [cur] holds the
    characters of the current field, last one first. *)
Fixpoint split_char_aux (sep : ascii) (cur : string) (s : string) : list string :=
  match s with
  | EmptyString => [cur]
  | String c rest =>
      if Ascii.eqb c sep
      then cur :: split_char_aux sep EmptyString rest
      else split_char_aux sep (cur ++ String c EmptyString) rest
  end.

(** [s.split(sep)] for a single character [sep]; never the empty list. *)
Definition split_char (sep : ascii) (s : string) : list string :=
  split_char_aux sep EmptyString s.

(** [l[-1]] of a list that [split] returned. *)
Definition last_field (l : list string) : string := List.last l EmptyString.

(** [l[0]] of a list that [split] returned. *)
Definition first_field (l : list string) : string := List.hd EmptyString l.

(** [s.split(sep, 1)] for a non-empty [sep]: the text before the first
    occurrence of [sep] and, when there is one, the text after it. *)
Fixpoint split_once (sep : string) (s : string) : string * option string :=
  if String.prefix sep s
  then (EmptyString,
        Some (String.substring (String.length sep)
                (String.length s - String.length sep) s))
  else
    match s with
    | EmptyString => (EmptyString, None)
    | String c rest =>
        let '(before, after) := split_once sep rest in
        (String c before, after)
    end.

(** [s.split(sep, 1)[0]] *)
Definition split_once_first (sep s : string) : string := fst (split_once sep s).

(** [s.split(sep, 1)[-1]] *)
Definition split_once_last (sep s : string) : string :=
  match snd (split_once sep s) with
  | Some after => after
  | None => s
  end.

(** [s.rsplit(sep, 1)[0]] for a single character [sep]: the text before the
    last [sep], or all of [s] when there is none. *)
Fixpoint rsplit_once_first (sep : ascii) (s : string) : string :=
  match s with
  | EmptyString => EmptyString
  | String c rest =>
      if Ascii.eqb c sep && negb (contains rest (String sep EmptyString))
      then EmptyString
      else String c (rsplit_once_first sep rest)
  end.

(** [sep.join(l)] *)
Fixpoint join (sep : string) (l : list string) : string :=
  match l with
  | [] => EmptyString
  | [x] => x
  | x :: rest => x ++ sep ++ join sep rest
  end.

(** [s.upper()] on the letters a to z, which covers the results "passed"
    and "failed" the code applies it to; other characters are kept. *)
Definition upper_char (c : ascii) : ascii :=
  let n := nat_of_ascii c in
  if ((97 <=? n) && (n <=? 122))%nat then ascii_of_nat (n - 32) else c.

Fixpoint upper (s : string) : string :=
  match s with
  | EmptyString => EmptyString
  | String c rest => String (upper_char c) (upper rest)
  end.

(** Python's truth value of a string. *)
Definition truthy (s : string) : bool := negb (String.eqb s "").

Definition newline : ascii := ascii_of_nat 10.

End PyStr.

(* ===================================================================== *)
(** * Python dictionaries keyed by strings *)
(* ===================================================================== *)

Module PyDict.

Section Dict.
Context {V : Type}.

(** Entries in insertion order, at most one per key. *)
Definition t := list (string * V).

Definition empty : t := [].

(** [d.get(k)] *)
Fixpoint get (d : t) (k : string) : option V :=
  match d with
  | [] => None
  | (k', v) :: rest => if String.eqb k' k then Some v else get rest k
  end.

(** [k in d] *)
Definition mem (d : t) (k : string) : bool :=
  match get d k with Some _ => true | None => false end.

(** [d[k] = v]: an existing key keeps its place, a new key goes last. *)
Fixpoint set (d : t) (k : string) (v : V) : t :=
  match d with
  | [] => [(k, v)]
  | (k', v') :: rest =>
      if String.eqb k' k then (k', v) :: rest else (k', v') :: set rest k v
  end.

(** [d.values()] *)
Definition values (d : t) : list V := List.map snd d.

(** [d.keys()] *)
Definition keys (d : t) : list string := List.map fst d.

End Dict.

Arguments t : clear implicits.

End PyDict.

(* ===================================================================== *)
(** * Exceptions *)
(* ===================================================================== *)

(** The exceptions the modelled code raises, with their messages. *)
Inductive PyExn : Type :=
| OverflowError (msg : string)
| ZeroDivisionError (msg : string)
| ValueError (msg : string)
| RuntimeError (msg : string)
| AccessError (msg : string)
| InteractionError (msg : string)
| ReleasePolicyNotFoundError (msg : string)
| KeyError (key : string)
| AttributeError (msg : string)
| ExternalError (msg : string).

(** A computation that returns an [A] or raises. *)
Definition PyResult (A : Type) : Type := (PyExn + A)%type.

#[global]
Instance Monad_PyResult : Monad PyResult := Monad_either PyExn.

Definition raise_exn {A : Type} (e : PyExn) : PyResult A := inl e.

Definition is_interaction_error {A : Type} (r : PyResult A) : bool :=
  match r with inl (InteractionError _) => true | _ => false end.

Definition is_release_policy_not_found {A : Type} (r : PyResult A) : bool :=
  match r with inl (ReleasePolicyNotFoundError _) => true | _ => false end.

(* ===================================================================== *)
(** * Python numbers: [int] and binary64 [float] *)
(* ===================================================================== *)

Module PyNum.

Local Open Scope Z_scope.

Definition prec : Z := 53.
Definition emax : Z := 1024.

(** The correctly rounded double of the rational [a / b], for positive [a]
    and [b], with sign [s]; an infinity when it is out of range. *)
Definition div_round (s : bool) (a b : positive) : spec_float :=
  let '(mz, ez, lz) := SFdiv_core_binary prec emax (Zpos a) 0 (Zpos b) 0 in
  binary_round_aux prec emax s mz ez lz.

(** The correctly rounded double of the integer [z]. *)
Definition round_of_Z (z : Z) : spec_float := binary_normalize prec emax z 0 false.

Definition is_infinite (x : spec_float) : bool :=
  match x with S754_infinity _ => true | _ => false end.

(** [float(z)] as the arithmetic operators convert an [int] operand. *)
Definition float_of_int (z : Z) : PyResult spec_float :=
  let x := round_of_Z z in
  if is_infinite x then inl (OverflowError "int too large to convert to float")
  else inr x.

(** [a / b] on two [int]s: the correctly rounded quotient.  A zero
    numerator gives a zero whose sign is that of [b]. *)
Definition int_truediv (a b : Z) : PyResult spec_float :=
  if b =? 0 then inl (ZeroDivisionError "division by zero")
  else if a =? 0 then inr (S754_zero (b <? 0))
  else
    let x := div_round (xorb (a <? 0) (b <? 0))
               (Z.to_pos (Z.abs a)) (Z.to_pos (Z.abs b)) in
    if is_infinite x
    then inl (OverflowError "integer division result too large for a float")
    else inr x.

(** A value that is an [int] or a [float]. *)
Inductive num : Type :=
| Int (z : Z)
| Float (x : spec_float).

(** [a - b] for an [int] [a]. *)
Definition int_sub (a : Z) (b : num) : PyResult num :=
  match b with
  | Int z => inr (Int (a - z))
  | Float y =>
      match float_of_int a with
      | inl e => inl e
      | inr x => inr (Float (SFsub prec emax x y))
      end
  end.

(** [x > 0] *)
Definition gt_zero (x : num) : bool :=
  match x with
  | Int z => 0 <? z
  | Float y => SFltb (S754_zero false) y
  end.

(** The integer nearest to [a / b] for [b > 0], ties to the even one. *)
Definition div_half_even (a b : Z) : Z :=
  let q := a / b in
  let r := a mod b in
  match (2 * r ?= b) with
  | Lt => q
  | Gt => q + 1
  | Eq => if Z.even q then q else q + 1
  end.

(** [round(x, 2)] on a [float]: the double nearest to the decimal with two
    fractional digits that is nearest to [x]. *)
Definition round2_float (x : spec_float) : spec_float :=
  match x with
  | S754_finite s m e =>
      let n :=
        if 0 <=? e then 100 * Zpos m * 2 ^ e
        else div_half_even (100 * Zpos m) (2 ^ (- e)) in
      match n with
      | Zpos p => div_round s p 100
      | _ => S754_zero s
      end
  | _ => x
  end.

(** [round(x, 2)]; an [int] is returned as it is. *)
Definition round2 (x : num) : num :=
  match x with
  | Int z => Int z
  | Float y => Float (round2_float y)
  end.

(** Decimal digits. *)
Definition digit_char (d : Z) : ascii := ascii_of_nat (48 + Z.to_nat d).

(** The decimal digits of [n >= 0], most significant first; [fuel] bounds
    their number. *)
Fixpoint digits_aux (fuel : nat) (n : Z) (acc : string) : string :=
  match fuel with
  | O => acc
  | S fuel' =>
      let acc' := String (digit_char (n mod 10)) acc in
      if n <? 10 then acc' else digits_aux fuel' (n / 10) acc'
  end.

Definition digits (n : Z) : string :=
  digits_aux (S (Z.to_nat (Z.log2 n))) n EmptyString.

(** [str(z)] for an [int]. *)
Definition int_str (z : Z) : string :=
  if z <? 0 then String "-" (digits (- z)) else digits z.

(** The decimal exponent of the positive rational [num / den]: the [p] with
    [10^(p-1) <= num/den < 10^p]. *)
Fixpoint scale_up (fuel : nat) (num den : Z) (j : Z) : Z :=
  match fuel with
  | O => j
  | S fuel' => if den <=? num then j else scale_up fuel' (10 * num) den (j + 1)
  end.

Definition decimal_exponent (num den : Z) : Z :=
  if den <=? num
  then Z.of_nat (String.length (digits (num / den)))
  else 1 - scale_up 400 num den 0.

(** The double nearest to [n * 10^q], for [n > 0]. *)
Definition decimal_to_float (n q : Z) : spec_float :=
  if 0 <=? q then round_of_Z (n * 10 ^ q)
  else div_round false (Z.to_pos n) (Z.to_pos (10 ^ (- q))).

Definition same_float (x y : spec_float) : bool :=
  match SFcompare x y with Some Eq => true | _ => false end.

(** The shortest decimal that reads back as the double [m * 2^e]: the
    integer [n] and the exponent [q] of [n * 10^q], trying [k] significant
    digits for [k] from [18 - fuel] upwards.  Among the two [k]-digit
    decimals around the value, the one that reads back and is nearest. *)
Fixpoint shortest_aux (fuel : nat) (m : positive) (e : Z) (num den p k : Z) : Z * Z :=
  let q := p - k in
  let '(a, b) := if 0 <=? q then (num, den * 10 ^ q) else (num * 10 ^ (- q), den) in
  let lo := a / b in
  let hi := lo + 1 in
  let x := S754_finite false m e in
  let lo_ok := (0 <? lo) && same_float (decimal_to_float lo q) x in
  let hi_ok := same_float (decimal_to_float hi q) x in
  let nearest := div_half_even a b in
  match fuel with
  | O => (nearest, q)
  | S fuel' =>
      if lo_ok && hi_ok then (nearest, q)
      else if lo_ok then (lo, q)
      else if hi_ok then (hi, q)
      else shortest_aux fuel' m e num den p (k + 1)
  end.

Definition shortest (m : positive) (e : Z) : Z * Z :=
  let '(num, den) := if 0 <=? e then (Zpos m * 2 ^ e, 1) else (Zpos m, 2 ^ (- e)) in
  shortest_aux 16 m e num den (decimal_exponent num den) 1.

Fixpoint strip_zeros (fuel : nat) (n q : Z) : Z * Z :=
  match fuel with
  | O => (n, q)
  | S fuel' => if n mod 10 =? 0 then strip_zeros fuel' (n / 10) (q + 1) else (n, q)
  end.

Fixpoint zeros (k : nat) : string :=
  match k with O => EmptyString | S k' => String "0" (zeros k') end.

(** [repr] of a positive finite double from its shortest digits [ds] and
    the position [decpt] of the decimal point. *)
Definition format_repr (ds : string) (decpt : Z) : string :=
  let nd := Z.of_nat (String.length ds) in
  if (decpt <=? -4) || (16 <? decpt) then
    let ex := decpt - 1 in
    let mant :=
      match ds with
      | String c EmptyString => ds
      | String c rest => String c (String "." rest)
      | EmptyString => ds
      end in
    let ex_digits := digits (Z.abs ex) in
    let ex_digits := if Z.abs ex <? 10 then String "0" ex_digits else ex_digits in
    mant ++ "e" ++ (if ex <? 0 then "-" else "+") ++ ex_digits
  else if decpt <=? 0 then
    "0." ++ zeros (Z.to_nat (- decpt)) ++ ds
  else if nd <=? decpt then
    ds ++ zeros (Z.to_nat (decpt - nd)) ++ ".0"
  else
    String.substring 0 (Z.to_nat decpt) ds ++ "." ++
    String.substring (Z.to_nat decpt) (Z.to_nat (nd - decpt)) ds.

(** [repr(x)], which is also [str(x)] and the empty format of an f-string. *)
Definition float_str (x : spec_float) : string :=
  match x with
  | S754_zero s => if s then "-0.0" else "0.0"
  | S754_infinity s => if s then "-inf" else "inf"
  | S754_nan => "nan"
  | S754_finite s m e =>
      let '(n0, q0) := shortest m e in
      let '(n, q) := strip_zeros 20 n0 q0 in
      let ds := digits n in
      (if s then "-" else "") ++ format_repr ds (Z.of_nat (String.length ds) + q)
  end.

(** [f"{x}"] *)
Definition num_str (x : num) : string :=
  match x with
  | Int z => int_str z
  | Float y => float_str y
  end.

End PyNum.

(* ===================================================================== *)
(** * The persisted entities ([atr.models.sql]) *)
(* ===================================================================== *)

Module Models.

Inductive ReleasePhase : Type :=
| RELEASE_CANDIDATE_DRAFT
| RELEASE_CANDIDATE
| RELEASE_PREVIEW
| RELEASE.

Inductive TaskStatus : Type := QUEUED | ACTIVE | COMPLETED | FAILED.

Inductive TaskType : Type := VOTE_INITIATE | MESSAGE_SEND | OTHER_TASK.

(** Modelled from the spec: the declaration of [Committee] is not part of
    the modelled files.  The fields are the ones the code reads. *)
Record Committee : Type := {
  committee_name : string;
  committee_display_name : string;
  is_podling : bool;
  committee_members : list string;
  committers : list string
}.

(** Modelled from the spec: [ReleasePolicy], with [min_hours] a
    non-negative integer or absent and one workflow path allowlist per
    phase. *)
Record ReleasePolicy : Type := {
  policy_id : Z;
  min_hours : option Z;
  github_repository_name : string;
  github_compose_workflow_path : list string;
  github_vote_workflow_path : list string;
  github_finish_workflow_path : list string
}.

(** Modelled from the spec: [Project]. *)
Record Project : Type := {
  project_name : string;
  project_display_name : string;
  committee : option Committee;
  release_policy : option ReleasePolicy
}.

(** Modelled from the spec: [Release].  [release_project] is [None] when the
    relationship is not set. *)
Record Release : Type := {
  release_project : option Project;
  release_project_name : string;
  version : string;
  phase : ReleasePhase;
  podling_thread_id : option string;
  latest_revision_number : option string
}.

(** [sql.release_name]: [project + "-" + version]. *)
Definition release_name (project_name version_name : string) : string :=
  project_name ++ "-" ++ version_name.

(** [release.name] *)
Definition name_of (r : Release) : string :=
  release_name (release_project_name r) (version r).

(** [tasks.vote.Initiate(...).model_dump()] and
    [tasks.message.Send(...).model_dump()]: the payload of a task, tagged
    by its shape. *)
Inductive TaskArgs : Type :=
| Initiate (release_name email_to : string) (vote_duration : Z)
    (initiator_id initiator_fullname subject body : string)
| Send (email_sender email_recipient subject body in_reply_to : string)
| OtherArgs.

(** The result of a finished task; [VoteInitiate] is [results.VoteInitiate]
    with the archive message id. *)
Inductive TaskResult : Type :=
| VoteInitiate (mid : string) (archive_url : string)
| OtherTaskResult.

(** Modelled from the spec: [Task]. *)
Record Task : Type := {
  task_status : TaskStatus;
  task_type : TaskType;
  task_args : TaskArgs;
  task_result : option TaskResult;
  added : Z;
  task_asf_uid : string;
  task_project_name : string;
  task_version_name : string
}.

(** Modelled from the spec: [Revision]. *)
Record Revision : Type := {
  revision_release_name : string;
  revision_number : string;
  revision_asfuid : string;
  revision_description : string
}.

(** The tables a session reads and writes. *)
Record Database : Type := {
  db_releases : list Release;
  db_projects : list Project;
  db_release_policies : list ReleasePolicy;
  db_tasks : list Task;
  db_revisions : list Revision
}.

Definition status_eqb (a b : TaskStatus) : bool :=
  match a, b with
  | QUEUED, QUEUED | ACTIVE, ACTIVE | COMPLETED, COMPLETED | FAILED, FAILED => true
  | _, _ => false
  end.

Definition task_type_eqb (a b : TaskType) : bool :=
  match a, b with
  | VOTE_INITIATE, VOTE_INITIATE | MESSAGE_SEND, MESSAGE_SEND
  | OTHER_TASK, OTHER_TASK => true
  | _, _ => false
  end.

Definition phase_eqb (a b : ReleasePhase) : bool :=
  match a, b with
  | RELEASE_CANDIDATE_DRAFT, RELEASE_CANDIDATE_DRAFT
  | RELEASE_CANDIDATE, RELEASE_CANDIDATE
  | RELEASE_PREVIEW, RELEASE_PREVIEW
  | RELEASE, RELEASE => true
  | _, _ => false
  end.

End Models.

(* ===================================================================== *)
(** * [atr/tabulate.py] *)
(* ===================================================================== *)

Module Tabulate.

Import PyStr.

Module Vote.
Inductive t : Type := YES | NO | ABSTAIN | UNKNOWN.

  (** The [value] of the enum member. *)
Definition value (v : t) : string :=
    match v with
    | YES => "Yes"
    | NO => "No"
    | ABSTAIN => "-"
    | UNKNOWN => "?"
    end.

Definition eqb (a b : t) : bool :=
    match a, b with
    | YES, YES | NO, NO | ABSTAIN, ABSTAIN | UNKNOWN, UNKNOWN => true
    | _, _ => false
    end.
End Vote.

Module VoteStatus.
Inductive t : Type := BINDING | COMMITTER | CONTRIBUTOR | UNKNOWN.

Definition value (s : t) : string :=
    match s with
    | BINDING => "Binding"
    | COMMITTER => "Committer"
    | CONTRIBUTOR => "Contributor"
    | UNKNOWN => "Unknown"
    end.

Definition eqb (a b : t) : bool :=
    match a, b with
    | BINDING, BINDING | COMMITTER, COMMITTER
    | CONTRIBUTOR, CONTRIBUTOR | UNKNOWN, UNKNOWN => true
    | _, _ => false
    end.
End VoteStatus.

Record VoteEmail : Type := {
  asf_uid_or_email : string;
  from_email : string;
  status : VoteStatus.t;
  asf_eid : string;
  iso_datetime : string;
  vote : Vote.t;
  quotation : string;
  updated : bool
}.

(** A message record of the mail archive.  A string field holds [""] when
    the key is absent, which is the default every [msg.get] of the code
    passes; [epoch] is the integer of the archive, [None] when absent. *)
Record Message : Type := {
  from_raw : string;
  list_raw : string;
  epoch : option Z;
  subject : string;
  body : string;
  mid : string;
  date : string
}.

(** ** The ballot parser *)

Definition _vote_break (line : string) : bool :=
  if String.eqb line "-- " then true
  else if startswith line "On " && String.eqb (slice line 6 8) ", " then true
  else if startswith line "From: " then true
  else if startswith line "________" then true
  else false.

Definition explanation_indicators : list string :=
  [ "[ ] +1"; "[ ] -1"; "binding +1 votes"; "binding -1 votes" ].

Definition _vote_continue (line : string) : bool :=
  if existsb (fun indicator => contains line indicator) explanation_indicators
  then true
  else if startswith line ">" then true
  else false.

Definition plus_one (line : string) : bool :=
  startswith line "+1" || contains line " +1".

Definition minus_one (line : string) : bool :=
  startswith line "-1" || contains line " -1".

Definition zero (line : string) : bool :=
  existsb (String.eqb line) ["0"; "-0"; "+0"]
  || startswith line "0 " || startswith line "+0 " || startswith line "-0 ".

(** The loop of [_vote_castings] over the lines that are left. *)
Fixpoint _vote_castings_loop (lines : list string) : list (Vote.t * string) :=
  match lines with
  | [] => []
  | line :: rest =>
      if _vote_continue line then _vote_castings_loop rest
      else if _vote_break line then []
      else
        let p := plus_one line in
        let m := minus_one line in
        let z := zero line in
        if (p && m) || (p && z) || (m && z) then _vote_castings_loop rest
        else if p then (Vote.YES, line) :: _vote_castings_loop rest
        else if m then (Vote.NO, line) :: _vote_castings_loop rest
        else if z then (Vote.ABSTAIN, line) :: _vote_castings_loop rest
        else _vote_castings_loop rest
  end.

Definition _vote_castings (body : string) : list (Vote.t * string) :=
  _vote_castings_loop (split_char newline body).

(** ** The identity resolver *)

Section Tabulator.

  (** [util.email_from_uid]: the lower-case address of a [From:] header. *)
Variable email_from_uid : string -> option string.

  (** [util.is_dev_environment()] *)
Variable is_dev_environment : bool.

  (** [data.committee(name=...).get()] *)
Variable committee_by_name : string -> option Models.Committee.

Definition _vote_identity (from_raw : string) (email_to_uid : PyDict.t string)
    : bool * string * option string :=
    match email_from_uid from_raw with
    | None => (false, "", None)
    | Some from_email_lower =>
        if negb (truthy from_email_lower) then (false, "", None)
        else
          let from_email_lower := removesuffix from_email_lower ".invalid" in
          let asf_uid :=
            if endswith from_email_lower "@apache.org"
            then Some (first_field (split_char "@" from_email_lower))
            else PyDict.get email_to_uid from_email_lower in
          (true, from_email_lower, asf_uid)
    end.

Definition _vote_status (asf_uid list_raw : string)
      (committee : option Models.Committee) : VoteStatus.t :=
    let committee :=
      if is_dev_environment
      then
        let committee_label :=
          split_once_last "." (split_once_first ".apache.org" list_raw) in
        committee_by_name committee_label
      else committee in
    match committee with
    | Some c =>
        if existsb (String.eqb asf_uid) (Models.committee_members c)
        then VoteStatus.BINDING
        else if existsb (String.eqb asf_uid) (Models.committers c)
        then VoteStatus.COMMITTER
        else VoteStatus.CONTRIBUTOR
    | None => VoteStatus.UNKNOWN
    end.

  (** ** The tabulator *)

  (** What one turn of the loop of [votes] does next. *)
Inductive Flow : Type :=
| Continue (start_unixtime : option Z) (tabulated_votes : PyDict.t VoteEmail)
| Break (start_unixtime : option Z) (tabulated_votes : PyDict.t VoteEmail).

(** [int(epoch)] when [epoch] is truthy. *)
Definition epoch_start (msg : Message) : option Z :=
  match epoch msg with
  | Some e => if (e =? 0)%Z then None else Some e
  | None => None
  end.

(** The body of the loop of [votes] for one message, with the two variables
    it updates. *)
Definition votes_body (committee : option Models.Committee)
    (email_to_uid : PyDict.t string) (msg : Message)
    (start_unixtime : option Z) (tabulated_votes : PyDict.t VoteEmail) : Flow :=
  let '(ok, from_email_lower, asf_uid) :=
    _vote_identity (from_raw msg) email_to_uid in
  if negb ok then Continue start_unixtime tabulated_votes
  else
    let '(asf_uid_or_email, status) :=
      match asf_uid with
      | Some uid => (uid, _vote_status uid (list_raw msg) committee)
      | None => (from_email_lower, VoteStatus.UNKNOWN)
      end in
    let start_unixtime :=
      match start_unixtime with
      | None => epoch_start msg
      | Some _ => start_unixtime
      end in
    if contains (subject msg) "[RESULT]" then Break start_unixtime tabulated_votes
    else if negb (truthy (body msg)) then Continue start_unixtime tabulated_votes
    else
      let castings := _vote_castings (body msg) in
      match castings with
      | [] => Continue start_unixtime tabulated_votes
      | c :: others =>
          let vote_cast :=
            match others with
            | [] => fst c
            | _ :: _ => Vote.UNKNOWN
            end in
          let quotation := join " // " (List.map snd castings) in
          let vote_email := {|
            asf_uid_or_email := asf_uid_or_email;
            from_email := from_email_lower;
            status := status;
            asf_eid := mid msg;
            iso_datetime := date msg;
            vote := vote_cast;
            quotation := quotation;
            updated := PyDict.mem tabulated_votes asf_uid_or_email
          |} in
          Continue start_unixtime
            (PyDict.set tabulated_votes asf_uid_or_email vote_email)
      end.

(** The loop of [votes] over the messages that are left. *)
Fixpoint votes_loop (committee : option Models.Committee)
    (email_to_uid : PyDict.t string)
    (messages : list (string * Message))
    (start_unixtime : option Z) (tabulated_votes : PyDict.t VoteEmail)
  : option Z * PyDict.t VoteEmail :=
  match messages with
  | [] => (start_unixtime, tabulated_votes)
  | (_, msg) :: rest =>
      match votes_body committee email_to_uid msg start_unixtime tabulated_votes with
      | Continue start' votes' => votes_loop committee email_to_uid rest start' votes'
      | Break start' votes' => (start', votes')
      end
  end.

(** [votes]: [email_to_uid] is what [util.email_to_uid_map()] returned and
      [thread] what [util.thread_messages(thread_id)] yields, in order. *)
Definition votes (committee : option Models.Committee)
      (email_to_uid : PyDict.t string) (thread : list (string * Message))
    : option Z * PyDict.t VoteEmail :=
    votes_loop committee email_to_uid thread None PyDict.empty.

End Tabulator.

(** ** The outcome evaluator *)

Local Open Scope monad_scope.

Definition still_open (duration_hours_remaining : option PyNum.num) : bool :=
  match duration_hours_remaining with
  | Some r => PyNum.gt_zero r
  | None => false
  end.

Definition rounded_str (duration_hours_remaining : option PyNum.num) : string :=
  match duration_hours_remaining with
  | Some r => PyNum.num_str (PyNum.round2 r)
  | None => ""
  end.

Definition _vote_outcome_format (duration_hours_remaining : option PyNum.num)
    (binding_plus_one binding_minus_one : Z) : bool * string :=
  let outcome_passed :=
    ((3 <=? binding_plus_one) && (binding_minus_one <? binding_plus_one))%Z in
  if negb outcome_passed then
    let msg :=
      if still_open duration_hours_remaining then
        ("The vote is still open for " ++ rounded_str duration_hours_remaining
          ++ " hours, but it would fail if closed now.")%string
      else
        match duration_hours_remaining with
        | None => "The vote would fail if closed now."
        | Some _ => "The vote failed."
        end in
    (false, msg)
  else
    let msg :=
      if still_open duration_hours_remaining then
        ("The vote is still open for " ++ rounded_str duration_hours_remaining
          ++ " hours, but it would pass if closed now.")%string
      else "The vote passed." in
    (true, msg).

(** [x or None] for an optional [int]. *)
Definition or_none (x : option Z) : option Z :=
  match x with
  | Some h => if (h =? 0)%Z then None else Some h
  | None => None
  end.

(** One turn of the counting loop of [vote_outcome]. *)
Definition count_binding (acc : Z * Z) (vote_email : VoteEmail) : Z * Z :=
  let '(binding_plus_one, binding_minus_one) := acc in
  if negb (VoteStatus.eqb (status vote_email) VoteStatus.BINDING) then acc
  else if Vote.eqb (vote vote_email) Vote.YES
  then ((binding_plus_one + 1)%Z, binding_minus_one)
  else if Vote.eqb (vote vote_email) Vote.NO
  then (binding_plus_one, (binding_minus_one + 1)%Z)
  else acc.

(** [vote_outcome]; [now] is what [int(time.time())] returned. *)
Definition vote_outcome (now : Z) (release : Models.Release)
    (start_unixtime : option Z) (tabulated_votes : PyDict.t VoteEmail)
  : PyResult (bool * string) :=
  duration_hours <-
    match start_unixtime with
    | Some s => x <- PyNum.int_truediv (now - s) 3600 ;; ret (PyNum.Float x)
    | None => ret (PyNum.Int 0)
    end ;;
  let min_duration_hours :=
    match Models.release_project release with
    | Some project =>
        match Models.release_policy project with
        | Some policy => or_none (Models.min_hours policy)
        | None => Some 72%Z
        end
    | None => Some 72%Z
    end in
  duration_hours_remaining <-
    match min_duration_hours with
    | Some h => r <- PyNum.int_sub h duration_hours ;; ret (Some r)
    | None => ret None
    end ;;
  let '(binding_plus_one, binding_minus_one) :=
    fold_left count_binding (PyDict.values tabulated_votes) (0%Z, 0%Z) in
  ret (_vote_outcome_format duration_hours_remaining binding_plus_one binding_minus_one).

(** ** The vote summary *)

(** [result[k] += n]; every key the code uses is in the initial dict. *)
Fixpoint add_at (result : PyDict.t Z) (k : string) (n : Z) : PyDict.t Z :=
  match result with
  | [] => []
  | (k', v) :: rest =>
      if String.eqb k' k then (k', (v + n)%Z) :: rest
      else (k', v) :: add_at rest k n
  end.

(** [1 if (vote_email.vote.value == s) else 0] *)
Definition one_if_value (vote_email : VoteEmail) (s : string) : Z :=
  if String.eqb (Vote.value (vote vote_email)) s then 1%Z else 0%Z.

Definition summary_init : PyDict.t Z :=
  [ ("binding_votes", 0%Z);
    ("binding_votes_yes", 0%Z);
    ("binding_votes_no", 0%Z);
    ("binding_votes_abstain", 0%Z);
    ("non_binding_votes", 0%Z);
    ("non_binding_votes_yes", 0%Z);
    ("non_binding_votes_no", 0%Z);
    ("non_binding_votes_abstain", 0%Z);
    ("unknown_votes", 0%Z);
    ("unknown_votes_yes", 0%Z);
    ("unknown_votes_no", 0%Z);
    ("unknown_votes_abstain", 0%Z) ].

(** The four updates of one branch of the loop of [vote_summary]. *)
Definition summary_branch (result : PyDict.t Z) (prefix : string)
    (vote_email : VoteEmail) : PyDict.t Z :=
  let result := add_at result prefix 1%Z in
  let result := add_at result (prefix ++ "_yes")%string (one_if_value vote_email "Yes") in
  let result := add_at result (prefix ++ "_no")%string (one_if_value vote_email "No") in
  add_at result (prefix ++ "_abstain")%string (one_if_value vote_email "Abstain").

Definition summary_step (result : PyDict.t Z) (vote_email : VoteEmail) : PyDict.t Z :=
  match status vote_email with
  | VoteStatus.BINDING => summary_branch result "binding_votes" vote_email
  | VoteStatus.COMMITTER | VoteStatus.CONTRIBUTOR =>
      summary_branch result "non_binding_votes" vote_email
  | VoteStatus.UNKNOWN => summary_branch result "unknown_votes" vote_email
  end.

Definition vote_summary (tabulated_votes : PyDict.t VoteEmail) : PyDict.t Z :=
  fold_left summary_step (PyDict.values tabulated_votes) summary_init.

End Tabulate.

(* ===================================================================== *)
(** * [atr/db/interaction.py] *)
(* ===================================================================== *)

Module Interaction.

Import PyStr.
Import Models.

Local Open Scope monad_scope.

Inductive TrustedProjectPhase : Type := COMPOSE | VOTE | FINISH.

Definition phase_value (phase : TrustedProjectPhase) : string :=
  match phase with
  | COMPOSE => "compose"
  | VOTE => "vote"
  | FINISH => "finish"
  end.

(** ** [int(part)] on a string *)

(** The characters [int] skips around the number. *)
Definition is_space (c : ascii) : bool :=
  let n := nat_of_ascii c in
  ((9 <=? n) && (n <=? 13) || (n =? 32) || (n =? 133) || (n =? 160))%nat.

Definition is_digit (c : ascii) : bool :=
  let n := nat_of_ascii c in ((48 <=? n) && (n <=? 57))%nat.

Definition digit_value (c : ascii) : Z := Z.of_nat (nat_of_ascii c - 48).

Fixpoint lstrip (s : list ascii) : list ascii :=
  match s with
  | c :: rest => if is_space c then lstrip rest else s
  | [] => []
  end.

Definition strip (s : list ascii) : list ascii :=
  rev (lstrip (rev (lstrip s))).

(** The digits after the first one: a digit, or an underscore followed by a
    digit.  Returns the value and the number of digits read. *)
Fixpoint int_digits (s : list ascii) (acc : Z) (count : nat) : option (Z * nat) :=
  match s with
  | [] => Some (acc, count)
  | c :: rest =>
      if is_digit c then int_digits rest (acc * 10 + digit_value c)%Z (S count)
      else if Ascii.eqb c "_" then
        match rest with
        | d :: rest' =>
            if is_digit d
            then int_digits rest' (acc * 10 + digit_value d)%Z (S count)
            else None
        | [] => None
        end
      else None
  end.

(** [sys.get_int_max_str_digits()], at its default. *)
Definition int_max_str_digits : nat := 4300.

Definition int_unsigned (s : list ascii) : option Z :=
  match s with
  | c :: rest =>
      if is_digit c then
        match int_digits rest (digit_value c) 1 with
        | Some (n, count) =>
            if (count <=? int_max_str_digits)%nat then Some n else None
        | None => None
        end
      else None
  | [] => None
  end.

(** [int(s)]: [None] stands for [ValueError]. *)
Definition py_int (s : string) : option Z :=
  match strip (list_ascii_of_string s) with
  | c :: rest =>
      if Ascii.eqb c "-" then option_map Z.opp (int_unsigned rest)
      else if Ascii.eqb c "+" then int_unsigned rest
      else int_unsigned (c :: rest)
  | [] => None
  end.

(** ** The fallback sort key of [all_releases] *)

(** A component of the key: [(0, n)] or [(1, s)]. *)
Inductive KeyPart : Type :=
| Num (n : Z)
| Str (s : string).

Definition key_part (part : string) : KeyPart :=
  match py_int part with
  | Some n => Num n
  | None => Str part
  end.

Definition sort_key (release : Release) : list KeyPart :=
  let v := replace_char "-" "." (replace_char "+" "." (version release)) in
  List.map key_part (split_char "." v).

(** [a == b] and [a < b] on two components, as Python compares the pairs. *)
Definition part_eqb (a b : KeyPart) : bool :=
  match a, b with
  | Num x, Num y => (x =? y)%Z
  | Str s, Str t => String.eqb s t
  | _, _ => false
  end.

Definition part_ltb (a b : KeyPart) : bool :=
  match a, b with
  | Num x, Num y => (x <? y)%Z
  | Num _, Str _ => true
  | Str _, Num _ => false
  | Str s, Str t => String.ltb s t
  end.

(** [a < b] on two tuples: decided at the first position where they
    differ, and by the lengths when one is a prefix of the other. *)
Fixpoint key_ltb (a b : list KeyPart) : bool :=
  match a, b with
  | [], [] => false
  | [], _ :: _ => true
  | _ :: _, [] => false
  | x :: a', y :: b' => if part_eqb x y then key_ltb a' b' else part_ltb x y
  end.

(** ** [list.sort(key=..., reverse=True)] *)

Section Sort.
Context {A K : Type}.
Variable ltb : K -> K -> bool.

(** Entries are pairs of a key and an element.  [insert_desc] puts an entry
    in front of the first one whose key is not greater than its own. *)
Fixpoint insert_desc (x : K * A) (l : list (K * A)) : list (K * A) :=
  match l with
  | [] => [x]
  | y :: rest =>
      if ltb (fst x) (fst y) then y :: insert_desc x rest else x :: y :: rest
  end.

(** The stable sort into descending order of the keys: entries with equal
    keys keep their order. *)
Fixpoint sort_desc (l : list (K * A)) : list (K * A) :=
  match l with
  | [] => []
  | x :: rest => insert_desc x (sort_desc rest)
  end.

(** The keys of all elements, computed before anything is moved; [None]
    when the key function raises on one of them. *)
Fixpoint decorate (key : A -> option K) (l : list A) : option (list (K * A)) :=
  match l with
  | [] => Some []
  | x :: rest =>
      match key x, decorate key rest with
      | Some k, Some ks => Some ((k, x) :: ks)
      | _, _ => None
      end
  end.

(** [l.sort(key=key, reverse=True)]: [None] when [key] raises, and then the
    list is left as it was. *)
Definition sort_reverse (key : A -> option K) (l : list A) : option (list A) :=
  match decorate key l with
  | Some entries => Some (List.map snd (sort_desc entries))
  | None => None
  end.

End Sort.

Section Queries.

(** [packaging.version.Version(s)]: [None] when it raises, and the order of
    two versions. *)
Context {Version : Type}.
Variable parse_version : string -> option Version.
Variable version_ltb : Version -> Version -> bool.

(** [all_releases] over the rows of the release table. *)
Definition all_releases (db : Database) (project : Project) : list Release :=
  let results :=
    List.filter
      (fun r => String.eqb (release_project_name r) (project_name project))
      (db_releases db) in
  let results :=
    List.map
      (fun r => {| release_project := Some project;
                   release_project_name := release_project_name r;
                   version := version r;
                   phase := phase r;
                   podling_thread_id := podling_thread_id r;
                   latest_revision_number := latest_revision_number r |})
      results in
  match sort_reverse version_ltb (fun r => parse_version (version r)) results with
  | Some sorted => sorted
  | None =>
      match sort_reverse key_ltb (fun r => Some (sort_key r)) results with
      | Some sorted => sorted
      | None => results
      end
  end.

(** [util.is_dev_environment()] *)
Variable is_dev_environment : bool.

(** [jwtoken.verify_github_oidc]: the claims of a token that verifies. *)
Variable verify_github_oidc : string -> PyResult (PyDict.t string).

(** [ldap.github_to_apache]: the foundation uid of a GitHub actor. *)
Variable github_to_apache : string -> PyResult string.

(** [registry.GITHUB_AUTOMATED_RELEASE_COMMITTEES] *)
Variable GITHUB_AUTOMATED_RELEASE_COMMITTEES : list string.

Definition TEST_MID : option string := None.

(** [interaction.<name>] for a name the module does not define.  The writer
    of votes reads [task_archive_url_cached] and [promote_release] from this
    module, which defines neither: the attribute lookup raises
    AttributeError, before the call is made. *)
Definition missing_attribute {A : Type} (name : string) : PyResult A :=
  raise_exn
    (AttributeError
       ("module 'atr.db.interaction' has no attribute '" ++ name ++ "'")).

(** [d[k]] *)
Definition getitem (d : PyDict.t string) (k : string) : PyResult string :=
  match PyDict.get d k with
  | Some v => ret v
  | None => raise_exn (KeyError k)
  end.

(** [query.demand(error)]: the row, or [error] raised when there is none. *)
Definition demand {A : Type} (row : option A) (error : PyExn) : PyResult A :=
  match row with
  | Some x => ret x
  | None => raise_exn error
  end.

(** [release_latest_vote_task], which opens a session of its own and so
    reads the committed tables: the rows that pass the filters, newest first,
    and the first of them. *)
Definition release_latest_vote_task (db : Database) (release : Release) : option Task :=
  let disallowed_statuses := if is_dev_environment then [] else [QUEUED; ACTIVE] in
  let rows :=
    List.filter
      (fun t =>
         String.eqb (task_project_name t) (release_project_name release)
         && String.eqb (task_version_name t) (version release)
         && task_type_eqb (task_type t) VOTE_INITIATE
         && negb (existsb (status_eqb (task_status t)) disallowed_statuses)
         && match task_result t with Some _ => true | None => false end)
      (db_tasks db) in
  List.hd_error
    (List.map snd (sort_desc Z.ltb (List.map (fun t => (added t, t)) rows))).

Definition task_mid_get (latest_vote_task : Task) : option string :=
  if is_dev_environment then TEST_MID
  else
    match task_result latest_vote_task with
    | Some (Models.VoteInitiate mid _) => Some mid
    | _ => None
    end.

Definition _trusted_project_checks (repository workflow_ref : string)
  : PyResult (string * string) :=
  if negb (startswith repository "apache/")
  then raise_exn (InteractionError "Repository must start with 'apache/'")
  else
    let repository_name := removeprefix repository "apache/" in
    if negb (startswith workflow_ref (repository ++ "/"))
    then raise_exn (InteractionError
           ("Workflow ref must start with repository, got " ++ workflow_ref))
    else
      let workflow_path_at := removeprefix workflow_ref (repository ++ "/") in
      if negb (contains workflow_path_at "@")
      then raise_exn (InteractionError
             ("Workflow path must contain '@', got " ++ workflow_path_at))
      else
        let workflow_path := rsplit_once_first "@" workflow_path_at in
        if negb (startswith workflow_path ".github/workflows/")
        then raise_exn (InteractionError
               ("Workflow path must start with '.github/workflows/', got "
                ++ workflow_path))
        else ret (repository_name, workflow_path).

(** The allowlist of a policy for a phase. *)
Definition workflow_paths (phase : TrustedProjectPhase) (policy : ReleasePolicy)
  : list string :=
  match phase with
  | COMPOSE => github_compose_workflow_path policy
  | VOTE => github_vote_workflow_path policy
  | FINISH => github_finish_workflow_path policy
  end.

(** Modelled from the spec: the query
    [release_policy(github_repository_name=..., github_<phase>_workflow_path_has=...)],
    which the modelled files only call.  It finds a policy whose repository
    name matches and whose allowlist for the phase contains the path. *)
Definition release_policy_query (db : Database) (repository_name : string)
    (phase : TrustedProjectPhase) (workflow_path : string) : option ReleasePolicy :=
  List.find
    (fun policy =>
       String.eqb (github_repository_name policy) repository_name
       && existsb (String.eqb workflow_path) (workflow_paths phase policy))
    (db_release_policies db).

(** Modelled from the spec: the query [project(release_policy_id=...)], the
    project bound to a policy. *)
Definition project_query (db : Database) (release_policy_id : Z) : option Project :=
  List.find
    (fun project =>
       match Models.release_policy project with
       | Some policy => (policy_id policy =? release_policy_id)%Z
       | None => false
       end)
    (db_projects db).

Definition _trusted_project (db : Database) (repository workflow_ref : string)
    (phase : TrustedProjectPhase) : PyResult Project :=
  '(repository_name, workflow_path) <- _trusted_project_checks repository workflow_ref ;;
  let rpnf_error :=
    ReleasePolicyNotFoundError
      ("Release policy for repository " ++ repository_name ++ " and "
       ++ phase_value phase ++ " workflow path " ++ workflow_path ++ " not found") in
  policy <- demand (release_policy_query db repository_name phase workflow_path)
              rpnf_error ;;
  project <- demand (project_query db (policy_id policy))
               (InteractionError
                  ("Project for release policy " ++ PyNum.int_str (policy_id policy)
                   ++ " not found")) ;;
  match committee project with
  | None =>
      raise_exn (InteractionError
                   ("Project " ++ project_name project ++ " has no committee"))
  | Some c =>
      if negb (existsb (String.eqb (committee_name c))
                 GITHUB_AUTOMATED_RELEASE_COMMITTEES)
      then raise_exn (InteractionError
                        ("Project " ++ project_name project
                         ++ " is not in a committee that can make releases"))
      else ret project
  end.

Definition trusted_jwt (db : Database) (publisher jwt : string)
    (phase : TrustedProjectPhase)
  : PyResult (PyDict.t string * string * Project) :=
  if negb (String.eqb publisher "github")
  then raise_exn (InteractionError ("Publisher " ++ publisher ++ " not supported"))
  else
    payload <- verify_github_oidc jwt ;;
    actor_id <- getitem payload "actor_id" ;;
    asf_uid <- github_to_apache actor_id ;;
    repository <- getitem payload "repository" ;;
    workflow_ref <- getitem payload "workflow_ref" ;;
    project <- _trusted_project db repository workflow_ref phase ;;
    ret (payload, asf_uid, project).

End Queries.

End Interaction.

(* ===================================================================== *)
(** * [atr/storage/writers/vote.py] *)
(* ===================================================================== *)

Module VoteWriter.

Import PyStr.
Import Models.

Local Open Scope monad_scope.

(** The data session of a writer: the tables as the session sees them, and
    as they were at its last commit. *)
Record Session : Type := {
  working : Database;
  committed : Database
}.

(** A method of a writer reads and writes the session and can raise; what
    the session held is then dropped with the transaction. *)
Definition M : Type -> Type := stateT Session PyResult.

#[local] Existing Instance Monad_stateT.

Definition throw {A : Type} (e : PyExn) : M A := mkStateT (fun _ => inl e).

Definition lift_result {A : Type} (r : PyResult A) : M A :=
  mkStateT (fun s => match r with inl e => inl e | inr x => inr (x, s) end).

Definition with_releases (db : Database) (rows : list Release) : Database :=
  {| db_releases := rows;
     db_projects := db_projects db;
     db_release_policies := db_release_policies db;
     db_tasks := db_tasks db;
     db_revisions := db_revisions db |}.

Definition with_tasks (db : Database) (rows : list Task) : Database :=
  {| db_releases := db_releases db;
     db_projects := db_projects db;
     db_release_policies := db_release_policies db;
     db_tasks := rows;
     db_revisions := db_revisions db |}.

Definition with_revisions (db : Database) (rows : list Revision) : Database :=
  {| db_releases := db_releases db;
     db_projects := db_projects db;
     db_release_policies := db_release_policies db;
     db_tasks := db_tasks db;
     db_revisions := rows |}.

Definition set_phase (r : Release) (p : ReleasePhase) : Release :=
  {| release_project := release_project r;
     release_project_name := release_project_name r;
     version := version r;
     phase := p;
     podling_thread_id := podling_thread_id r;
     latest_revision_number := latest_revision_number r |}.

Definition set_podling_thread_id (r : Release) (thread_id : option string) : Release :=
  {| release_project := release_project r;
     release_project_name := release_project_name r;
     version := version r;
     phase := phase r;
     podling_thread_id := thread_id;
     latest_revision_number := latest_revision_number r |}.

(** An attribute written on a release of the session reaches its row. *)
Definition store_release (r : Release) : M unit :=
  modify (fun s =>
    {| working :=
         with_releases (working s)
           (List.map
              (fun row => if String.eqb (name_of row) (name_of r) then r else row)
              (db_releases (working s)));
       committed := committed s |}) ;;
  ret tt.

(** [data.add(task)] and [data.add_all(tasks)] *)
Definition add_all (tasks : list Task) : M unit :=
  modify (fun s =>
    {| working := with_tasks (working s) (db_tasks (working s) ++ tasks);
       committed := committed s |}) ;;
  ret tt.

(** [data.commit()] *)
Definition commit : M unit :=
  modify (fun s => {| working := working s; committed := working s |}) ;;
  ret tt.

(** [release.project], which the code reads without a test. *)
Definition project_of (release : Release) : PyResult Project :=
  match release_project release with
  | Some project => inr project
  | None => inl (AttributeError "'NoneType' object has no attribute")
  end.

(** Modelled from the spec: the property [release.committee], the committee
    of the project of the release. *)
Definition release_committee (release : Release) : option Committee :=
  match release_project release with
  | Some project => committee project
  | None => None
  end.

(** [task.task_args["email_to"]] and [task.task_args["vote_duration"]] *)
Definition args_email_to (task : Task) : PyResult string :=
  match task_args task with
  | Initiate _ email_to _ _ _ _ _ => inr email_to
  | Send _ _ _ _ _ | OtherArgs => inl (KeyError "email_to")
  end.

Definition args_vote_duration (task : Task) : PyResult Z :=
  match task_args task with
  | Initiate _ _ vote_duration _ _ _ _ => inr vote_duration
  | Send _ _ _ _ _ | OtherArgs => inl (KeyError "vote_duration")
  end.

Definition nl : string := String newline EmptyString.

Section CommitteeMember.

(** [util.is_dev_environment()] *)
Variable is_dev_environment : bool.

(** [self.__asf_uid] *)
Variable self_asf_uid : string.

(** The time a new task row gets as [added]. *)
Variable utcnow : Z.

(** [util.USER_TESTS_ADDRESS] *)
Variable USER_TESTS_ADDRESS : string.

(** [util.permitted_recipients] *)
Variable permitted_recipients_of : string -> list string.

(** [construct.start_vote_default] *)
Variable start_vote_default : string -> PyResult string.

(** [revision.create_and_manage(project, version, uid, description=...)] with
    an empty body: the number of the revision it creates. *)
Variable create_and_manage : string -> string -> string -> string -> PyResult string.

(** [util.email_mid_from_thread_id] *)
Variable email_mid_from_thread_id : string -> PyResult (string * string).

(** The query [data.release(project_name=..., version=...)] of [start]. *)
Definition release_by_version (db : Database) (project_name version_name : string)
  : option Release :=
  List.find
    (fun r =>
       String.eqb (release_project_name r) project_name
       && String.eqb (version r) version_name)
    (db_releases db).

(** The query [data.release(name=..., phase=...)] of [resolve]. *)
Definition release_by_name (db : Database) (name : string)
    (wanted : ReleasePhase) : option Release :=
  List.find
    (fun r => String.eqb (name_of r) name && phase_eqb (phase r) wanted)
    (db_releases db).

Definition start (email_to project_name version_name selected_revision_number : string)
    (vote_duration_choice : Z) (subject_data body_data asf_uid asf_fullname : string)
    (release : option Release) (promote : bool)
    (permitted_recipients : option (list string)) : M Task :=
  release <-
    match release with
    | Some r => ret r
    | None =>
        s <- get ;;
        lift_result
          (Interaction.demand
             (release_by_version (working s) project_name version_name)
             (AccessError "Release not found"))
    end ;;
  let permitted_recipients :=
    match permitted_recipients with
    | Some l => l
    | None => permitted_recipients_of asf_uid
    end in
  if negb (existsb (String.eqb email_to) permitted_recipients)
  then throw (AccessError "Invalid mailing list choice")
  else
    (if promote then
       error <- lift_result
                  (Interaction.missing_attribute (A := option string)
                     "promote_release") ;;
       match error with
       | Some e => if truthy e then throw (AccessError e) else ret tt
       | None => ret tt
       end
     else ret tt) ;;
    let task := {|
      task_status := QUEUED;
      task_type := VOTE_INITIATE;
      task_args :=
        Initiate (name_of release) email_to vote_duration_choice
          asf_uid asf_fullname subject_data body_data;
      task_result := None;
      added := utcnow;
      task_asf_uid := asf_uid;
      task_project_name := project_name;
      task_version_name := version_name
    |} in
    add_all [task] ;;
    commit ;;
    ret task.

Definition send_resolution (release : Release) (resolution body asf_uid asf_fullname : string)
    (latest_vote_task : Task) (extra_destination : option (string * string))
  : M (option string) :=
  match Interaction.task_mid_get is_dev_environment latest_vote_task with
  | None => ret (Some "No vote thread found, unable to send resolution message.")
  | Some vote_thread_mid =>
      email_recipient <- lift_result (args_email_to latest_vote_task) ;;
      let email_sender := (asf_uid ++ "@apache.org")%string in
      project <- lift_result (project_of release) ;;
      let subject :=
        ("[VOTE] [RESULT] Release " ++ project_display_name project ++ " "
         ++ version release ++ " " ++ upper resolution)%string in
      let signature :=
        if String.eqb asf_fullname asf_uid
        then ("-- " ++ nl ++ asf_fullname)%string
        else ("-- " ++ nl ++ asf_fullname ++ " (" ++ asf_uid ++ ")")%string in
      let body := (body ++ nl ++ nl ++ signature)%string in
      let in_reply_to := vote_thread_mid in
      let task := {|
        task_status := QUEUED;
        task_type := MESSAGE_SEND;
        task_args := Send email_sender email_recipient subject body in_reply_to;
        task_result := None;
        added := utcnow;
        task_asf_uid := asf_uid;
        task_project_name := project_name project;
        task_version_name := version release
      |} in
      let tasks :=
        match extra_destination with
        | Some (address, message_id) =>
            [ task;
              {| task_status := QUEUED;
                 task_type := MESSAGE_SEND;
                 task_args := Send email_sender address subject body message_id;
                 task_result := None;
                 added := utcnow;
                 task_asf_uid := asf_uid;
                 task_project_name := project_name project;
                 task_version_name := version release |} ]
        | None => [task]
        end in
      add_all tasks ;;
      commit ;;
      ret None
  end.

Definition resolve_release (project_name : string) (release : Release)
    (voting_round : option Z) (vote_result : string) (latest_vote_task : Task)
    (asf_fullname resolution_body : string)
  : M (Release * option Z * string * option string) :=
  '(release, success_message, extra_destination) <-
    (if match voting_round with Some 1%Z => true | _ => false end
        && String.eqb vote_result "passed"
     then
       let task_mid := Interaction.task_mid_get is_dev_environment latest_vote_task in
       archive_url <- lift_result
                        (Interaction.missing_attribute (A := option string)
                           "task_archive_url_cached") ;;
       match archive_url with
       | None => throw (ValueError "No archive URL found for podling vote")
       | Some archive_url =>
           let thread_id := last_field (split_char "/" archive_url) in
           let release := set_podling_thread_id release (Some thread_id) in
           store_release release ;;
           let incubator_vote_address := USER_TESTS_ADDRESS in
           project <- lift_result (project_of release) ;;
           match committee project with
           | None => throw (ValueError "Project has no committee")
           | Some _ =>
               match latest_revision_number release with
               | None => throw (ValueError "Release has no revision number")
               | Some revision_number =>
                   vote_duration <- lift_result (args_vote_duration latest_vote_task) ;;
                   body_data <- lift_result (start_vote_default (Models.project_name project)) ;;
                   start incubator_vote_address (Models.project_name project)
                     (version release) revision_number vote_duration
                     ("[VOTE] Release " ++ project_display_name project ++ " "
                      ++ version release)%string
                     body_data self_asf_uid asf_fullname
                     (Some release) false (Some [incubator_vote_address]) ;;
                   ret (release,
                        "Project PPMC vote marked as passed, and Incubator PMC vote automatically started",
                        None)
               end
           end
       end
     else if String.eqb vote_result "passed" then
       let release := set_phase release RELEASE_PREVIEW in
       store_release release ;;
       let description := "Create a preview revision from the last candidate draft" in
       number <- lift_result
                   (create_and_manage project_name (version release) self_asf_uid
                      description) ;;
       modify (fun s =>
         {| working :=
              with_revisions (working s)
                (db_revisions (working s)
                 ++ [ {| revision_release_name := name_of release;
                         revision_number := number;
                         revision_asfuid := self_asf_uid;
                         revision_description := description |} ]);
            committed := committed s |}) ;;
       match voting_round, podling_thread_id release with
       | Some 2%Z, Some thread_id =>
           destination <- lift_result (email_mid_from_thread_id thread_id) ;;
           ret (release, "Vote marked as passed", Some destination)
       | _, _ => ret (release, "Vote marked as passed", None)
       end
     else
       let release := set_phase release RELEASE_CANDIDATE_DRAFT in
       store_release release ;;
       ret (release, "Vote marked as failed", None)) ;;
  commit ;;
  error_message <-
    send_resolution release vote_result resolution_body self_asf_uid asf_fullname
      latest_vote_task extra_destination ;;
  ret (release, voting_round, success_message, error_message).

Definition resolve (project_name version_name vote_result asf_fullname resolution_body : string)
  : M (Release * option Z * string * option string) :=
  s <- get ;;
  release <-
    lift_result
      (Interaction.demand
         (release_by_name (working s) (release_name project_name version_name)
            RELEASE_CANDIDATE)
         (AccessError "Release not found")) ;;
  project <- lift_result (project_of release) ;;
  let is_podling :=
    match committee project with
    | Some c => Models.is_podling c
    | None => false
    end in
  let podling_thread_id := Models.podling_thread_id release in
  match Interaction.release_latest_vote_task is_dev_environment (committed s) release with
  | None => throw (RuntimeError "No vote task found, unable to send resolution message.")
  | Some latest_vote_task =>
      let voting_round :=
        if is_podling
        then Some (match podling_thread_id with None => 1%Z | Some _ => 2%Z end)
        else None in
      match release_committee release with
      | None => throw (ValueError "Project has no committee")
      | Some _ =>
          resolve_release project_name release voting_round vote_result
            latest_vote_task asf_fullname resolution_body
      end
  end.

End CommitteeMember.

End VoteWriter.

(* ===================================================================== *)
(** * Notions used to state the properties *)
(* ===================================================================== *)

Module Notions.

Import PyStr.
Import Models.
Import Tabulate.

(** A line break as a string. *)
Definition nl_string : string := String newline EmptyString.

(** How many of the three tests of the ballot parser a line satisfies. *)
Definition tests_satisfied (line : string) : nat :=
  Nat.b2n (plus_one line) + Nat.b2n (minus_one line) + Nat.b2n (zero line).

(** A line at which the scan of a body stops. *)
Definition terminates_scan (line : string) : bool :=
  negb (_vote_continue line) && _vote_break line.

(** The entries of a vote map with BINDING status and a given vote. *)
Definition binding_with (v : Vote.t) (tabulated_votes : PyDict.t VoteEmail) : Z :=
  Z.of_nat
    (List.length
       (List.filter
          (fun e => VoteStatus.eqb (status e) VoteStatus.BINDING && Vote.eqb (vote e) v)
          (PyDict.values tabulated_votes))).

(** The entries of a vote map with BINDING status. *)
Definition binding_entries (tabulated_votes : PyDict.t VoteEmail) : PyDict.t VoteEmail :=
  List.filter (fun kv => VoteStatus.eqb (status (snd kv)) VoteStatus.BINDING)
    tabulated_votes.

(** The number of entries of a vote map whose status is one of [statuses]. *)
Definition entries_with_status (statuses : list VoteStatus.t)
    (tabulated_votes : PyDict.t VoteEmail) : Z :=
  Z.of_nat
    (List.length
       (List.filter (fun e => existsb (VoteStatus.eqb (status e)) statuses)
          (PyDict.values tabulated_votes))).

(** The number of entries of a vote map that vote ABSTAIN. *)
Definition abstentions (tabulated_votes : PyDict.t VoteEmail) : nat :=
  List.length
    (List.filter (fun e => Vote.eqb (vote e) Vote.ABSTAIN)
       (PyDict.values tabulated_votes)).

(** What one turn of the loop adds to the counter [k]. *)
Definition summary_delta (e : VoteEmail) (k : string) : Z :=
  let prefix :=
    match status e with
    | VoteStatus.BINDING => "binding_votes"%string
    | VoteStatus.COMMITTER | VoteStatus.CONTRIBUTOR => "non_binding_votes"%string
    | VoteStatus.UNKNOWN => "unknown_votes"%string
    end in
  ((if String.eqb prefix k then 1 else 0)
   + (if String.eqb (prefix ++ "_yes") k then one_if_value e "Yes" else 0)
   + (if String.eqb (prefix ++ "_no") k then one_if_value e "No" else 0)
   + (if String.eqb (prefix ++ "_abstain") k then one_if_value e "Abstain" else 0))%Z.

(** The message of an outcome, from whether the vote passes and the hours
    that remain, when a minimum duration applies. *)
Definition outcome_message (passed : bool) (remaining : option PyNum.num) : string :=
  match remaining with
  | Some r =>
      if PyNum.gt_zero r
      then ("The vote is still open for " ++ PyNum.num_str (PyNum.round2 r)
            ++ " hours, but it would " ++ (if passed then "pass" else "fail")
            ++ " if closed now.")%string
      else if passed then "The vote passed." else "The vote failed."
  | None =>
      if passed then "The vote passed." else "The vote would fail if closed now."
  end.

(** The duration a vote has run: 0 when the start is unknown, else the
    quotient of the elapsed seconds by 3600. *)
Definition duration_is (now : Z) (start_unixtime : option Z) (duration : PyNum.num) : Prop :=
  match start_unixtime with
  | None => duration = PyNum.Int 0
  | Some s => exists x, PyNum.int_truediv (now - s) 3600 = inr x /\ duration = PyNum.Float x
  end.

(** The hours that remain of a minimum of [h] hours. *)
Definition remains_of (h : Z) (duration : PyNum.num) (remaining : option PyNum.num) : Prop :=
  exists r, PyNum.int_sub h duration = inr r /\ remaining = Some r.

(** The policy of the project of a release, when it has both. *)
Definition policy_of (release : Release) : option ReleasePolicy :=
  match release_project release with
  | Some project => release_policy project
  | None => None
  end.

(** The message as two templates without a minimum duration: a vote that is
    not still open has passed or has failed. *)
Definition two_way_message (passed : bool) (remaining : option PyNum.num) : string :=
  match remaining with
  | Some r =>
      if PyNum.gt_zero r
      then ("The vote is still open for " ++ PyNum.num_str (PyNum.round2 r)
            ++ " hours, but it would " ++ (if passed then "pass" else "fail")
            ++ " if closed now.")%string
      else if passed then "The vote passed." else "The vote failed."
  | None => if passed then "The vote passed." else "The vote failed."
  end.

(** The start time after a message with an identity. *)
Definition start_after (start_unixtime : option Z) (msg : Message) : option Z :=
  match start_unixtime with
  | None => epoch_start msg
  | Some _ => start_unixtime
  end.

Section TabulatorNotions.

Variable email_from_uid : string -> option string.
Variable is_dev_environment : bool.
Variable committee_by_name : string -> option Committee.
Variable committee : option Committee.
Variable email_to_uid : PyDict.t string.

(** Whether the sender of a message resolves to an identity. *)
Definition valid_identity (msg : Message) : bool :=
  fst (fst (_vote_identity email_from_uid (from_raw msg) email_to_uid)).

(** The key under which a message is tabulated: the uid of the sender, or
    the address when there is no uid. *)
Definition voter_key (msg : Message) : string :=
  let '(_, from_email_lower, asf_uid) :=
    _vote_identity email_from_uid (from_raw msg) email_to_uid in
  match asf_uid with
  | Some uid => uid
  | None => from_email_lower
  end.

(** A message at which the tabulator stops. *)
Definition is_cutoff (msg : Message) : bool :=
  valid_identity msg && contains (subject msg) "[RESULT]".

(** A message that bears castings. *)
Definition bears_castings (msg : Message) : bool :=
  valid_identity msg && truthy (body msg)
  && match _vote_castings (body msg) with [] => false | _ :: _ => true end.

(** A message that bears castings of the voter [k]. *)
Definition casts_for (k : string) (msg : Message) : bool :=
  bears_castings msg && String.eqb (voter_key msg) k.

(** The entry built from a message, with a given [updated] flag. *)
Definition vote_email_of (msg : Message) (again : bool) : VoteEmail :=
  let '(_, from_email_lower, asf_uid) :=
    _vote_identity email_from_uid (from_raw msg) email_to_uid in
  let castings := _vote_castings (body msg) in
  {| asf_uid_or_email := voter_key msg;
     from_email := from_email_lower;
     status :=
       match asf_uid with
       | Some uid =>
           _vote_status is_dev_environment committee_by_name uid (list_raw msg) committee
       | None => VoteStatus.UNKNOWN
       end;
     asf_eid := mid msg;
     iso_datetime := date msg;
     vote :=
       match castings with
       | [c] => fst c
       | _ => Vote.UNKNOWN
       end;
     quotation := join " // " (List.map snd castings);
     updated := again |}.

(** The epoch of the first message with an identity and a truthy epoch. *)
Fixpoint first_start (messages : list (string * Message)) : option Z :=
  match messages with
  | [] => None
  | (_, msg) :: rest =>
      if valid_identity msg then
        match epoch_start msg with
        | Some e => Some e
        | None => first_start rest
        end
      else first_start rest
  end.

End TabulatorNotions.

(** The rows [all_releases] sorts: the releases of the project, each with
    its [project] set. *)
Definition project_rows (db : Database) (project : Project) : list Release :=
  List.map
    (fun r => {| release_project := Some project;
                 release_project_name := release_project_name r;
                 version := version r;
                 phase := phase r;
                 podling_thread_id := podling_thread_id r;
                 latest_revision_number := latest_revision_number r |})
    (List.filter
       (fun r => String.eqb (release_project_name r) (project_name project))
       (db_releases db)).

(** [a] does not come before [b] in the order of a key that both have. *)
Definition not_below {A K : Type} (ltb : K -> K -> bool) (key : A -> option K)
    (a b : A) : Prop :=
  exists ka kb, key a = Some ka /\ key b = Some kb /\ ltb ka kb = false.

(** The rows of the release table after [release] is written. *)
Definition replace_row (release : Release) (rows : list Release) : list Release :=
  List.map
    (fun row => if String.eqb (name_of row) (name_of release) then release else row)
    rows.

(** Whether the committee of the project of a release is a podling. *)
Definition podling_release (release : Release) : bool :=
  match release_project release with
  | Some project =>
      match committee project with
      | Some c => is_podling c
      | None => false
      end
  | None => false
  end.

(** A task that is a queued message to send. *)
Definition queued_message (t : Task) : Prop :=
  task_type t = MESSAGE_SEND /\ task_status t = QUEUED.

End Notions.

(* ===================================================================== *)
(** * Example data *)
(* ===================================================================== *)

Module Examples.

Import PyStr.
Import Models.
Import Tabulate.

(** A committee with four members, as in scenario S1. *)
Definition committee_s1 : Committee := {|
  committee_name := "tooling";
  committee_display_name := "Tooling";
  is_podling := false;
  committee_members := ["m1"; "m2"; "m3"; "m4"];
  committers := ["m1"; "m2"; "m3"; "m4"; "c1"]
|}.

Definition policy_with (hours : option Z) : ReleasePolicy := {|
  policy_id := 1;
  min_hours := hours;
  github_repository_name := "foo";
  github_compose_workflow_path := [];
  github_vote_workflow_path := [".github/workflows/release.yml"];
  github_finish_workflow_path := []
|}.

Definition project_with (c : option Committee) (policy : option ReleasePolicy) : Project := {|
  project_name := "foo";
  project_display_name := "Apache Foo";
  Models.committee := c;
  release_policy := policy
|}.

Definition release_with (project : option Project) (thread_id : option string) : Release := {|
  release_project := project;
  release_project_name := "foo";
  version := "1.0.0";
  phase := RELEASE_CANDIDATE;
  podling_thread_id := thread_id;
  latest_revision_number := Some "00003"
|}.

(** A release whose policy sets [min_hours] to 0. *)
Definition release_no_minimum : Release :=
  release_with (Some (project_with (Some committee_s1) (Some (policy_with (Some 0%Z))))) None.

(** A release whose policy leaves [min_hours] unset. *)
Definition release_unset_minimum : Release :=
  release_with (Some (project_with (Some committee_s1) (Some (policy_with None)))) None.

(** A release whose policy asks for 72 hours. *)
Definition release_72 : Release :=
  release_with (Some (project_with (Some committee_s1) (Some (policy_with (Some 72%Z))))) None.

Definition ballot (uid : string) (s : VoteStatus.t) (v : Vote.t) (again : bool) : VoteEmail := {|
  asf_uid_or_email := uid;
  from_email := (uid ++ "@apache.org")%string;
  status := s;
  asf_eid := "";
  iso_datetime := "";
  vote := v;
  quotation := "";
  updated := again
|}.

(** The vote map of scenario S1, with a contributor against. *)
Definition votes_s1 : PyDict.t VoteEmail :=
  [ ("m1", ballot "m1" VoteStatus.BINDING Vote.YES false);
    ("m2", ballot "m2" VoteStatus.BINDING Vote.YES false);
    ("m3", ballot "m3" VoteStatus.BINDING Vote.YES true);
    ("m4", ballot "m4" VoteStatus.BINDING Vote.YES false);
    ("x1", ballot "x1" VoteStatus.CONTRIBUTOR Vote.NO false) ].

(** An address reader for headers that hold a bare lower-case address. *)
Definition plain_address (raw : string) : option string :=
  if contains raw "@" then Some raw else None.

Definition no_committee_lookup (_ : string) : option Committee := None.

Definition mail (sender title text : string) (e : option Z) : Message := {|
  from_raw := sender;
  list_raw := "dev.foo.apache.org";
  epoch := e;
  subject := title;
  body := text;
  mid := "";
  date := ""
|}.

Definition reply (sender text : string) (e : Z) : string * Message :=
  (sender, mail sender "Re: [VOTE] Release Apache Foo 1.0.0" text (Some e)).

(** The first four messages of scenario S1. *)
Definition thread_s1_first : list (string * Message) :=
  [ reply "m1@apache.org" "+1" 1700000000;
    reply "m2@apache.org" "+1 (binding)" 1700000100;
    reply "m3@apache.org" "-1, the signature is wrong" 1700000200;
    reply "m4@apache.org" "+1" 1700000300 ].

(** The change of mind of scenario S1. *)
Definition change_of_mind : Message :=
  mail "m3@apache.org" "Re: [VOTE] Release Apache Foo 1.0.0"
    "+1 now that it is fixed" (Some 1700000400%Z).

(** The result mail of a vote. *)
Definition result_mail : string * Message :=
  ("result",
   mail "m1@apache.org" "[VOTE] [RESULT] Release Apache Foo 1.0.0 PASSED"
     "The vote passed." (Some 1700300000%Z)).

(** A result mail whose sender cannot be read. *)
Definition result_mail_unread_sender : string * Message :=
  ("result",
   mail "undisclosed" "[VOTE] [RESULT] Release Apache Foo 1.0.0 PASSED"
     "The vote passed." (Some 1700300000%Z)).

(** A vote sent after the result. *)
Definition late_vote : string * Message :=
  reply "m5@apache.org" "+1" 1700400000.

Definition release_of (project v : string) : Release := {|
  release_project := None;
  release_project_name := project;
  version := v;
  phase := RELEASE;
  podling_thread_id := None;
  latest_revision_number := None
|}.

(** A release table with versions that are not all PEP 440 versions. *)
Definition database_versions : Database := {|
  db_releases :=
    [ release_of "foo" "1.9.0";
      release_of "foo" "1.10.0";
      release_of "bar" "7.0";
      release_of "foo" "1.10.0-rc1";
      release_of "foo" "1.x";
      release_of "foo" "2.0.0+build5" ];
  db_projects := [];
  db_release_policies := [];
  db_tasks := [];
  db_revisions := []
|}.

(** A release table with versions that are single integers. *)
Definition database_integers : Database := {|
  db_releases :=
    [ release_of "foo" "9"; release_of "foo" "10"; release_of "foo" "2" ];
  db_projects := [];
  db_release_policies := [];
  db_tasks := [];
  db_revisions := []
|}.

(** A reader of the versions that are a single integer, which PEP 440
    orders by value. *)
Definition integer_version (s : string) : option Z := Interaction.py_int s.

(** The claims of the token of scenario S6. *)
Definition payload_s6 : PyDict.t string :=
  [ ("actor_id", "12345");
    ("repository", "apache/foo");
    ("workflow_ref", "apache/foo/.github/workflows/release.yml@refs/heads/main") ].

(** A verifier that accepts one token, and a directory with one actor. *)
Definition verify_s6 (jwt : string) : PyResult (PyDict.t string) :=
  if String.eqb jwt "signed-token" then inr payload_s6
  else inl (ExternalError "token does not verify").

Definition directory_s6 (actor_id : string) : PyResult string :=
  if String.eqb actor_id "12345" then inr "m1"
  else inl (ExternalError "no such actor").

(** The tables of scenario S6: one policy, whose vote allowlist holds the
    workflow path, bound to one project. *)
Definition database_s6 : Database := {|
  db_releases := [];
  db_projects := [ project_with (Some committee_s1) (Some (policy_with (Some 72%Z))) ];
  db_release_policies := [ policy_with (Some 72%Z) ];
  db_tasks := [];
  db_revisions := []
|}.

(** A podling committee, and a candidate release of its project. *)
Definition committee_podling : Committee := {|
  committee_name := "foo";
  committee_display_name := "Foo";
  is_podling := true;
  committee_members := ["m1"; "m2"; "m3"];
  committers := ["m1"; "m2"; "m3"]
|}.

Definition release_podling (thread_id : option string) : Release :=
  release_with (Some (project_with (Some committee_podling) None)) thread_id.

Definition release_top_level : Release :=
  release_with (Some (project_with (Some committee_s1) None)) None.

(** The vote task of the first round, finished, with its archive message id. *)
Definition vote_task_done : Task := {|
  task_status := COMPLETED;
  task_type := VOTE_INITIATE;
  task_args :=
    Initiate "foo-1.0.0" "dev@foo.apache.org" 72 "m1" "Member One"
      "[VOTE] Release Apache Foo 1.0.0" "Please vote.";
  task_result := Some (VoteInitiate "mid-1@apache.org" "https://lists.apache.org/thread/abc123");
  added := 1700000000;
  task_asf_uid := "m1";
  task_project_name := "foo";
  task_version_name := "1.0.0"
|}.

Definition session_of (release : Release) : VoteWriter.Session :=
  let db := {| db_releases := [release];
               db_projects := [];
               db_release_policies := [];
               db_tasks := [vote_task_done];
               db_revisions := [] |} in
  {| VoteWriter.working := db; VoteWriter.committed := db |}.

(** The collaborators of the writer. *)
Definition user_tests_address : string := "user-tests@tooling.apache.org".

Definition vote_body_for (_ : string) : PyResult string := inr "Please vote again.".

Definition new_revision (_ _ _ _ : string) : PyResult string := inr "00004".

Definition first_round_thread (_ : string) : PyResult (string * string) :=
  inr ("dev@foo.apache.org", "mid-1@apache.org").

(** [resolve] by the member m1 with these collaborators. *)
Definition resolve_as_m1 (vote_result : string)
  : VoteWriter.M (Release * option Z * string * option string) :=
  VoteWriter.resolve false "m1" 1700300000 user_tests_address (fun _ => [])
    vote_body_for new_revision first_round_thread
    "foo" "1.0.0" vote_result "Member One" "The vote passed.".

(** [resolve_release] by the member m1 for a first-round pass. *)
Definition resolve_round_one_as_m1
  : VoteWriter.M (Release * option Z * string * option string) :=
  VoteWriter.resolve_release false "m1" 1700300000 user_tests_address (fun _ => [])
    vote_body_for new_revision first_round_thread
    "foo" (release_podling None) (Some 1%Z) "passed" vote_task_done
    "Member One" "The vote passed.".

(** What [resolve] returns for a non-podling release whose vote passed. *)
Definition top_level_out : Release * option Z * string * option string :=
  Eval vm_compute in
  match runStateT (resolve_as_m1 "passed") (session_of release_top_level) with
  | inr (out, _) => out
  | inl _ => (release_top_level, None, "", None)
  end.

Definition top_level_session : VoteWriter.Session :=
  Eval vm_compute in
  match runStateT (resolve_as_m1 "passed") (session_of release_top_level) with
  | inr (_, s) => s
  | inl _ => session_of release_top_level
  end.

End Examples.

(* ===================================================================== *)
(** * [atr/tabulate.py]: the resolution renderer *)
(* ===================================================================== *)

Module Render.

Import PyStr.
Import Models.
Import Tabulate.

Local Open Scope monad_scope.

(** [s.lower()] on the letters A to Z, which covers the values of the two
    enums the code applies it to; other characters are kept. *)
Definition lower_char (c : ascii) : ascii :=
  let n := nat_of_ascii c in
  if ((65 <=? n) && (n <=? 90))%nat then ascii_of_nat (n + 32) else c.

Fixpoint lower (s : string) : string :=
  match s with
  | EmptyString => EmptyString
  | String c rest => String (lower_char c) (lower rest)
  end.

(** The [match] of [_vote_resolution_votes] on the vote. *)
Definition symbol_of (v : Vote.t) : string :=
  match v with
  | Vote.YES => "+1"
  | Vote.NO => "-1"
  | Vote.ABSTAIN => "0"
  | Vote.UNKNOWN => "?"
  end.

(** The line [_vote_resolution_votes] yields for one entry. *)
Definition vote_line (vote_email : VoteEmail) : string :=
  let symbol := symbol_of (vote vote_email) in
  let user_info := asf_uid_or_email vote_email in
  let status := lower (VoteStatus.value (status vote_email)) in
  let status := if updated vote_email then (status ++ ", updated")%string else status in
  (symbol ++ " " ++ user_info ++ " (" ++ status ++ ")")%string.

(** [status in statuses] *)
Definition status_in (s : VoteStatus.t) (statuses : list VoteStatus.t) : bool :=
  existsb (VoteStatus.eqb s) statuses.

(** The header of a section; [statuses] lists the set in the order Python
    iterates over it. *)
Definition section_header (statuses : list VoteStatus.t) : string :=
  ("The " ++ join " and " (List.map (fun s => lower (VoteStatus.value s)) statuses)
   ++ " votes were cast as follows:")%string.

(** The loop of [_vote_resolution_votes] over the entries that are left:
    the lines it yields and the [header] variable at its end. *)
Fixpoint _vote_resolution_votes_loop (entries : list VoteEmail)
    (statuses : list VoteStatus.t) (header : option string)
  : list string * option string :=
  match entries with
  | [] => ([], header)
  | vote_email :: rest =>
      if negb (status_in (status vote_email) statuses)
      then _vote_resolution_votes_loop rest statuses header
      else
        let '(intro, header) :=
          match header with
          | Some h => ([h; ""%string], @None string)
          | None => ([], @None string)
          end in
        let '(lines, final) := _vote_resolution_votes_loop rest statuses header in
        (intro ++ vote_line vote_email :: lines, final)
  end.

(** [_vote_resolution_votes]: the lines the generator yields. *)
Definition _vote_resolution_votes (tabulated_votes : PyDict.t VoteEmail)
    (statuses : list VoteStatus.t) : list string :=
  let '(lines, header) :=
    _vote_resolution_votes_loop (PyDict.values tabulated_votes) statuses
      (Some (section_header statuses)) in
  lines ++ match header with
           | None => [""%string]
           | Some _ => []
           end.

(** [summary[k]] *)
Definition summary_item (summary : PyDict.t Z) (k : string) : PyResult Z :=
  match PyDict.get summary k with
  | Some v => inr v
  | None => inl (KeyError k)
  end.

Section Renderer.

(** The order in which Python iterates over the set
    [{VoteStatus.CONTRIBUTOR, VoteStatus.UNKNOWN}], which depends on the
    hashes of the two members: whether UNKNOWN comes first. *)
Variable unknown_first : bool.

Definition contributor_unknown : list VoteStatus.t :=
  if unknown_first
  then [VoteStatus.UNKNOWN; VoteStatus.CONTRIBUTOR]
  else [VoteStatus.CONTRIBUTOR; VoteStatus.UNKNOWN].

(** [_vote_resolution_body_votes]: the lines the generator yields, or the
    exception that ends it. *)
Definition _vote_resolution_body_votes (tabulated_votes : PyDict.t VoteEmail)
    (summary : PyDict.t Z) : PyResult (list string) :=
  let binding_lines := _vote_resolution_votes tabulated_votes [VoteStatus.BINDING] in
  binding_total <- summary_item summary "binding_votes" ;;
  let were_word := if (binding_total =? 1)%Z then "was" else "were" in
  let votes_word := if (binding_total =? 1)%Z then "vote" else "votes" in
  let total_line :=
    ("There " ++ were_word ++ " " ++ PyNum.int_str binding_total ++ " binding "
     ++ votes_word ++ ".")%string in
  binding_yes <- summary_item summary "binding_votes_yes" ;;
  binding_no <- summary_item summary "binding_votes_no" ;;
  binding_abstain <- summary_item summary "binding_votes_abstain" ;;
  let breakdown_line :=
    ("Of these binding votes, " ++ PyNum.int_str binding_yes ++ " were +1, "
     ++ PyNum.int_str binding_no ++ " were -1, and "
     ++ PyNum.int_str binding_abstain ++ " were 0.")%string in
  ret (binding_lines
       ++ [total_line; ""%string; breakdown_line; ""%string]
       ++ _vote_resolution_votes tabulated_votes [VoteStatus.COMMITTER]
       ++ _vote_resolution_votes tabulated_votes contributor_unknown).

(** The truth value of [release.podling_thread_id]. *)
Definition has_thread_id (release : Release) : bool :=
  match podling_thread_id release with
  | Some thread_id => truthy thread_id
  | None => false
  end.

(** [_vote_resolution_body]: the lines the generator yields, or the
    exception that ends it.  The [outcome] argument is overwritten before
    it is read. *)
Definition _vote_resolution_body (committee : Committee) (release : Release)
    (tabulated_votes : PyDict.t VoteEmail) (summary : PyDict.t Z) (passed : bool)
    (outcome full_name asf_uid thread_id : string) : PyResult (list string) :=
  let committee_name :=
    if has_thread_id release then "Incubator" else committee_display_name committee in
  let outcome := if passed then "passed" else "failed" in
  project <-
    match release_project release with
    | Some project => inr project
    | None => inl (AttributeError "'NoneType' object has no attribute 'name'")
    end ;;
  let archive_lines :=
    if has_thread_id release
    then [ "The previous round of voting is archived at the following URL:";
           "";
           ("https://lists.apache.org/thread/"
            ++ match podling_thread_id release with
               | Some t => t
               | None => ""
               end)%string;
           "";
           "The current vote thread is archived at the following URL:" ]%string
    else [ "The vote thread is archived at the following URL:"%string ] in
  votes_lines <- _vote_resolution_body_votes tabulated_votes summary ;;
  ret ([ ("Dear " ++ committee_name ++ " participants,")%string;
         ""%string;
         ("The vote on " ++ project_name project ++ " " ++ version release ++ " "
          ++ outcome ++ ".")%string;
         ""%string ]
       ++ archive_lines
       ++ [ ""%string;
            ("https://lists.apache.org/thread/" ++ thread_id)%string;
            ""%string ]
       ++ votes_lines
       ++ [ "Thank you for your participation."%string;
            ""%string;
            "Sincerely,"%string;
            (full_name ++ " (" ++ asf_uid ++ ")")%string ]).

(** [vote_resolution]: the lines joined by line breaks. *)
Definition vote_resolution (committee : Committee) (release : Release)
    (tabulated_votes : PyDict.t VoteEmail) (summary : PyDict.t Z) (passed : bool)
    (outcome full_name asf_uid thread_id : string) : PyResult string :=
  lines <- _vote_resolution_body committee release tabulated_votes summary passed
             outcome full_name asf_uid thread_id ;;
  ret (join (String newline EmptyString) lines).

End Renderer.

End Render.

(* ===================================================================== *)
(** * [atr/db/interaction.py]: the releases of a project by phase *)
(* ===================================================================== *)

Module Queries.

Import Models.
Import Interaction.

(** [release.project = project] *)
Definition set_project (project : Project) (r : Release) : Release :=
  {| release_project := Some project;
     release_project_name := release_project_name r;
     version := version r;
     phase := phase r;
     podling_thread_id := podling_thread_id r;
     latest_revision_number := latest_revision_number r |}.

(** [releases_by_phase] over the rows of the release table, each with the
    time in its [created] column.  The query orders by that time,
    descending; rows with equal times are taken in the order of the table. *)
Definition releases_by_phase (rows : list (Z * Release)) (project : Project)
    (wanted : ReleasePhase) : list Release :=
  let results :=
    sort_desc Z.ltb
      (List.filter
         (fun row =>
            String.eqb (release_project_name (snd row)) (project_name project)
            && phase_eqb (phase (snd row)) wanted)
         rows) in
  List.map (fun row => set_project project (snd row)) results.

Definition candidate_drafts (rows : list (Z * Release)) (project : Project) : list Release :=
  releases_by_phase rows project RELEASE_CANDIDATE_DRAFT.

Definition candidates (rows : list (Z * Release)) (project : Project) : list Release :=
  releases_by_phase rows project RELEASE_CANDIDATE.

Definition previews (rows : list (Z * Release)) (project : Project) : list Release :=
  releases_by_phase rows project RELEASE_PREVIEW.

Definition full_releases (rows : list (Z * Release)) (project : Project) : list Release :=
  releases_by_phase rows project RELEASE.

Definition releases_in_progress (rows : list (Z * Release)) (project : Project)
  : list Release :=
  let drafts := candidate_drafts rows project in
  let cands := candidates rows project in
  let prevs := previews rows project in
  drafts ++ cands ++ prevs.

End Queries.

(* ===================================================================== *)
(** * Further scenarios *)
(* ===================================================================== *)

Module Scenarios.

Import PyStr.
Import Models.
Import Tabulate.
Import Examples.

(** The lines of the resolution of a second round, after a first round
    archived under the thread id r1. *)
Definition resolution_lines_second_round : list string :=
  Eval vm_compute in
  match Render._vote_resolution_body false committee_podling
          (release_podling (Some "r1")) votes_s1 (vote_summary votes_s1) true
          "failed" "Member One" "m1" "r2" with
  | inr lines => lines
  | inl _ => []
  end.


(** [start] by the member m1 on the candidate of a top-level project,
    addressed to a list of the project. *)
Definition start_as_m1 (email_to : string) (promote : bool) : VoteWriter.M Task :=
  VoteWriter.start 1700000000 (fun _ => ["dev@foo.apache.org"])
    email_to "foo" "1.0.0" "00003" 72 "[VOTE] Release Apache Foo 1.0.0"
    "Please vote." "m1" "Member One" None promote None.

Definition started_task : Task :=
  Eval vm_compute in
  match runStateT (start_as_m1 "dev@foo.apache.org" false)
          (session_of release_top_level) with
  | inr (task, _) => task
  | inl _ => vote_task_done
  end.

Definition started_session : VoteWriter.Session :=
  Eval vm_compute in
  match runStateT (start_as_m1 "dev@foo.apache.org" false)
          (session_of release_top_level) with
  | inr (_, s) => s
  | inl _ => session_of release_top_level
  end.

(** [resolve_release] in the development environment, for a vote that
    failed. *)
Definition resolve_failed_in_dev
  : VoteWriter.M (Release * option Z * string * option string) :=
  VoteWriter.resolve_release true "m1" 1700300000 user_tests_address (fun _ => [])
    vote_body_for new_revision first_round_thread
    "foo" release_top_level None "failed" vote_task_done
    "Member One" "The vote failed.".

Definition dev_failed_out : Release * option Z * string * option string :=
  Eval vm_compute in
  match runStateT resolve_failed_in_dev (session_of release_top_level) with
  | inr (out, _) => out
  | inl _ => (release_top_level, None, "", None)
  end.

Definition dev_failed_session : VoteWriter.Session :=
  Eval vm_compute in
  match runStateT resolve_failed_in_dev (session_of release_top_level) with
  | inr (_, s) => s
  | inl _ => session_of release_top_level
  end.

(** [resolve_release] for the second round of a podling vote that passed,
    the first round being archived under the thread id r1. *)
Definition resolve_round_two_as_m1
  : VoteWriter.M (Release * option Z * string * option string) :=
  VoteWriter.resolve_release false "m1" 1700300000 user_tests_address (fun _ => [])
    vote_body_for new_revision first_round_thread
    "foo" (release_podling (Some "r1")) (Some 2%Z) "passed" vote_task_done
    "Member One" "The vote passed.".

Definition round_two_out : Release * option Z * string * option string :=
  Eval vm_compute in
  match runStateT resolve_round_two_as_m1 (session_of (release_podling (Some "r1"))) with
  | inr (out, _) => out
  | inl _ => (release_top_level, None, "", None)
  end.

Definition round_two_session : VoteWriter.Session :=
  Eval vm_compute in
  match runStateT resolve_round_two_as_m1 (session_of (release_podling (Some "r1"))) with
  | inr (_, s) => s
  | inl _ => session_of release_top_level
  end.


(** The thread of scenario S1 with the change of mind of m3. *)
Definition thread_s1 : list (string * Message) :=
  thread_s1_first ++ [("m3@apache.org", change_of_mind)].


(** The vote lines of the resolution of scenario S1. *)
Definition resolution_votes_s1 : list string :=
  Eval vm_compute in
  match Render._vote_resolution_body_votes false votes_s1 (vote_summary votes_s1) with
  | inr lines => lines
  | inl _ => []
  end.

End Scenarios.

(* ===================================================================== *)
(** * Further notions *)
(* ===================================================================== *)

Module QueryNotions.

Import Models.

(** A task that the query of [release_latest_vote_task] selects: a vote
    initiation of the release that has a result and, outside the
    development environment, is neither queued nor active. *)
Definition vote_task_of (is_dev_environment : bool) (release : Release) (t : Task)
  : Prop :=
  task_project_name t = release_project_name release
  /\ task_version_name t = version release
  /\ task_type t = VOTE_INITIATE
  /\ (is_dev_environment = false ->
      task_status t <> QUEUED /\ task_status t <> ACTIVE)
  /\ task_result t <> None.

(** A row of the release table that belongs to a project and is in one of
    the three phases before RELEASE. *)
Definition in_progress_row (project : Project) (row : Z * Release) : bool :=
  String.eqb (release_project_name (snd row)) (project_name project)
  && negb (phase_eqb (phase (snd row)) RELEASE).

End QueryNotions.

(* ===================================================================== *)
(** * [atr/db/interaction.py]: the unfinished releases of a user *)
(* ===================================================================== *)

Module Unfinished.

Import Models.
Import Interaction.

(** [l.sort(key=key)] on entries that carry their keys: the stable sort
    into ascending order, which is the stable sort into descending order
    for the opposite order of the keys. *)
Definition sort_asc {A K : Type} (ltb : K -> K -> bool) (l : list (K * A))
  : list (K * A) :=
  sort_desc (fun a b => ltb b a) l.

Section UnfinishedReleases.

(** [user.projects(asfuid)] *)
Variable user_projects_of : string -> list Project.

(** [project.short_display_name] *)
Variable short_display_name : Project -> string.

Definition active_phases : list ReleasePhase :=
  [RELEASE_CANDIDATE_DRAFT; RELEASE_CANDIDATE; RELEASE_PREVIEW].

(** The query of the loop for one project, over the rows of the release
    table, each with the time in its [created] column: the rows of the
    project in an active phase, newest first. *)
Definition active_rows (rows : list (Z * Release)) (project : Project)
  : list (Z * Release) :=
  sort_desc Z.ltb
    (List.filter
       (fun row =>
          String.eqb (release_project_name (snd row)) (project_name project)
          && existsb (phase_eqb (phase (snd row))) active_phases)
       rows).

(** One turn of the loop: what it appends to [releases]. *)
Definition unfinished_of (rows : list (Z * Release)) (project : Project)
  : list (string * string * list (Z * Release)) :=
  match active_rows rows project with
  | [] => []
  | active_releases =>
      let active_releases :=
        List.map snd
          (sort_desc Z.ltb (List.map (fun row => (fst row, row)) active_releases)) in
      [(short_display_name project, project_name project, active_releases)]
  end.

Definition unfinished_releases (rows : list (Z * Release)) (asfuid : string)
  : list (string * string * list (Z * Release)) :=
  let user_projects := user_projects_of asfuid in
  let user_projects :=
    List.map snd
      (sort_asc String.ltb
         (List.map (fun p => (project_display_name p, p)) user_projects)) in
  List.flat_map (unfinished_of rows) user_projects.

End UnfinishedReleases.

End Unfinished.

(* ===================================================================== *)
(** * [atr/tabulate.py]: the committee of a vote *)
(* ===================================================================== *)

Module VoteCommittee.

Import PyStr.
Import Models.
Import Tabulate.

(** [list_raw.split(".apache.org", 1)[0].split(".", 1)[-1]], the
    expression [vote_committee] and [_vote_status] share. *)
Definition committee_label (list_raw : string) : string :=
  split_once_last "." (split_once_first ".apache.org" list_raw).

Section Committee.

(** [util.is_dev_environment()] *)
Variable is_dev_environment : bool.

(** [data.committee(name=...).get()] *)
Variable committee_by_name : string -> option Committee.

(** [vote_committee]; [thread] is what [util.thread_messages(thread_id)]
    yields, of which the loop reads the first message only. *)
Definition vote_committee (thread : list (string * Message)) (release : Release)
  : option Committee :=
  let committee :=
    match release_project release with
    | Some project => Models.committee project
    | None => None
    end in
  if is_dev_environment then
    match thread with
    | (_, msg) :: _ => committee_by_name (committee_label (list_raw msg))
    | [] => committee
    end
  else committee.

End Committee.

End VoteCommittee.

(* ===================================================================== *)
(** * Properties of the ballot parser *)
(* ===================================================================== *)

Section BallotParser.

Import PyStr.
Import Tabulate.
Import Notions.

(** The scan of a body runs through a block of lines none of which stops it,
    and goes on with what follows. *)
Lemma castings_loop_app (pre rest : list string) :
  Forall (fun l => terminates_scan l = false) pre ->
  _vote_castings_loop (pre ++ rest)
  = _vote_castings_loop pre ++ _vote_castings_loop rest.
Proof.
  induction 1 as [| l pre Hl Hpre IH]; [reflexivity |].
  unfold terminates_scan in Hl.
  cbn [app _vote_castings_loop].
  destruct (_vote_continue l); [exact IH |].
  destruct (_vote_break l); [discriminate Hl |].
  cbv zeta.
  destruct (plus_one l), (minus_one l), (zero l); cbn; rewrite IH; reflexivity.
Qed.

(** What the loop does with a line that is neither skipped nor a stop. *)
Lemma castings_loop_line (line : string) (post : list string) :
  _vote_continue line = false ->
  _vote_break line = false ->
  _vote_castings_loop (line :: post)
  = (if (2 <=? tests_satisfied line)%nat then []
     else if plus_one line then [(Vote.YES, line)]
     else if minus_one line then [(Vote.NO, line)]
     else if zero line then [(Vote.ABSTAIN, line)]
     else [])
    ++ _vote_castings_loop post.
Proof.
  intros Hc Hb. cbn [_vote_castings_loop]. rewrite Hc, Hb.
  unfold tests_satisfied. cbv zeta.
  destruct (plus_one line), (minus_one line), (zero line); reflexivity.
Qed.

(** C6: a line of a body that the scan reaches and that is neither skipped
    nor a stop produces no casting when it satisfies two or more of the
    plus_one, minus_one and zero tests, and produces [(YES, line)],
    [(NO, line)] or [(ABSTAIN, line)] when it satisfies exactly the first,
    the second or the third. *)
Theorem vote_castings_line_classification (body : string) (pre : list string)
    (line : string) (post : list string) :
  split_char newline body = pre ++ line :: post ->
  Forall (fun l => terminates_scan l = false) pre ->
  _vote_continue line = false ->
  _vote_break line = false ->
  exists produced : list (Vote.t * string),
    _vote_castings body
    = _vote_castings_loop pre ++ produced ++ _vote_castings_loop post
    /\ ((2 <= tests_satisfied line)%nat -> produced = [])
    /\ (tests_satisfied line = 1%nat -> plus_one line = true ->
        produced = [(Vote.YES, line)])
    /\ (tests_satisfied line = 1%nat -> minus_one line = true ->
        produced = [(Vote.NO, line)])
    /\ (tests_satisfied line = 1%nat -> zero line = true ->
        produced = [(Vote.ABSTAIN, line)]).
Proof.
  intros Hsplit Hpre Hc Hb.
  unfold _vote_castings. rewrite Hsplit.
  rewrite (castings_loop_app pre (line :: post) Hpre).
  rewrite (castings_loop_line line post Hc Hb).
  eexists. split; [reflexivity |].
  unfold tests_satisfied.
  destruct (plus_one line), (minus_one line), (zero line); cbn;
    repeat split; intros; try reflexivity; try discriminate; try lia.
Qed.

(** Three lines, the second of which is a single vote in favour. *)
Lemma vote_castings_line_classification_witness :
  exists produced : list (Vote.t * string),
    _vote_castings ("Hello," ++ nl_string ++ "+1 (binding)" ++ nl_string ++ "-- ")
    = _vote_castings_loop ["Hello,"] ++ produced ++ _vote_castings_loop ["-- "]
    /\ ((2 <= tests_satisfied "+1 (binding)")%nat -> produced = [])
    /\ (tests_satisfied "+1 (binding)" = 1%nat -> plus_one "+1 (binding)" = true ->
        produced = [(Vote.YES, "+1 (binding)")])
    /\ (tests_satisfied "+1 (binding)" = 1%nat -> minus_one "+1 (binding)" = true ->
        produced = [(Vote.NO, "+1 (binding)")])
    /\ (tests_satisfied "+1 (binding)" = 1%nat -> zero "+1 (binding)" = true ->
        produced = [(Vote.ABSTAIN, "+1 (binding)")]).
Proof.
  apply (vote_castings_line_classification
           ("Hello," ++ nl_string ++ "+1 (binding)" ++ nl_string ++ "-- ")
           ["Hello,"] "+1 (binding)" ["-- "]).
  - reflexivity.
  - repeat constructor.
  - reflexivity.
  - reflexivity.
Defined.

(** Lines the parser drops, skips and stops at. *)
Example vote_castings_examples :
  _vote_castings "+1 but -1 if the notice is not fixed" = []
  /\ _vote_castings ("> +1" ++ nl_string ++ "0 (no time to test)")
     = [(Vote.ABSTAIN, "0 (no time to test)")]
  /\ _vote_castings ("[ ] +1 approve" ++ nl_string ++ "-1" ++ nl_string ++ "-- "
                     ++ nl_string ++ "+1")
     = [(Vote.NO, "-1")]
  /\ _vote_castings ("On Mon, 3 Nov 2025 someone wrote:" ++ nl_string ++ "+1") = [].
Proof. repeat split; vm_compute; reflexivity. Qed.

End BallotParser.

(* ===================================================================== *)
(** * Properties of the vote summary *)
(* ===================================================================== *)

Section VoteSummary.

Import Tabulate.
Import Notions.

Local Open Scope Z_scope.

Lemma get_add_at (d : PyDict.t Z) (k k' : string) (n : Z) :
  PyDict.get (add_at d k n) k'
  = if String.eqb k k' then option_map (fun v => v + n) (PyDict.get d k')
    else PyDict.get d k'.
Proof.
  induction d as [| [k0 v0] d IH]; cbn.
  - destruct (String.eqb k k'); reflexivity.
  - destruct (String.eqb_spec k0 k) as [E | NE].
    + subst k0. cbn. destruct (String.eqb_spec k k'); reflexivity.
    + cbn. destruct (String.eqb_spec k0 k') as [E' | NE'].
      * subst k0. destruct (String.eqb_spec k k'); [congruence | reflexivity].
      * exact IH.
Qed.

Lemma get_summary_step (d : PyDict.t Z) (e : VoteEmail) (k : string) :
  PyDict.get (summary_step d e) k
  = option_map (fun v => v + summary_delta e k) (PyDict.get d k).
Proof.
  unfold summary_step, summary_delta.
  assert (H : forall prefix,
             PyDict.get (summary_branch d prefix e) k
             = option_map
                 (fun v => v
                    + ((if String.eqb prefix k then 1 else 0)
                       + (if String.eqb (prefix ++ "_yes") k
                          then one_if_value e "Yes" else 0)
                       + (if String.eqb (prefix ++ "_no") k
                          then one_if_value e "No" else 0)
                       + (if String.eqb (prefix ++ "_abstain") k
                          then one_if_value e "Abstain" else 0)))
                 (PyDict.get d k)).
  { intros prefix. unfold summary_branch. rewrite !get_add_at.
    destruct (PyDict.get d k) as [v |];
      destruct (String.eqb prefix k),
               (String.eqb (prefix ++ "_yes") k),
               (String.eqb (prefix ++ "_no") k),
               (String.eqb (prefix ++ "_abstain") k);
      cbn [option_map]; try reflexivity; f_equal; lia. }
  destruct (status e); apply H.
Qed.

Lemma get_summary_fold (l : list VoteEmail) (d : PyDict.t Z) (k : string) :
  PyDict.get (fold_left summary_step l d) k
  = option_map
      (fun v => v + fold_right (fun e acc => summary_delta e k + acc) 0 l)
      (PyDict.get d k).
Proof.
  revert d. induction l as [| e l IH]; intros d; cbn [fold_left fold_right].
  - destruct (PyDict.get d k); cbn; [f_equal; lia | reflexivity].
  - rewrite IH, get_summary_step.
    destruct (PyDict.get d k); cbn; [f_equal; lia | reflexivity].
Qed.

(** No vote has the value the abstain counters look for. *)
Lemma one_if_abstain_zero (e : VoteEmail) : one_if_value e "Abstain" = 0.
Proof. unfold one_if_value. destruct (vote e); reflexivity. Qed.

Lemma abstain_delta_zero (l : list VoteEmail) (k : string) :
  In k ["binding_votes_abstain"; "non_binding_votes_abstain"; "unknown_votes_abstain"]%string ->
  fold_right (fun e acc => summary_delta e k + acc) 0 l = 0.
Proof.
  intros Hk. induction l as [| e l IH]; [reflexivity |].
  cbn [fold_right]. rewrite IH.
  unfold summary_delta. rewrite one_if_abstain_zero.
  cbn in Hk.
  destruct Hk as [<- | [<- | [<- | []]]]; destruct (status e); cbn;
    repeat match goal with |- context [one_if_value ?a ?b] =>
      destruct (one_if_value a b) end; reflexivity.
Qed.

Lemma total_delta_count (l : list VoteEmail) (k : string) (statuses : list VoteStatus.t) :
  (k, statuses) = ("binding_votes"%string, [VoteStatus.BINDING])
  \/ (k, statuses)
     = ("non_binding_votes"%string, [VoteStatus.COMMITTER; VoteStatus.CONTRIBUTOR])
  \/ (k, statuses) = ("unknown_votes"%string, [VoteStatus.UNKNOWN]) ->
  fold_right (fun e acc => summary_delta e k + acc) 0 l
  = Z.of_nat
      (List.length
         (List.filter (fun e => existsb (VoteStatus.eqb (status e)) statuses) l)).
Proof.
  intros Hk. induction l as [| e l IH]; [reflexivity |].
  cbn [fold_right filter]. rewrite IH.
  unfold summary_delta.
  destruct Hk as [Hk | [Hk | Hk]]; injection Hk as -> ->;
    destruct (status e); cbn -[Z.of_nat Z.add one_if_value]; lia.
Qed.

(** C10: for every vote map, [vote_summary] returns 0 for the three abstain
    counters, whatever the votes are, since no vote has the value "Abstain";
    the entries that abstain are counted in the totals per status, which
    count every entry of the status. *)
Theorem vote_summary_abstain_counters_zero (tabulated_votes : PyDict.t VoteEmail) :
  PyDict.get (vote_summary tabulated_votes) "binding_votes_abstain" = Some 0
  /\ PyDict.get (vote_summary tabulated_votes) "non_binding_votes_abstain" = Some 0
  /\ PyDict.get (vote_summary tabulated_votes) "unknown_votes_abstain" = Some 0
  /\ Vote.value Vote.ABSTAIN <> "Abstain"%string
  /\ PyDict.get (vote_summary tabulated_votes) "binding_votes"
     = Some (entries_with_status [VoteStatus.BINDING] tabulated_votes)
  /\ PyDict.get (vote_summary tabulated_votes) "non_binding_votes"
     = Some (entries_with_status [VoteStatus.COMMITTER; VoteStatus.CONTRIBUTOR]
               tabulated_votes)
  /\ PyDict.get (vote_summary tabulated_votes) "unknown_votes"
     = Some (entries_with_status [VoteStatus.UNKNOWN] tabulated_votes).
Proof.
  unfold vote_summary, entries_with_status.
  repeat split; try discriminate;
    rewrite get_summary_fold; cbn [PyDict.get summary_init String.eqb Ascii.eqb Bool.eqb option_map];
    try (rewrite abstain_delta_zero; [reflexivity | cbn; tauto]);
    (erewrite total_delta_count; [reflexivity | tauto]).
Qed.

End VoteSummary.

(* ===================================================================== *)
(** * Properties of the outcome evaluator *)
(* ===================================================================== *)

Section OutcomeEvaluator.

Import Models.
Import Tabulate.
Import Notions.

Local Open Scope Z_scope.

(** A bind that returns went through a first step that returned. *)
Lemma bind_returns {A B : Type} (c : PyResult A) (k : A -> PyResult B) (v : B) :
  bind c k = inr v -> exists x, c = inr x /\ k x = inr v.
Proof.
  destruct c as [e | x]; cbn; intros H; [discriminate H | eauto].
Qed.

Lemma count_binding_fold (l : list VoteEmail) (a b : Z) :
  fold_left count_binding l (a, b)
  = (a + Z.of_nat (List.length (List.filter
           (fun e => VoteStatus.eqb (status e) VoteStatus.BINDING
                     && Vote.eqb (vote e) Vote.YES) l)),
     b + Z.of_nat (List.length (List.filter
           (fun e => VoteStatus.eqb (status e) VoteStatus.BINDING
                     && Vote.eqb (vote e) Vote.NO) l))).
Proof.
  revert a b. induction l as [| e l IH]; intros a b; cbn [fold_left filter].
  - cbn. f_equal; lia.
  - unfold count_binding at 2.
    destruct (status e), (vote e); cbn -[Z.of_nat Z.add]; rewrite IH;
      f_equal; lia.
Qed.

(** The counting loop of [vote_outcome] looks at BINDING entries only. *)
Lemma count_binding_entries (tabulated_votes : PyDict.t VoteEmail) (acc : Z * Z) :
  fold_left count_binding (PyDict.values (binding_entries tabulated_votes)) acc
  = fold_left count_binding (PyDict.values tabulated_votes) acc.
Proof.
  revert acc. unfold binding_entries, PyDict.values.
  induction tabulated_votes as [| [k e] l IH]; intros acc; [reflexivity |].
  cbn [filter map fold_left snd].
  destruct (VoteStatus.eqb (status e) VoteStatus.BINDING) eqn:E.
  - cbn [map fold_left snd]. apply IH.
  - rewrite IH. f_equal. unfold count_binding. destruct acc. rewrite E. reflexivity.
Qed.

(** [_vote_outcome_format] decides by the two counts and words the message
    by the decision and the hours that remain. *)
Lemma vote_outcome_format_spec (remaining : option PyNum.num) (plus minus : Z) :
  _vote_outcome_format remaining plus minus
  = ((3 <=? plus) && (minus <? plus),
     outcome_message ((3 <=? plus) && (minus <? plus)) remaining).
Proof.
  unfold _vote_outcome_format, outcome_message, still_open, rounded_str.
  destruct ((3 <=? plus) && (minus <? plus)); cbn [negb];
    destruct remaining as [r |]; try reflexivity;
    destruct (PyNum.gt_zero r); reflexivity.
Qed.

(** C1: whenever [vote_outcome] returns, its first component is true if
    and only if the entries with BINDING status that vote YES are at least 3
    and strictly more than the entries with BINDING status that vote NO; the
    entries with another status have no effect, since the call on the
    BINDING entries alone returns the same. *)
Theorem vote_outcome_passed_iff (now : Z) (release : Release)
    (start_unixtime : option Z) (tabulated_votes : PyDict.t VoteEmail)
    (passed : bool) (msg : string) :
  vote_outcome now release start_unixtime tabulated_votes = inr (passed, msg) ->
  (passed = true <->
     3 <= binding_with Vote.YES tabulated_votes
     /\ binding_with Vote.NO tabulated_votes < binding_with Vote.YES tabulated_votes)
  /\ vote_outcome now release start_unixtime (binding_entries tabulated_votes)
     = inr (passed, msg).
Proof.
  intros H. split.
  - unfold vote_outcome in H.
    apply bind_returns in H. destruct H as [duration [_ H]].
    apply bind_returns in H. destruct H as [remaining [_ H]].
    rewrite count_binding_fold, vote_outcome_format_spec in H.
    cbn in H. injection H as Hp _. subst passed.
    unfold binding_with.
    rewrite andb_true_iff, Z.leb_le, Z.ltb_lt. lia.
  - rewrite <- H. unfold vote_outcome.
    rewrite count_binding_entries. reflexivity.
Qed.

(** Scenario S1 with a contributor against: four binding votes in favour. *)
Lemma vote_outcome_passed_iff_witness :
  (true = true <->
     3 <= binding_with Vote.YES Examples.votes_s1
     /\ binding_with Vote.NO Examples.votes_s1 < binding_with Vote.YES Examples.votes_s1)
  /\ vote_outcome 1700000000 Examples.release_no_minimum (Some 1699990000)
       (binding_entries Examples.votes_s1)
     = inr (true, "The vote passed."%string).
Proof.
  apply (vote_outcome_passed_iff 1700000000 Examples.release_no_minimum
           (Some 1699990000) Examples.votes_s1 true "The vote passed.").
  vm_compute. reflexivity.
Defined.

(** [vote_outcome] returns unless a conversion to [float] overflows; with
    no start time it always returns. *)
Lemma vote_outcome_returns (now : Z) (release : Release)
    (start_unixtime : option Z) (tabulated_votes : PyDict.t VoteEmail) :
  (exists result, vote_outcome now release start_unixtime tabulated_votes = inr result)
  \/ (exists m, vote_outcome now release start_unixtime tabulated_votes
                = inl (OverflowError m)).
Proof.
  unfold vote_outcome.
  destruct start_unixtime as [s |].
  - unfold PyNum.int_truediv. cbn [Z.eqb].
    destruct (now - s =? 0).
    + cbn. 
      destruct (match release_project release with
                | Some project =>
                    match release_policy project with
                    | Some policy => or_none (min_hours policy)
                    | None => Some 72
                    end
                | None => Some 72
                end) as [h |]; cbn.
      * unfold PyNum.float_of_int. destruct (PyNum.is_infinite (PyNum.round_of_Z h)); cbn.
        -- right. eauto.
        -- destruct (fold_left count_binding (PyDict.values tabulated_votes) (0, 0)).
           left. eauto.
      * destruct (fold_left count_binding (PyDict.values tabulated_votes) (0, 0)).
        left. eauto.
    + destruct (PyNum.is_infinite _); cbn; [right; eauto |].
      destruct (match release_project release with
                | Some project =>
                    match release_policy project with
                    | Some policy => or_none (min_hours policy)
                    | None => Some 72
                    end
                | None => Some 72
                end) as [h |]; cbn.
      * unfold PyNum.float_of_int. destruct (PyNum.is_infinite (PyNum.round_of_Z h)); cbn.
        -- right. eauto.
        -- destruct (fold_left count_binding (PyDict.values tabulated_votes) (0, 0)).
           left. eauto.
      * destruct (fold_left count_binding (PyDict.values tabulated_votes) (0, 0)).
        left. eauto.
  - cbn.
    destruct (match release_project release with
              | Some project =>
                  match release_policy project with
                  | Some policy => or_none (min_hours policy)
                  | None => Some 72
                  end
              | None => Some 72
              end) as [h |]; cbn;
      destruct (fold_left count_binding (PyDict.values tabulated_votes) (0, 0));
      left; eauto.
Qed.

(** With a policy whose [min_hours] is 0 and no binding vote, the message
    is neither of the two that a closed vote would get; with a policy whose
    [min_hours] is unset, no minimum of 72 hours is taken either. *)
Lemma vote_outcome_message_counterexample :
  vote_outcome 1700000000 Examples.release_no_minimum None []
  = inr (false, "The vote would fail if closed now."%string)
  /\ vote_outcome 1700000000 Examples.release_no_minimum None []
     <> inr (false, two_way_message false None)
  /\ two_way_message false None = "The vote failed."%string
  /\ vote_outcome 1700000000 Examples.release_unset_minimum None []
     = inr (false, "The vote would fail if closed now."%string)
  /\ vote_outcome 1700000000 Examples.release_unset_minimum None []
     <> inr (false, two_way_message false (Some (PyNum.Int 72)))
  /\ two_way_message false (Some (PyNum.Int 72))
     = "The vote is still open for 72 hours, but it would fail if closed now."%string.
Proof.
  split; [vm_compute; reflexivity |].
  split; [vm_compute; discriminate |].
  split; [reflexivity |].
  split; [vm_compute; reflexivity |].
  split; [vm_compute; discriminate | vm_compute; reflexivity].
Qed.

(** C5, amended: [vote_outcome] takes the minimum duration to be 72 hours
    when the release has no project or the project no policy, the policy's
    [min_hours] when that is a non-zero integer, and none when the policy's
    [min_hours] is absent or 0.  The hours that remain are the minimum less
    the hours run.  The message is "The vote is still open for X hours, but
    it would pass|fail if closed now." with X the remaining hours rounded
    to 2 decimals when they are known and positive; otherwise it is "The
    vote passed." for a passing vote, "The vote failed." for a failing vote
    with a minimum duration, and "The vote would fail if closed now." for a
    failing vote without one. *)
Theorem vote_outcome_message (now : Z) (release : Release)
    (start_unixtime : option Z) (tabulated_votes : PyDict.t VoteEmail)
    (passed : bool) (msg : string) :
  vote_outcome now release start_unixtime tabulated_votes = inr (passed, msg) ->
  exists (duration : PyNum.num) (remaining : option PyNum.num),
    duration_is now start_unixtime duration
    /\ (policy_of release = None -> remains_of 72 duration remaining)
    /\ (forall policy h,
          policy_of release = Some policy -> min_hours policy = Some h -> h <> 0 ->
          remains_of h duration remaining)
    /\ (forall policy,
          policy_of release = Some policy ->
          min_hours policy = None \/ min_hours policy = Some 0 ->
          remaining = None)
    /\ msg = outcome_message passed remaining.
Proof.
  intros H. unfold vote_outcome in H.
  apply bind_returns in H. destruct H as [duration [Hd H]].
  apply bind_returns in H. destruct H as [remaining [Hr H]].
  destruct (fold_left count_binding (PyDict.values tabulated_votes) (0, 0))
    as [plus minus].
  rewrite vote_outcome_format_spec in H. cbn in H.
  injection H as Hp Hm. rewrite Hp in Hm. symmetry in Hm.
  exists duration, remaining.
  split.
  { unfold duration_is. destruct start_unixtime as [s |].
    - apply bind_returns in Hd. destruct Hd as [x [Hx Hd]].
      cbn in Hd. injection Hd as <-. eauto.
    - cbn in Hd. injection Hd as <-. reflexivity. }
  unfold policy_of, remains_of.
  destruct (release_project release) as [project |].
  - destruct (release_policy project) as [policy |].
    + repeat split; try discriminate; [| | exact Hm].
      * intros policy' h Hpol Hmin Hh. injection Hpol as <-.
        rewrite Hmin in Hr. cbn in Hr.
        destruct (Z.eqb_spec h 0) as [E | _]; [contradiction |].
        apply bind_returns in Hr. destruct Hr as [r [Hs Hr]].
        cbn in Hr. injection Hr as <-. eauto.
      * intros policy' Hpol Hmin. injection Hpol as <-.
        destruct Hmin as [Hmin | Hmin]; rewrite Hmin in Hr; cbn in Hr;
          injection Hr as <-; reflexivity.
    + repeat split; try discriminate; [| exact Hm].
      intros _. apply bind_returns in Hr. destruct Hr as [r [Hs Hr]].
      cbn in Hr. injection Hr as <-. eauto.
  - repeat split; try discriminate; [| exact Hm].
    intros _. apply bind_returns in Hr. destruct Hr as [r [Hs Hr]].
    cbn in Hr. injection Hr as <-. eauto.
Qed.

(** Scenario S1 half an hour into a vote of at least 72 hours. *)
Lemma vote_outcome_message_witness :
  exists (duration : PyNum.num) (remaining : option PyNum.num),
    duration_is 1700001800 (Some 1700000000) duration
    /\ (policy_of Examples.release_72 = None -> remains_of 72 duration remaining)
    /\ (forall policy h,
          policy_of Examples.release_72 = Some policy ->
          min_hours policy = Some h -> h <> 0 ->
          remains_of h duration remaining)
    /\ (forall policy,
          policy_of Examples.release_72 = Some policy ->
          min_hours policy = None \/ min_hours policy = Some 0 ->
          remaining = None)
    /\ "The vote is still open for 71.5 hours, but it would pass if closed now."%string
       = outcome_message true remaining.
Proof.
  apply (vote_outcome_message 1700001800 Examples.release_72 (Some 1700000000)
           Examples.votes_s1 true
           "The vote is still open for 71.5 hours, but it would pass if closed now.").
  vm_compute. reflexivity.
Defined.

End OutcomeEvaluator.

(* ===================================================================== *)
(** * Properties of the tabulator *)
(* ===================================================================== *)

Section TabulatorFacts.

Import PyStr.
Import Models.
Import Tabulate.
Import Notions.

Variable email_from_uid : string -> option string.
Variable is_dev_environment : bool.
Variable committee_by_name : string -> option Committee.
Variable committee : option Committee.
Variable email_to_uid : PyDict.t string.

Local Abbreviation valid := (valid_identity email_from_uid email_to_uid).
Local Abbreviation key_of := (voter_key email_from_uid email_to_uid).
Local Abbreviation cutoff := (is_cutoff email_from_uid email_to_uid).
Local Abbreviation bears := (bears_castings email_from_uid email_to_uid).
Local Abbreviation casts := (casts_for email_from_uid email_to_uid).
Local Abbreviation entry_of :=
  (vote_email_of email_from_uid is_dev_environment committee_by_name committee
     email_to_uid).
Local Abbreviation body_of :=
  (votes_body email_from_uid is_dev_environment committee_by_name committee
     email_to_uid).
Local Abbreviation loop :=
  (votes_loop email_from_uid is_dev_environment committee_by_name committee
     email_to_uid).
Local Abbreviation tabulate :=
  (votes email_from_uid is_dev_environment committee_by_name committee
     email_to_uid).

Lemma get_set_same {V : Type} (d : PyDict.t V) (k : string) (v : V) :
  PyDict.get (PyDict.set d k v) k = Some v.
Proof.
  induction d as [| [k0 v0] d IH]; cbn.
  - rewrite String.eqb_refl. reflexivity.
  - destruct (String.eqb k0 k) eqn:E; cbn; rewrite E; [reflexivity | exact IH].
Qed.

Lemma get_set_other {V : Type} (d : PyDict.t V) (k k' : string) (v : V) :
  k <> k' -> PyDict.get (PyDict.set d k v) k' = PyDict.get d k'.
Proof.
  intros NE. induction d as [| [k0 v0] d IH]; cbn.
  - destruct (String.eqb_spec k k'); [contradiction | reflexivity].
  - destruct (String.eqb_spec k0 k) as [E | NE0]; cbn.
    + subst k0. destruct (String.eqb_spec k k'); [contradiction | reflexivity].
    + destruct (String.eqb k0 k'); [reflexivity | exact IH].
Qed.

Lemma set_keyed (d : PyDict.t VoteEmail) (k : string) (e : VoteEmail) :
  asf_uid_or_email e = k ->
  Forall (fun kv => asf_uid_or_email (snd kv) = fst kv) d ->
  Forall (fun kv => asf_uid_or_email (snd kv) = fst kv) (PyDict.set d k e).
Proof.
  intros He. induction 1 as [| [k0 v0] d H0 Hd IH]; cbn.
  - constructor; [exact He | constructor].
  - destruct (String.eqb_spec k0 k) as [E | NE].
    + constructor; [cbn; congruence | exact Hd].
    + constructor; [exact H0 | exact IH].
Qed.

(** The body of the loop, case by case. *)
Lemma votes_body_cases (msg : Message) (start_unixtime : option Z)
    (tabulated_votes : PyDict.t VoteEmail) :
  body_of msg start_unixtime tabulated_votes
  = if negb (valid msg) then Continue start_unixtime tabulated_votes
    else if cutoff msg then Break (start_after start_unixtime msg) tabulated_votes
    else if bears msg
    then Continue (start_after start_unixtime msg)
           (PyDict.set tabulated_votes (key_of msg)
              (entry_of msg (PyDict.mem tabulated_votes (key_of msg))))
    else Continue (start_after start_unixtime msg) tabulated_votes.
Proof.
  unfold votes_body, is_cutoff, bears_castings, vote_email_of, valid_identity,
    voter_key, start_after.
  destruct (_vote_identity email_from_uid (from_raw msg) email_to_uid)
    as [[ok from_email_lower] asf_uid].
  cbn [fst snd].
  destruct ok; cbn [negb andb]; [| reflexivity].
  destruct asf_uid as [uid |];
    (destruct (contains (subject msg) "[RESULT]"); [reflexivity |];
     destruct (truthy (body msg)); cbn [negb andb]; [| reflexivity];
     destruct (_vote_castings (body msg)) as [| c [| c' others]]; reflexivity).
Qed.

Lemma loop_cons (i : string) (msg : Message) (rest : list (string * Message))
    (st : option Z) (tab : PyDict.t VoteEmail) :
  loop ((i, msg) :: rest) st tab
  = if negb (valid msg) then loop rest st tab
    else if cutoff msg then (start_after st msg, tab)
    else if bears msg
    then loop rest (start_after st msg)
           (PyDict.set tab (key_of msg) (entry_of msg (PyDict.mem tab (key_of msg))))
    else loop rest (start_after st msg) tab.
Proof.
  cbn [votes_loop]. rewrite votes_body_cases.
  destruct (valid msg), (cutoff msg), (bears msg); reflexivity.
Qed.

Lemma cutoff_valid (msg : Message) : cutoff msg = true -> valid msg = true.
Proof. unfold is_cutoff. intros H. apply andb_true_iff in H. tauto. Qed.

Lemma bears_valid (msg : Message) : bears msg = true -> valid msg = true.
Proof.
  unfold bears_castings. intros H.
  apply andb_true_iff in H. destruct H as [H _].
  apply andb_true_iff in H. tauto.
Qed.

(** The loop runs through messages none of which is a cutoff, and goes on
    with what follows. *)
Lemma loop_app (l rest : list (string * Message)) (st : option Z)
    (tab : PyDict.t VoteEmail) :
  Forall (fun x => cutoff (snd x) = false) l ->
  loop (l ++ rest) st tab = loop rest (fst (loop l st tab)) (snd (loop l st tab)).
Proof.
  intros H. revert st tab.
  induction H as [| [i msg] l Hc Hl IH]; intros st tab; [reflexivity |].
  cbn [snd] in Hc. cbn [app]. rewrite !loop_cons, Hc.
  destruct (valid msg); cbn [negb]; [| apply IH].
  destruct (bears msg); apply IH.
Qed.

(** At a cutoff the loop stops with the vote map it has. *)
Lemma loop_cutoff (r : string * Message) (rest : list (string * Message))
    (st : option Z) (tab : PyDict.t VoteEmail) :
  cutoff (snd r) = true ->
  loop (r :: rest) st tab = (start_after st (snd r), tab).
Proof.
  destruct r as [i msg]. cbn [snd]. intros H.
  rewrite loop_cons, H, (cutoff_valid msg H). reflexivity.
Qed.

(** Messages that bear no castings of [k] leave the entry of [k] alone. *)
Lemma loop_get_unchanged (k : string) (l : list (string * Message))
    (st : option Z) (tab : PyDict.t VoteEmail) :
  Forall (fun x => casts k (snd x) = false) l ->
  PyDict.get (snd (loop l st tab)) k = PyDict.get tab k.
Proof.
  intros H. revert st tab.
  induction H as [| [i msg] l Hc Hl IH]; intros st tab; [reflexivity |].
  cbn [snd] in Hc. rewrite loop_cons.
  destruct (valid msg); cbn [negb]; [| apply IH].
  destruct (cutoff msg); [reflexivity |].
  destruct (bears msg) eqn:Eb; [| apply IH].
  rewrite IH. apply get_set_other.
  unfold casts_for in Hc. rewrite Eb in Hc. cbn in Hc.
  apply String.eqb_neq. exact Hc.
Qed.

(** A voter is in the map after messages without a cutoff when it was
    there before or one of the messages bears castings of the voter. *)
Lemma loop_mem (k : string) (l : list (string * Message))
    (st : option Z) (tab : PyDict.t VoteEmail) :
  Forall (fun x => cutoff (snd x) = false) l ->
  PyDict.mem (snd (loop l st tab)) k
  = PyDict.mem tab k || existsb (fun x => casts k (snd x)) l.
Proof.
  intros H. revert st tab.
  induction H as [| [i msg] l Hc Hl IH]; intros st tab.
  - cbn. rewrite orb_false_r. reflexivity.
  - cbn [snd] in Hc. rewrite loop_cons, Hc. cbn [existsb snd].
    unfold casts_for at 1.
    destruct (valid msg) eqn:Ev; cbn [negb].
    + destruct (bears msg) eqn:Eb; cbn [andb].
      * rewrite IH. unfold PyDict.mem at 1.
        destruct (String.eqb_spec (key_of msg) k) as [E | NE].
        -- subst k. rewrite get_set_same. rewrite orb_true_r. reflexivity.
        -- rewrite (get_set_other _ _ _ _ NE). reflexivity.
      * apply IH.
    + destruct (bears msg) eqn:Eb.
      * rewrite (bears_valid msg Eb) in Ev. discriminate Ev.
      * apply IH.
Qed.

(** Every entry of the map sits under its own [asf_uid_or_email]. *)
Lemma loop_keyed (l : list (string * Message)) (st : option Z)
    (tab : PyDict.t VoteEmail) :
  Forall (fun kv => asf_uid_or_email (snd kv) = fst kv) tab ->
  Forall (fun kv => asf_uid_or_email (snd kv) = fst kv) (snd (loop l st tab)).
Proof.
  revert st tab. induction l as [| [i msg] l IH]; intros st tab Htab; [exact Htab |].
  rewrite loop_cons.
  destruct (valid msg); cbn [negb]; [| apply IH; exact Htab].
  destruct (cutoff msg); [exact Htab |].
  destruct (bears msg); [| apply IH; exact Htab].
  apply IH. apply set_keyed; [| exact Htab].
  unfold vote_email_of.
  destruct (_vote_identity email_from_uid (from_raw msg) email_to_uid) as [[ok f] u].
  reflexivity.
Qed.

(** The start time after messages without a cutoff. *)
Lemma loop_start (l : list (string * Message)) (st : option Z)
    (tab : PyDict.t VoteEmail) :
  Forall (fun x => cutoff (snd x) = false) l ->
  fst (loop l st tab)
  = match st with
    | Some _ => st
    | None => first_start email_from_uid email_to_uid l
    end.
Proof.
  intros H. revert st tab.
  induction H as [| [i msg] l Hc Hl IH]; intros st tab.
  - destruct st; reflexivity.
  - cbn [snd] in Hc. rewrite loop_cons, Hc. cbn [first_start].
    destruct (valid msg); cbn [negb]; [| apply IH].
    assert (Hgoal : forall tab',
               fst (loop l (start_after st msg) tab')
               = match st with
                 | Some _ => st
                 | None =>
                     match epoch_start msg with
                     | Some e => Some e
                     | None => first_start email_from_uid email_to_uid l
                     end
                 end).
    { intros tab'. rewrite IH. unfold start_after.
      destruct st; [reflexivity |]. destruct (epoch_start msg); reflexivity. }
    destruct (bears msg); apply Hgoal.
Qed.

Lemma updated_entry_of (msg : Message) (again : bool) :
  updated (entry_of msg again) = again.
Proof.
  unfold vote_email_of.
  destruct (_vote_identity email_from_uid (from_raw msg) email_to_uid) as [[ok f] u].
  reflexivity.
Qed.

(** The vote map after a thread that ends, or is cut, after [post]. *)
Lemma loop_tail (k : string) (post tail : list (string * Message))
    (st : option Z) (tab : PyDict.t VoteEmail) :
  Forall (fun x => cutoff (snd x) = false) post ->
  tail = [] \/ (exists r rest, tail = r :: rest /\ cutoff (snd r) = true) ->
  Forall (fun x => casts k (snd x) = false) post ->
  PyDict.get (snd (loop (post ++ tail) st tab)) k = PyDict.get tab k.
Proof.
  intros Hcut [-> | [r [rest [-> Hr]]]] Hpost.
  - rewrite app_nil_r. apply loop_get_unchanged. exact Hpost.
  - rewrite (loop_app post (r :: rest) st tab Hcut), (loop_cutoff r rest _ _ Hr).
    cbn [snd]. apply loop_get_unchanged. exact Hpost.
Qed.

(** C3: the map the tabulator returns is keyed by [asf_uid_or_email], and
    for a voter key [k] whose last message bearing castings before the
    cutoff is [m2], the entry of [k] is the one built from [m2]; its
    [updated] flag is true when an earlier message bears castings of [k],
    and false when [m2] is the only one. *)
Theorem tabulator_last_write_wins (pre post tail : list (string * Message))
    (i2 : string) (m2 : Message) (k : string) :
  Forall (fun x => cutoff (snd x) = false) (pre ++ (i2, m2) :: post) ->
  tail = [] \/ (exists r rest, tail = r :: rest /\ cutoff (snd r) = true) ->
  casts k m2 = true ->
  Forall (fun x => casts k (snd x) = false) post ->
  let result := snd (tabulate (pre ++ (i2, m2) :: post ++ tail)) in
  Forall (fun kv => asf_uid_or_email (snd kv) = fst kv) result
  /\ PyDict.get result k
     = Some (entry_of m2 (existsb (fun x => casts k (snd x)) pre))
  /\ ((exists x, In x pre /\ casts k (snd x) = true) ->
      option_map updated (PyDict.get result k) = Some true)
  /\ (Forall (fun x => casts k (snd x) = false) pre ->
      option_map updated (PyDict.get result k) = Some false).
Proof.
  intros Hcut Htail Hm2 Hpost result.
  apply Forall_app in Hcut. destruct Hcut as [Hpre Hcut].
  inversion Hcut as [| x l Hc2 Hcpost]; subst x l. cbn [snd] in Hc2.
  assert (Hget : PyDict.get result k
                 = Some (entry_of m2 (existsb (fun x => casts k (snd x)) pre))).
  { unfold result, votes.
    rewrite (loop_app pre _ None PyDict.empty Hpre).
    rewrite loop_cons, Hc2.
    unfold casts_for in Hm2. apply andb_true_iff in Hm2. destruct Hm2 as [Hb Hk].
    apply String.eqb_eq in Hk.
    rewrite (bears_valid m2 Hb), Hb. cbn [negb].
    rewrite (loop_tail k post tail _ _ Hcpost Htail Hpost).
    rewrite Hk, get_set_same.
    rewrite (loop_mem k pre None PyDict.empty Hpre). reflexivity. }
  split; [apply loop_keyed; constructor |].
  split; [exact Hget |].
  rewrite Hget. cbn [option_map]. rewrite updated_entry_of.
  split.
  - intros [x [Hin Hx]]. f_equal. apply existsb_exists. eauto.
  - intros Hnone. f_equal.
    destruct (existsb (fun x => casts k (snd x)) pre) eqn:E; [| reflexivity].
    apply existsb_exists in E. destruct E as [x [Hin Hx]].
    rewrite Forall_forall in Hnone. rewrite (Hnone x Hin) in Hx. discriminate Hx.
Qed.

(** C4, amended: at the first message that has a sender identity and a
    subject containing "[RESULT]" the tabulator stops.  The vote map is the
    one of the messages before it, whatever follows; the start time is the
    epoch of the first message with an identity and a truthy epoch among
    the messages up to and including that one. *)
Theorem tabulator_result_cutoff (pre post : list (string * Message))
    (r : string * Message) :
  Forall (fun x => cutoff (snd x) = false) pre ->
  cutoff (snd r) = true ->
  snd (tabulate (pre ++ r :: post)) = snd (tabulate pre)
  /\ fst (tabulate (pre ++ r :: post))
     = first_start email_from_uid email_to_uid (pre ++ [r])
  /\ tabulate (pre ++ r :: post) = tabulate (pre ++ [r]).
Proof.
  intros Hpre Hr.
  assert (Hall : forall rest,
             tabulate (pre ++ r :: rest)
             = (start_after (fst (tabulate pre)) (snd r), snd (tabulate pre))).
  { intros rest. unfold votes.
    rewrite (loop_app pre (r :: rest) None PyDict.empty Hpre).
    apply loop_cutoff. exact Hr. }
  split; [rewrite Hall; reflexivity |].
  split; [| rewrite (Hall post), (Hall []); reflexivity].
  rewrite Hall. cbn [fst]. unfold votes.
  rewrite (loop_start pre None PyDict.empty Hpre).
  clear Hall. induction Hpre as [| [i msg] l Hc Hl IH].
  - destruct r as [i msg]. cbn [snd] in Hr. cbn [app first_start start_after snd].
    rewrite (cutoff_valid msg Hr). destruct (epoch_start msg); reflexivity.
  - cbn [app first_start].
    destruct (valid msg); [| exact IH].
    destruct (epoch_start msg); [reflexivity | exact IH].
Qed.

End TabulatorFacts.

(** Scenario S1: m3 votes against and then in favour; the result mail ends
    the thread. *)
Lemma tabulator_last_write_wins_witness :
  let result :=
    snd (Tabulate.votes Examples.plain_address false Examples.no_committee_lookup
           (Some Examples.committee_s1) []
           (Examples.thread_s1_first
            ++ ("m3@apache.org", Examples.change_of_mind)
               :: [] ++ [Examples.result_mail])) in
  Forall (fun kv => Tabulate.asf_uid_or_email (snd kv) = fst kv) result
  /\ PyDict.get result "m3"
     = Some (Notions.vote_email_of Examples.plain_address false
               Examples.no_committee_lookup (Some Examples.committee_s1) []
               Examples.change_of_mind
               (existsb
                  (fun x => Notions.casts_for Examples.plain_address [] "m3" (snd x))
                  Examples.thread_s1_first))
  /\ ((exists x, In x Examples.thread_s1_first
                 /\ Notions.casts_for Examples.plain_address [] "m3" (snd x) = true) ->
      option_map Tabulate.updated (PyDict.get result "m3") = Some true)
  /\ (Forall (fun x => Notions.casts_for Examples.plain_address [] "m3" (snd x) = false)
        Examples.thread_s1_first ->
      option_map Tabulate.updated (PyDict.get result "m3") = Some false).
Proof.
  apply (tabulator_last_write_wins Examples.plain_address false
           Examples.no_committee_lookup (Some Examples.committee_s1) []
           Examples.thread_s1_first [] [Examples.result_mail]
           "m3@apache.org" Examples.change_of_mind "m3").
  - repeat constructor.
  - right. exists Examples.result_mail, []. split; reflexivity.
  - reflexivity.
  - constructor.
Defined.

(** The entry of m3 at the end of scenario S1. *)
Example tabulator_s1_m3 :
  PyDict.get
    (snd (Tabulate.votes Examples.plain_address false Examples.no_committee_lookup
            (Some Examples.committee_s1) []
            (Examples.thread_s1_first
             ++ [("m3@apache.org", Examples.change_of_mind); Examples.result_mail])))
    "m3"
  = Some {| Tabulate.asf_uid_or_email := "m3";
            Tabulate.from_email := "m3@apache.org";
            Tabulate.status := Tabulate.VoteStatus.BINDING;
            Tabulate.asf_eid := "";
            Tabulate.iso_datetime := "";
            Tabulate.vote := Tabulate.Vote.YES;
            Tabulate.quotation := "+1 now that it is fixed";
            Tabulate.updated := true |}.
Proof. vm_compute. reflexivity. Qed.

(** A thread that is only a result mail takes its start time from that
    mail; a result mail whose sender cannot be read does not stop the
    tabulator, and a vote after it is counted. *)
Lemma tabulator_result_cutoff_counterexample :
  Tabulate.votes Examples.plain_address false Examples.no_committee_lookup
    (Some Examples.committee_s1) [] ([] ++ Examples.result_mail :: [])
  <> Tabulate.votes Examples.plain_address false Examples.no_committee_lookup
       (Some Examples.committee_s1) [] []
  /\ fst (Tabulate.votes Examples.plain_address false Examples.no_committee_lookup
            (Some Examples.committee_s1) [] ([] ++ Examples.result_mail :: []))
     = Some 1700300000%Z
  /\ PyStr.contains (Tabulate.subject (snd Examples.result_mail_unread_sender)) "[RESULT]"
     = true
  /\ PyDict.mem
       (snd (Tabulate.votes Examples.plain_address false Examples.no_committee_lookup
               (Some Examples.committee_s1) []
               ([] ++ Examples.result_mail_unread_sender :: [Examples.late_vote])))
       "m5"
     = true
  /\ PyDict.mem
       (snd (Tabulate.votes Examples.plain_address false Examples.no_committee_lookup
               (Some Examples.committee_s1) [] []))
       "m5"
     = false.
Proof.
  split; [vm_compute; discriminate |].
  repeat split; vm_compute; reflexivity.
Qed.

(** Scenario S1 followed by the result mail and a late vote. *)
Lemma tabulator_result_cutoff_witness :
  snd (Tabulate.votes Examples.plain_address false Examples.no_committee_lookup
         (Some Examples.committee_s1) []
         (Examples.thread_s1_first ++ Examples.result_mail :: [Examples.late_vote]))
  = snd (Tabulate.votes Examples.plain_address false Examples.no_committee_lookup
           (Some Examples.committee_s1) [] Examples.thread_s1_first)
  /\ fst (Tabulate.votes Examples.plain_address false Examples.no_committee_lookup
            (Some Examples.committee_s1) []
            (Examples.thread_s1_first ++ Examples.result_mail :: [Examples.late_vote]))
     = Notions.first_start Examples.plain_address []
         (Examples.thread_s1_first ++ [Examples.result_mail])
  /\ Tabulate.votes Examples.plain_address false Examples.no_committee_lookup
       (Some Examples.committee_s1) []
       (Examples.thread_s1_first ++ Examples.result_mail :: [Examples.late_vote])
     = Tabulate.votes Examples.plain_address false Examples.no_committee_lookup
         (Some Examples.committee_s1) []
         (Examples.thread_s1_first ++ [Examples.result_mail]).
Proof.
  apply (tabulator_result_cutoff Examples.plain_address false
           Examples.no_committee_lookup (Some Examples.committee_s1) []
           Examples.thread_s1_first [Examples.late_vote] Examples.result_mail).
  - repeat constructor.
  - reflexivity.
Defined.

(* ===================================================================== *)
(** * Properties of the version ordering *)
(* ===================================================================== *)

Section SortFacts.

Import Interaction.
Import Notions.

Context {A K : Type}.
Variable ltb : K -> K -> bool.

(** The order of the keys: no two keys are each below the other, and not
    being below is transitive. *)
Hypothesis ltb_asym : forall a b, ltb a b = true -> ltb b a = false.
Hypothesis ltb_ge_trans :
  forall a b c, ltb a b = false -> ltb b c = false -> ltb a c = false.

Local Abbreviation above := (fun x y : K * A => ltb (fst x) (fst y) = false).

Lemma insert_desc_perm (x : K * A) (l : list (K * A)) :
  Permutation (insert_desc ltb x l) (x :: l).
Proof.
  induction l as [| y l IH]; cbn; [apply Permutation_refl |].
  destruct (ltb (fst x) (fst y)); [| apply Permutation_refl].
  apply Permutation_trans with (y :: x :: l).
  - apply perm_skip. exact IH.
  - apply perm_swap.
Qed.

Lemma sort_desc_perm (l : list (K * A)) : Permutation (sort_desc ltb l) l.
Proof.
  induction l as [| x l IH]; cbn; [apply perm_nil |].
  apply Permutation_trans with (x :: sort_desc ltb l).
  - apply insert_desc_perm.
  - apply perm_skip. exact IH.
Qed.

Lemma insert_desc_sorted (x : K * A) (l : list (K * A)) :
  StronglySorted above l -> StronglySorted above (insert_desc ltb x l).
Proof.
  induction 1 as [| y l Hl IH Hy]; cbn.
  - constructor; constructor.
  - destruct (ltb (fst x) (fst y)) eqn:E.
    + constructor; [exact IH |].
      apply (Permutation_Forall (Permutation_sym (insert_desc_perm x l))).
      constructor; [apply ltb_asym; exact E | exact Hy].
    + constructor; [constructor; assumption |].
      constructor; [exact E |].
      apply (Forall_impl (P := fun z => ltb (fst y) (fst z) = false)); [| exact Hy].
      intros z Hz. exact (ltb_ge_trans _ _ _ E Hz).
Qed.

Lemma sort_desc_sorted (l : list (K * A)) : StronglySorted above (sort_desc ltb l).
Proof.
  induction l as [| x l IH]; cbn; [constructor | apply insert_desc_sorted; exact IH].
Qed.

Lemma decorate_some (key : A -> option K) (l : list A) (entries : list (K * A)) :
  decorate key l = Some entries ->
  List.map snd entries = l
  /\ Forall (fun e => key (snd e) = Some (fst e)) entries.
Proof.
  revert entries. induction l as [| x l IH]; cbn; intros entries H.
  - injection H as <-. split; constructor.
  - destruct (key x) as [k |] eqn:Ek; [| discriminate H].
    destruct (decorate key l) as [es |]; [| discriminate H].
    injection H as <-. destruct (IH es eq_refl) as [Hmap Hall].
    split; [cbn; congruence | constructor; assumption].
Qed.

Lemma decorate_none (key : A -> option K) (l : list A) :
  decorate key l = None <-> Exists (fun x => key x = None) l.
Proof.
  induction l as [| x l IH]; cbn.
  - split; [discriminate | intros H; inversion H].
  - destruct (key x) as [k |] eqn:Ek.
    + destruct (decorate key l) as [es |].
      * split; [discriminate |]. intros H. inversion H as [? ? H1 | ? ? H1]; subst.
        -- congruence.
        -- apply IH in H1. discriminate H1.
      * split; [| reflexivity]. intros _. apply Exists_cons_tl. apply IH. reflexivity.
    + split; [| reflexivity]. intros _. apply Exists_cons_hd. exact Ek.
Qed.

Lemma sorted_map_snd (key : A -> option K) (entries : list (K * A)) :
  Forall (fun e => key (snd e) = Some (fst e)) entries ->
  StronglySorted above entries ->
  StronglySorted (not_below ltb key) (List.map snd entries).
Proof.
  intros Hkeys Hs. induction Hs as [| e l Hl IH He]; cbn; [constructor |].
  inversion Hkeys as [| ? ? Hk Hkl]; subst.
  constructor; [apply IH; exact Hkl |].
  apply Forall_map. rewrite Forall_forall in *.
  intros z Hz. exists (fst e), (fst z). auto.
Qed.

(** [l.sort(key=key, reverse=True)], when it returns, leaves a permutation
    of [l] in which no element is below a later one. *)
Lemma sort_reverse_sorted (key : A -> option K) (l sorted : list A) :
  sort_reverse ltb key l = Some sorted ->
  Permutation sorted l /\ StronglySorted (not_below ltb key) sorted.
Proof.
  unfold sort_reverse. destruct (decorate key l) as [entries |] eqn:E; [| discriminate].
  intros H. injection H as <-.
  destruct (decorate_some key l entries E) as [Hmap Hkeys].
  split.
  - rewrite <- Hmap. apply Permutation_map. apply sort_desc_perm.
  - apply sorted_map_snd; [| apply sort_desc_sorted].
    apply (Permutation_Forall (Permutation_sym (sort_desc_perm entries))).
    exact Hkeys.
Qed.

End SortFacts.

Section KeyOrder.

Import Interaction.

Lemma ascii_compare_lt_trans (a b c : ascii) :
  Ascii.compare a b = Lt -> Ascii.compare b c = Lt -> Ascii.compare a c = Lt.
Proof.
  unfold Ascii.compare. rewrite !N.compare_lt_iff. lia.
Qed.

Lemma string_compare_lt_trans (s t u : string) :
  String.compare s t = Lt -> String.compare t u = Lt -> String.compare s u = Lt.
Proof.
  revert t u. induction s as [| a s IH]; intros [| b t] [| c u]; cbn;
    try discriminate; try reflexivity.
  destruct (Ascii.compare a b) eqn:Eab; try discriminate.
  - apply Ascii.compare_eq_iff in Eab. subst b.
    destruct (Ascii.compare a c); try discriminate; [apply IH | reflexivity].
  - intros _. destruct (Ascii.compare b c) eqn:Ebc; try discriminate.
    + apply Ascii.compare_eq_iff in Ebc. subst c. rewrite Eab. reflexivity.
    + intros _. rewrite (ascii_compare_lt_trans a b c Eab Ebc). reflexivity.
Qed.

Lemma string_ltb_trichotomy (s t : string) :
  String.ltb s t = false -> String.eqb s t = false -> String.ltb t s = true.
Proof.
  unfold String.ltb. rewrite (String.compare_antisym t s).
  destruct (String.compare s t) eqn:E; cbn; try discriminate; try reflexivity.
  apply String.compare_eq_iff in E. subst t. rewrite String.eqb_refl. discriminate.
Qed.

Lemma string_ltb_asym (s t : string) : String.ltb s t = true -> String.ltb t s = false.
Proof.
  unfold String.ltb. rewrite (String.compare_antisym t s).
  destruct (String.compare s t); cbn; try discriminate; reflexivity.
Qed.

Lemma string_ltb_trans (s t u : string) :
  String.ltb s t = true -> String.ltb t u = true -> String.ltb s u = true.
Proof.
  unfold String.ltb.
  destruct (String.compare s t) eqn:E1; try discriminate.
  destruct (String.compare t u) eqn:E2; try discriminate.
  rewrite (string_compare_lt_trans s t u E1 E2). reflexivity.
Qed.

Lemma part_eqb_eq (a b : KeyPart) : part_eqb a b = true <-> a = b.
Proof.
  destruct a as [x | s], b as [y | t]; cbn; split; intros H; try discriminate.
  - apply Z.eqb_eq in H. congruence.
  - injection H as ->. apply Z.eqb_refl.
  - apply String.eqb_eq in H. congruence.
  - injection H as ->. apply String.eqb_refl.
Qed.

Lemma part_ltb_asym (a b : KeyPart) : part_ltb a b = true -> part_ltb b a = false.
Proof.
  destruct a as [x | s], b as [y | t]; cbn; try discriminate; try reflexivity.
  - rewrite Z.ltb_lt, Z.ltb_ge. lia.
  - apply string_ltb_asym.
Qed.

Lemma part_ltb_trans (a b c : KeyPart) :
  part_ltb a b = true -> part_ltb b c = true -> part_ltb a c = true.
Proof.
  destruct a as [x | s], b as [y | t], c as [z | u]; cbn;
    try discriminate; try reflexivity.
  - rewrite !Z.ltb_lt. lia.
  - apply string_ltb_trans.
Qed.

Lemma part_ltb_trichotomy (a b : KeyPart) :
  part_ltb a b = false -> part_eqb a b = false -> part_ltb b a = true.
Proof.
  destruct a as [x | s], b as [y | t]; cbn; try discriminate; try reflexivity.
  - rewrite Z.ltb_ge, Z.eqb_neq, Z.ltb_lt. lia.
  - apply string_ltb_trichotomy.
Qed.

Lemma part_ltb_irrefl (a : KeyPart) : part_ltb a a = false.
Proof.
  destruct (part_ltb a a) eqn:E; [| reflexivity].
  rewrite (part_ltb_asym a a E) in E. discriminate E.
Qed.

Lemma part_eqb_refl (a : KeyPart) : part_eqb a a = true.
Proof. apply part_eqb_eq. reflexivity. Qed.

Lemma part_eqb_sym (a b : KeyPart) : part_eqb a b = part_eqb b a.
Proof.
  destruct (part_eqb a b) eqn:E.
  - apply part_eqb_eq in E. subst b. symmetry. apply part_eqb_refl.
  - destruct (part_eqb b a) eqn:E'; [| reflexivity].
    apply part_eqb_eq in E'. subst b. rewrite part_eqb_refl in E. discriminate E.
Qed.

Lemma key_ltb_asym (a b : list KeyPart) : key_ltb a b = true -> key_ltb b a = false.
Proof.
  revert b. induction a as [| x a IH]; intros [| y b]; cbn; try discriminate;
    try reflexivity.
  rewrite (part_eqb_sym y x).
  destruct (part_eqb x y); [apply IH | apply part_ltb_asym].
Qed.

Lemma key_ltb_ge_trans (a b c : list KeyPart) :
  key_ltb a b = false -> key_ltb b c = false -> key_ltb a c = false.
Proof.
  revert b c. induction a as [| x a IH]; intros [| y b] [| z c]; cbn;
    try discriminate; try reflexivity.
  destruct (part_eqb x y) eqn:Exy.
  - apply part_eqb_eq in Exy. subst y.
    destruct (part_eqb x z); [apply IH | intros _ H; exact H].
  - intros Hxy. destruct (part_eqb y z) eqn:Eyz.
    + apply part_eqb_eq in Eyz. subst z. rewrite Exy. intros _. exact Hxy.
    + intros Hyz.
      pose proof (part_ltb_trichotomy x y Hxy Exy) as Hyx.
      pose proof (part_ltb_trichotomy y z Hyz Eyz) as Hzy.
      pose proof (part_ltb_trans z y x Hzy Hyx) as Hzx.
      destruct (part_eqb x z) eqn:Exz.
      * apply part_eqb_eq in Exz. subst z.
        rewrite part_ltb_irrefl in Hzx. discriminate Hzx.
      * apply part_ltb_asym. exact Hzx.
Qed.

End KeyOrder.

Section AllReleases.

Import PyStr.
Import Models.
Import Interaction.
Import Notions.

Context {Version : Type}.
Variable parse_version : string -> option Version.
Variable version_ltb : Version -> Version -> bool.

(** The order of versions: no two versions are each below the other, and
    not being below is transitive. *)
Hypothesis version_asym :
  forall a b, version_ltb a b = true -> version_ltb b a = false.
Hypothesis version_ge_trans :
  forall a b c,
    version_ltb a b = false -> version_ltb b c = false -> version_ltb a c = false.

(** C9: the list [all_releases] returns holds the releases of the project in
    non-increasing order: no release is below a later one, by its PEP 440
    version when every version parses, and otherwise by the fallback key,
    which splits the version on dots, dashes and pluses and maps a component
    to [(0, n)] when [int] reads it and to [(1, component)] when not, so
    that a number sorts before a string at the same position. *)
Theorem all_releases_sorted (db : Database) (project : Project) :
  let rows := project_rows db project in
  let result := all_releases parse_version version_ltb db project in
  Permutation result rows
  /\ (Forall (fun r => parse_version (version r) <> None) rows ->
      StronglySorted
        (not_below version_ltb (fun r => parse_version (version r))) result)
  /\ (Exists (fun r => parse_version (version r) = None) rows ->
      StronglySorted (not_below key_ltb (fun r => Some (sort_key r))) result)
  /\ (forall r,
        sort_key r
        = List.map key_part
            (split_char "." (replace_char "-" "." (replace_char "+" "." (version r)))))
  /\ (forall part n, py_int part = Some n -> key_part part = Num n)
  /\ (forall part, py_int part = None -> key_part part = Str part)
  /\ (forall n s a b, key_ltb (Num n :: a) (Str s :: b) = true).
Proof.
  intros rows result.
  assert (Hfallback :
            exists sorted,
              sort_reverse key_ltb (fun r => Some (sort_key r)) rows = Some sorted).
  { unfold sort_reverse.
    destruct (decorate (fun r => Some (sort_key r)) rows) as [es |] eqn:E; [eauto |].
    apply decorate_none in E. apply Exists_exists in E.
    destruct E as [x [_ Hx]]. discriminate Hx. }
  destruct Hfallback as [by_key Hkey].
  destruct (sort_reverse_sorted key_ltb key_ltb_asym key_ltb_ge_trans _ _ _ Hkey)
    as [Hkperm Hksorted].
  assert (Hres :
            result
            = match sort_reverse version_ltb (fun r => parse_version (version r)) rows with
              | Some sorted => sorted
              | None => by_key
              end).
  { unfold result, all_releases. fold (project_rows db project). fold rows.
    rewrite Hkey. reflexivity. }
  destruct (sort_reverse version_ltb (fun r => parse_version (version r)) rows)
    as [by_version |] eqn:Ever.
  - destruct (sort_reverse_sorted version_ltb version_asym version_ge_trans _ _ _ Ever)
      as [Hvperm Hvsorted].
    rewrite Hres.
    split; [exact Hvperm |].
    split; [intros _; exact Hvsorted |].
    split.
    { intros Hex. exfalso.
      unfold sort_reverse in Ever.
      destruct (decorate (fun r => parse_version (version r)) rows) eqn:E;
        [| discriminate Ever].
      apply decorate_none in Hex. congruence. }
    repeat split.
    + intros part n H. unfold key_part. rewrite H. reflexivity.
    + intros part H. unfold key_part. rewrite H. reflexivity.
  - rewrite Hres.
    split; [exact Hkperm |].
    split.
    { intros Hall. exfalso.
      unfold sort_reverse in Ever.
      destruct (decorate (fun r => parse_version (version r)) rows) eqn:E;
        [discriminate Ever |].
      apply decorate_none in E. apply Exists_exists in E.
      destruct E as [x [Hin Hx]]. rewrite Forall_forall in Hall.
      exact (Hall x Hin Hx). }
    split; [intros _; exact Hksorted |].
    repeat split.
    + intros part n H. unfold key_part. rewrite H. reflexivity.
    + intros part H. unfold key_part. rewrite H. reflexivity.
Qed.

End AllReleases.

(** The releases of a project whose versions do not all parse. *)
Lemma all_releases_sorted_witness :
  let rows := Notions.project_rows Examples.database_versions
                (Examples.project_with None None) in
  let result :=
    Interaction.all_releases Examples.integer_version Z.ltb
      Examples.database_versions (Examples.project_with None None) in
  Permutation result rows
  /\ (Forall (fun r => Examples.integer_version (Models.version r) <> None) rows ->
      StronglySorted
        (Notions.not_below Z.ltb (fun r => Examples.integer_version (Models.version r)))
        result)
  /\ (Exists (fun r => Examples.integer_version (Models.version r) = None) rows ->
      StronglySorted
        (Notions.not_below Interaction.key_ltb (fun r => Some (Interaction.sort_key r)))
        result)
  /\ (forall r,
        Interaction.sort_key r
        = List.map Interaction.key_part
            (PyStr.split_char "."
               (PyStr.replace_char "-" "."
                  (PyStr.replace_char "+" "." (Models.version r)))))
  /\ (forall part n,
        Interaction.py_int part = Some n ->
        Interaction.key_part part = Interaction.Num n)
  /\ (forall part,
        Interaction.py_int part = None ->
        Interaction.key_part part = Interaction.Str part)
  /\ (forall n s a b,
        Interaction.key_ltb (Interaction.Num n :: a) (Interaction.Str s :: b) = true).
Proof.
  apply (all_releases_sorted Examples.integer_version Z.ltb).
  - intros a b H. apply Z.ltb_lt in H. apply Z.ltb_ge. lia.
  - intros a b c H1 H2. apply Z.ltb_ge in H1, H2. apply Z.ltb_ge. lia.
Defined.

(** The order [all_releases] gives by the fallback key, and by version. *)
Example all_releases_fallback_order :
  List.map Models.version
    (Interaction.all_releases Examples.integer_version Z.ltb
       Examples.database_versions (Examples.project_with None None))
  = ["2.0.0+build5"; "1.x"; "1.10.0-rc1"; "1.10.0"; "1.9.0"]%string.
Proof. vm_compute. reflexivity. Qed.

Example all_releases_version_order :
  List.map Models.version
    (Interaction.all_releases Examples.integer_version Z.ltb
       Examples.database_integers (Examples.project_with None None))
  = ["10"; "9"; "2"]%string.
Proof. vm_compute. reflexivity. Qed.

(* ===================================================================== *)
(** * Properties of the trusted automation verifier *)
(* ===================================================================== *)

Section TrustedFacts.

Import PyStr.
Import Models.
Import Interaction.

Variable verify_github_oidc : string -> PyResult (PyDict.t string).
Variable github_to_apache : string -> PyResult string.
Variable GITHUB_AUTOMATED_RELEASE_COMMITTEES : list string.

Local Abbreviation trusted :=
  (trusted_jwt verify_github_oidc github_to_apache GITHUB_AUTOMATED_RELEASE_COMMITTEES).

Lemma prefix_contains (p s sub : string) :
  contains s sub = true -> contains (p ++ s) sub = true.
Proof.
  intros H. induction p as [| c p IH]; [exact H |].
  cbn [append contains]. rewrite IH. apply orb_true_r.
Qed.

Lemma prefix_split (p s : string) :
  String.prefix p s = true ->
  s = (p ++ String.substring (String.length p) (String.length s - String.length p) s)%string.
Proof.
  revert s. induction p as [| c p IH]; intros s H.
  - cbn. rewrite Nat.sub_0_r.
    clear H. induction s as [| a s IHs]; [reflexivity |].
    cbn. f_equal.
    destruct s; [reflexivity | exact IHs].
  - destruct s as [| a s]; [discriminate H |].
    cbn in H. destruct (ascii_dec c a) as [-> | NE]; [| discriminate H].
    cbn. f_equal. apply IH. exact H.
Qed.

(** An "@" after the repository prefix is an "@" of the whole reference. *)
Lemma removeprefix_contains (s p sub : string) :
  contains (removeprefix s p) sub = true -> contains s sub = true.
Proof.
  unfold removeprefix, startswith.
  destruct (String.prefix p s) eqn:E; [| tauto].
  intros H. rewrite (prefix_split p s E). apply prefix_contains. exact H.
Qed.

(** The query finds nothing when no policy of the repository lists the path. *)
Lemma release_policy_query_none (db : Database) (repository_name : string)
    (phase : TrustedProjectPhase) (workflow_path : string) :
  (forall policy,
      In policy (db_release_policies db) ->
      github_repository_name policy = repository_name ->
      ~ In workflow_path (workflow_paths phase policy)) ->
  release_policy_query db repository_name phase workflow_path = None.
Proof.
  intros H. unfold release_policy_query.
  destruct (find _ (db_release_policies db)) as [policy |] eqn:E; [| reflexivity].
  apply find_some in E. destruct E as [Hin Hp].
  apply andb_true_iff in Hp. destruct Hp as [Hn Hw].
  apply String.eqb_eq in Hn. apply existsb_exists in Hw.
  destruct Hw as [x [Hx Heq]]. apply String.eqb_eq in Heq. subst x.
  exfalso. exact (H policy Hin Hn Hx).
Qed.

(** C8: [trusted_jwt] raises an interaction error when the publisher is not
    "github", before it does anything else.  For a token that verifies and
    an actor the directory maps, it raises an interaction error unless the
    repository begins with "apache/", the workflow reference begins with the
    repository followed by "/" and contains "@", and the workflow path
    before the final "@" begins with ".github/workflows/".  When these
    checks pass and no release policy of the repository lists the workflow
    path in its allowlist for the phase, it raises ReleasePolicyNotFound. *)
Theorem trusted_jwt_rejections (db : Database) (publisher jwt : string)
    (phase : TrustedProjectPhase) :
  (publisher <> "github"%string ->
   trusted db publisher jwt phase
   = inl (InteractionError ("Publisher " ++ publisher ++ " not supported")))
  /\ (forall (payload : PyDict.t string)
             (actor_id asf_uid repository workflow_ref : string),
        verify_github_oidc jwt = inr payload ->
        PyDict.get payload "actor_id" = Some actor_id ->
        github_to_apache actor_id = inr asf_uid ->
        PyDict.get payload "repository" = Some repository ->
        PyDict.get payload "workflow_ref" = Some workflow_ref ->
        let workflow_path_at := removeprefix workflow_ref (repository ++ "/") in
        let workflow_path := rsplit_once_first "@" workflow_path_at in
        (publisher <> "github"%string
         \/ startswith repository "apache/" = false
         \/ startswith workflow_ref (repository ++ "/") = false
         \/ contains workflow_ref "@" = false
         \/ startswith workflow_path ".github/workflows/" = false ->
         is_interaction_error (trusted db publisher jwt phase) = true)
        /\ (publisher = "github"%string ->
            startswith repository "apache/" = true ->
            startswith workflow_ref (repository ++ "/") = true ->
            contains workflow_path_at "@" = true ->
            startswith workflow_path ".github/workflows/" = true ->
            (forall policy,
                In policy (db_release_policies db) ->
                github_repository_name policy = removeprefix repository "apache/" ->
                ~ In workflow_path (workflow_paths phase policy)) ->
            is_release_policy_not_found (trusted db publisher jwt phase) = true)).
Proof.
  assert (Hpub :
            publisher <> "github"%string ->
            trusted db publisher jwt phase
            = inl (InteractionError ("Publisher " ++ publisher ++ " not supported"))).
  { intros NE. unfold trusted_jwt.
    destruct (String.eqb_spec publisher "github"); [contradiction | reflexivity]. }
  split; [exact Hpub |].
  intros payload actor_id asf_uid repository workflow_ref
    Hverify Hactor Hdir Hrepo Href workflow_path_at workflow_path.
  assert (Hrun :
            publisher = "github"%string ->
            trusted db publisher jwt phase
            = bind (_trusted_project GITHUB_AUTOMATED_RELEASE_COMMITTEES db
                      repository workflow_ref phase)
                (fun project => ret (payload, asf_uid, project))).
  { intros ->. unfold trusted_jwt, getitem. cbn [String.eqb Ascii.eqb Bool.eqb negb].
    rewrite Hverify. cbn. rewrite Hactor. cbn. rewrite Hdir. cbn.
    rewrite Hrepo. cbn. rewrite Href. reflexivity. }
  split.
  - intros Hbad.
    destruct (String.eqb_spec publisher "github") as [E | NE];
      [| rewrite (Hpub NE); reflexivity].
    rewrite (Hrun E). unfold _trusted_project, _trusted_project_checks.
    destruct (startswith repository "apache/"); cbn [negb]; [| reflexivity].
    destruct (startswith workflow_ref (repository ++ "/")); cbn [negb]; [| reflexivity].
    fold workflow_path_at.
    destruct (contains workflow_path_at "@") eqn:Eat; cbn [negb]; [| reflexivity].
    fold workflow_path.
    destruct (startswith workflow_path ".github/workflows/"); cbn [negb];
      [| reflexivity].
    exfalso.
    destruct Hbad as [H | [H | [H | [H | H]]]]; try discriminate H.
    + contradiction.
    + rewrite (removeprefix_contains workflow_ref (repository ++ "/") "@" Eat) in H.
      discriminate H.
  - intros E H1 H2 H3 H4 Hnone.
    rewrite (Hrun E). unfold _trusted_project, _trusted_project_checks.
    rewrite H1, H2. cbn [negb]. fold workflow_path_at. rewrite H3. cbn [negb].
    fold workflow_path. rewrite H4. cbn [negb].
    cbn [bind ret Monad_PyResult Monad_either].
    rewrite (release_policy_query_none db _ phase workflow_path Hnone).
    reflexivity.
Qed.

End TrustedFacts.

(** Scenario S6 with phase COMPOSE: the path is in the vote allowlist only. *)
Lemma trusted_jwt_rejections_witness :
  let workflow_path_at :=
    PyStr.removeprefix "apache/foo/.github/workflows/release.yml@refs/heads/main"
      ("apache/foo" ++ "/") in
  let workflow_path := PyStr.rsplit_once_first "@" workflow_path_at in
  let result :=
    Interaction.trusted_jwt Examples.verify_s6 Examples.directory_s6 ["tooling"]
      Examples.database_s6 "github" "signed-token" Interaction.COMPOSE in
  ("github" <> "github"
   \/ PyStr.startswith "apache/foo" "apache/" = false
   \/ PyStr.startswith "apache/foo/.github/workflows/release.yml@refs/heads/main"
        ("apache/foo" ++ "/") = false
   \/ PyStr.contains "apache/foo/.github/workflows/release.yml@refs/heads/main" "@"
      = false
   \/ PyStr.startswith workflow_path ".github/workflows/" = false ->
   is_interaction_error result = true)
  /\ ("github" = "github" ->
      PyStr.startswith "apache/foo" "apache/" = true ->
      PyStr.startswith "apache/foo/.github/workflows/release.yml@refs/heads/main"
        ("apache/foo" ++ "/") = true ->
      PyStr.contains workflow_path_at "@" = true ->
      PyStr.startswith workflow_path ".github/workflows/" = true ->
      (forall policy,
          In policy (Models.db_release_policies Examples.database_s6) ->
          Models.github_repository_name policy = PyStr.removeprefix "apache/foo" "apache/" ->
          ~ In workflow_path (Interaction.workflow_paths Interaction.COMPOSE policy)) ->
      is_release_policy_not_found result = true).
Proof.
  apply (proj2 (trusted_jwt_rejections Examples.verify_s6 Examples.directory_s6
                  ["tooling"] Examples.database_s6 "github" "signed-token"
                  Interaction.COMPOSE)
           Examples.payload_s6 "12345" "m1" "apache/foo"
           "apache/foo/.github/workflows/release.yml@refs/heads/main");
    reflexivity.
Defined.

(** Scenario S6: the call with phase VOTE returns the project bound to the
    policy, and the call with phase COMPOSE raises ReleasePolicyNotFound. *)
Example trusted_jwt_s6 :
  Interaction.trusted_jwt Examples.verify_s6 Examples.directory_s6 ["tooling"]
    Examples.database_s6 "github" "signed-token" Interaction.VOTE
  = inr (Examples.payload_s6, "m1",
         Examples.project_with (Some Examples.committee_s1)
           (Some (Examples.policy_with (Some 72%Z))))
  /\ Interaction.trusted_jwt Examples.verify_s6 Examples.directory_s6 ["tooling"]
       Examples.database_s6 "github" "signed-token" Interaction.COMPOSE
     = inl (ReleasePolicyNotFoundError
              "Release policy for repository foo and compose workflow path .github/workflows/release.yml not found").
Proof. split; vm_compute; reflexivity. Qed.

(* ===================================================================== *)
(** * Properties of the vote writer *)
(* ===================================================================== *)

Section VoteWriterFacts.

Import PyStr.
Import Models.
Import VoteWriter.
Import Notions.

#[local] Existing Instance Monad_stateT.

Variable is_dev_environment : bool.
Variable self_asf_uid : string.
Variable utcnow : Z.
Variable USER_TESTS_ADDRESS : string.
Variable permitted_recipients_of : string -> list string.
Variable start_vote_default : string -> PyResult string.
Variable create_and_manage : string -> string -> string -> string -> PyResult string.
Variable email_mid_from_thread_id : string -> PyResult (string * string).

Local Abbreviation send := (send_resolution is_dev_environment utcnow).
Local Abbreviation resolve_cmd :=
  (resolve is_dev_environment self_asf_uid utcnow USER_TESTS_ADDRESS
     permitted_recipients_of start_vote_default create_and_manage
     email_mid_from_thread_id).
Local Abbreviation resolve_rel :=
  (resolve_release is_dev_environment self_asf_uid utcnow USER_TESTS_ADDRESS
     permitted_recipients_of start_vote_default create_and_manage
     email_mid_from_thread_id).

(** [send_resolution] leaves the releases alone; it adds nothing, or adds
    queued messages and commits. *)
Lemma send_resolution_spec (release : Release)
    (resolution body uid fullname : string) (task : Task)
    (extra : option (string * string)) (s : Session) (x : option string)
    (s' : Session) :
  runStateT (send release resolution body uid fullname task extra) s = inr (x, s') ->
  db_releases (working s') = db_releases (working s)
  /\ (s' = s \/ committed s' = working s')
  /\ exists new, db_tasks (working s') = db_tasks (working s) ++ new
       /\ Forall queued_message new.
Proof.
  unfold send_resolution. intros H.
  destruct (Interaction.task_mid_get is_dev_environment task) as [mid |].
  - cbn in H.
    destruct (args_email_to task) as [e | recipient]; [discriminate H |].
    destruct (project_of release) as [e | project]; [discriminate H |].
    destruct extra as [[address message_id] |]; cbn in H; injection H as <- <-; cbn;
      (split; [reflexivity |]; split; [right; reflexivity |]);
      eexists; (split; [reflexivity |]); repeat constructor.
  - cbn in H. injection H as <- <-.
    split; [reflexivity |]. split; [left; reflexivity |].
    exists []. rewrite app_nil_r. split; [reflexivity | constructor].
Qed.


(** A bind that returns went through a first step that returned. *)
Lemma run_bind_inv {A B : Type} (c : M A) (k : A -> M B) (s s' : Session) (v : B) :
  runStateT (bind c k) s = inr (v, s') ->
  exists x s1, runStateT c s = inr (x, s1) /\ runStateT (k x) s1 = inr (v, s').
Proof.
  cbn. destruct (runStateT c s) as [e | [x s1]]; [discriminate | eauto].
Qed.


(** What follows the three branches of [resolve_release]. *)
Lemma resolve_tail (release : Release) (vr : option Z) (vote_result msg : string)
    (extra : option (string * string)) (body fullname : string) (task : Task)
    (s1 s' : Session) (out : Release * option Z * string * option string) :
  runStateT
    (bind commit (fun _ =>
       bind (send release vote_result body self_asf_uid fullname task extra)
         (fun error_message => ret (release, vr, msg, error_message)))) s1
  = inr (out, s') ->
  fst (fst (fst out)) = release
  /\ snd (fst (fst out)) = vr
  /\ db_releases (working s') = db_releases (working s1)
  /\ committed s' = working s'
  /\ exists more, db_tasks (working s') = db_tasks (working s1) ++ more
       /\ Forall queued_message more.
Proof.
  intros H. apply run_bind_inv in H. destruct H as [u [s2 [Hc H]]].
  cbn in Hc. injection Hc as _ <-.
  apply run_bind_inv in H. destruct H as [err [s3 [Hs H]]].
  cbn in H. injection H as <- <-.
  apply send_resolution_spec in Hs. cbn in Hs.
  destruct Hs as [Hrel [Hcom [more [Htasks Hmore]]]].
  cbn. repeat split; try assumption.
  - destruct Hcom as [-> | Hcom]; [reflexivity | exact Hcom].
  - exists more. auto.
Qed.

(** The error of reading [interaction.task_archive_url_cached]. *)
Local Abbreviation lookup_error :=
  (AttributeError
     "module 'atr.db.interaction' has no attribute 'task_archive_url_cached'").

(** The first round of a podling vote that passed: the branch reads a
    function the module does not define. *)
Lemma round_one_lookup_raises (pn : string) (release : Release) (task : Task)
    (fullname body : string) (s : Session) :
  runStateT (resolve_rel pn release (Some 1%Z) "passed" task fullname body) s
  = inl lookup_error.
Proof. reflexivity. Qed.

(** A round other than the first fails the first test of [resolve_release]. *)
Lemma not_round_one (vr : option Z) :
  vr <> Some 1%Z -> match vr with Some 1%Z => true | _ => false end = false.
Proof.
  intros H. destruct vr as [[| [p | p |] | p] |]; try reflexivity. contradiction.
Qed.

(** A vote that passed and is not the first round of a podling vote. *)
Lemma resolve_release_later_pass (pn : string) (release : Release) (vr : option Z)
    (task : Task) (fullname body : string) (s s' : Session)
    (out : Release * option Z * string * option string) :
  vr <> Some 1%Z ->
  runStateT (resolve_rel pn release vr "passed" task fullname body) s = inr (out, s') ->
  fst (fst (fst out)) = set_phase release RELEASE_PREVIEW
  /\ snd (fst (fst out)) = vr
  /\ db_releases (working s')
     = replace_row (fst (fst (fst out))) (db_releases (working s))
  /\ committed s' = working s'
  /\ exists more, db_tasks (working s') = db_tasks (working s) ++ more
       /\ Forall queued_message more.
Proof.
  intros Hvr H. unfold resolve_release in H.
  apply run_bind_inv in H. destruct H as [[[release' msg] extra] [s1 [Hb H]]].
  apply resolve_tail in H.
  destruct H as [Hrel [Hround [Hrows [Hcom [more [Htasks Hmore]]]]]].
  rewrite (not_round_one vr Hvr) in Hb.
  cbn [andb String.eqb Ascii.eqb Bool.eqb] in Hb. cbn in Hb.
  destruct (create_and_manage pn (version release) self_asf_uid
              "Create a preview revision from the last candidate draft")
    as [e | number]; cbn in Hb; [discriminate Hb |].
  assert (Hs1 : release' = set_phase release RELEASE_PREVIEW
                /\ db_releases (working s1)
                   = replace_row (set_phase release RELEASE_PREVIEW)
                       (db_releases (working s))
                /\ db_tasks (working s1) = db_tasks (working s)).
  { destruct vr as [[| [p | [p | p |] |] | p] |]; cbn in Hb;
      repeat match type of Hb with
        | context [match podling_thread_id release with _ => _ end] =>
            destruct (podling_thread_id release); cbn in Hb
        | context [match email_mid_from_thread_id ?t with _ => _ end] =>
            destruct (email_mid_from_thread_id t); cbn in Hb
        end;
      try discriminate Hb;
      injection Hb as <- <- <- <-; repeat split; reflexivity. }
  destruct Hs1 as [-> [Hrows1 Htasks1]].
  rewrite Hrel, Hrows, Hrows1, Htasks, Htasks1.
  repeat split; try assumption; try reflexivity.
  exists more. auto.
Qed.

(** A vote that did not pass. *)
Lemma resolve_release_failed (pn : string) (release : Release) (vr : option Z)
    (vote_result : string) (task : Task) (fullname body : string) (s s' : Session)
    (out : Release * option Z * string * option string) :
  String.eqb vote_result "passed" = false ->
  runStateT (resolve_rel pn release vr vote_result task fullname body) s = inr (out, s') ->
  fst (fst (fst out)) = set_phase release RELEASE_CANDIDATE_DRAFT
  /\ snd (fst (fst out)) = vr
  /\ db_releases (working s')
     = replace_row (fst (fst (fst out))) (db_releases (working s))
  /\ committed s' = working s'
  /\ exists more, db_tasks (working s') = db_tasks (working s) ++ more
       /\ Forall queued_message more.
Proof.
  intros Hres H. unfold resolve_release in H.
  apply run_bind_inv in H. destruct H as [[[release' msg] extra] [s1 [Hb H]]].
  apply resolve_tail in H.
  destruct H as [Hrel [Hround [Hrows [Hcom [more [Htasks Hmore]]]]]].
  rewrite Hres, andb_false_r in Hb. cbn in Hb.
  injection Hb as <- <- <- <-.
  rewrite Hrel, Hrows, Htasks.
  repeat split; try assumption; try reflexivity.
  exists more. auto.
Qed.

(** A release written over its own row is in the table. *)
Lemma in_replace_row (r r' : Release) (rows : list Release) :
  In r rows -> name_of r' = name_of r -> In r' (replace_row r' rows).
Proof.
  intros Hin Hname. unfold replace_row. apply in_map_iff.
  exists r. split; [| exact Hin].
  rewrite Hname, String.eqb_refl. reflexivity.
Qed.

(** What [resolve] does before it hands over to [resolve_release]. *)
Lemma resolve_dispatch (pn vn vote_result fullname body : string) (s s' : Session)
    (r : Release) (out : Release * option Z * string * option string) :
  release_by_name (working s) (release_name pn vn) RELEASE_CANDIDATE = Some r ->
  runStateT (resolve_cmd pn vn vote_result fullname body) s = inr (out, s') ->
  exists task,
    Interaction.release_latest_vote_task is_dev_environment (committed s) r = Some task
    /\ runStateT
         (resolve_rel pn r
            (if podling_release r
             then Some (match podling_thread_id r with None => 1%Z | Some _ => 2%Z end)
             else None)
            vote_result task fullname body) s
       = inr (out, s').
Proof.
  intros Hfind H. unfold resolve in H. cbn in H. rewrite Hfind in H. cbn in H.
  unfold project_of, release_committee, podling_release in *.
  destruct (release_project r) as [project |]; cbn in H; [| discriminate H].
  destruct (Interaction.release_latest_vote_task is_dev_environment (committed s) r)
    as [task |]; cbn in H; [| discriminate H].
  destruct (committee project) as [c |]; cbn in H; [| discriminate H].
  exists task. split; [reflexivity | exact H].
Qed.

(** C2: for a release that [resolve] loads in phase CANDIDATE.  Where the
    project is a podling in round 1 (no [podling_thread_id]) and the result
    is "passed", [resolve] does not return: with a vote task it raises
    AttributeError at the lookup of [interaction.task_archive_url_cached],
    which the module does not define, so the phase is not kept with a new
    [podling_thread_id]: nothing is stored.  A call that returns has
    written the release it returns to the committed release table; with
    result "passed" the project is then not a podling or the podling vote is
    in round 2 ([podling_thread_id] set), and the phase is PREVIEW; with
    result "failed" the phase is CANDIDATE_DRAFT. *)
Theorem resolve_phase_transitions (pn vn vote_result fullname body : string)
    (s : Session) (r : Release) :
  release_by_name (working s) (release_name pn vn) RELEASE_CANDIDATE = Some r ->
  phase r = RELEASE_CANDIDATE
  /\ (vote_result = "passed"%string ->
      podling_release r = true ->
      podling_thread_id r = None ->
      runStateT (resolve_cmd pn vn vote_result fullname body) s
      = inl match
              Interaction.release_latest_vote_task is_dev_environment (committed s) r
            with
            | Some _ => lookup_error
            | None =>
                RuntimeError "No vote task found, unable to send resolution message."
            end)
  /\ forall out s',
       runStateT (resolve_cmd pn vn vote_result fullname body) s = inr (out, s') ->
       In (fst (fst (fst out))) (db_releases (committed s'))
       /\ (vote_result = "passed"%string ->
           (podling_release r = false \/ podling_thread_id r <> None)
           /\ phase (fst (fst (fst out))) = RELEASE_PREVIEW)
       /\ (vote_result = "failed"%string ->
           phase (fst (fst (fst out))) = RELEASE_CANDIDATE_DRAFT).
Proof.
  intros Hfind.
  assert (Hrow : In r (db_releases (working s)) /\ phase r = RELEASE_CANDIDATE).
  { unfold release_by_name in Hfind. apply find_some in Hfind.
    destruct Hfind as [Hin Hr]. apply andb_true_iff in Hr. destruct Hr as [_ Hphase].
    split; [exact Hin |].
    destruct (phase r); try discriminate Hphase; reflexivity. }
  destruct Hrow as [Hin Hcand].
  split; [exact Hcand |]. split.
  - intros -> Hpod Hthread. unfold resolve. cbn. rewrite Hfind. cbn.
    unfold project_of, release_committee, podling_release in *.
    destruct (release_project r) as [project |]; cbn; [| discriminate Hpod].
    destruct (committee project) as [c |]; [| discriminate Hpod].
    rewrite Hpod, Hthread.
    destruct (Interaction.release_latest_vote_task is_dev_environment (committed s) r)
      as [task |]; cbn; reflexivity.
  - intros out s' H.
    destruct (resolve_dispatch pn vn vote_result fullname body s s' r out Hfind H)
      as [task [_ Hrun]].
    destruct (String.eqb_spec vote_result "passed") as [Epass | NEpass].
    + subst vote_result.
      destruct (podling_release r) eqn:Epod;
        [destruct (podling_thread_id r) as [thread_id |] eqn:Ethread |].
      * apply resolve_release_later_pass in Hrun; [| discriminate].
        destruct Hrun as [Hrel [_ [Hrows [Hcom _]]]].
        rewrite Hcom, Hrows.
        split; [apply (in_replace_row r); [exact Hin | rewrite Hrel; reflexivity] |].
        rewrite Hrel.
        split; [intros _; split; [right; discriminate | reflexivity] | discriminate].
      * rewrite round_one_lookup_raises in Hrun. discriminate Hrun.
      * apply resolve_release_later_pass in Hrun; [| discriminate].
        destruct Hrun as [Hrel [_ [Hrows [Hcom _]]]].
        rewrite Hcom, Hrows.
        split; [apply (in_replace_row r); [exact Hin | rewrite Hrel; reflexivity] |].
        rewrite Hrel.
        split; [intros _; split; [left; reflexivity | reflexivity] | discriminate].
    + apply resolve_release_failed in Hrun;
        [| destruct (String.eqb_spec vote_result "passed"); [contradiction | reflexivity]].
      destruct Hrun as [Hrel [_ [Hrows [Hcom _]]]].
      rewrite Hcom, Hrows.
      split; [apply (in_replace_row r); [exact Hin | rewrite Hrel; reflexivity] |].
      rewrite Hrel. split; [intros E; contradiction | reflexivity].
Qed.

(** C7: on a round-1 podling pass [resolve_release] reads the message id of
    the vote task and then [interaction.task_archive_url_cached], which the
    module does not define: whatever the release, the task and the session,
    the call raises AttributeError there.  No archive URL is fetched, no
    thread id is stored in [release.podling_thread_id], [start] is not
    invoked and no VOTE_INITIATE task is queued for round 2. *)
Theorem resolve_release_round_one_pass (pn : string) (release : Release)
    (task : Task) (fullname body : string) (s : Session) :
  runStateT (resolve_rel pn release (Some 1%Z) "passed" task fullname body) s
  = inl (AttributeError
           "module 'atr.db.interaction' has no attribute 'task_archive_url_cached'").
Proof. apply round_one_lookup_raises. Qed.

End VoteWriterFacts.

(** Scenario S3: [resolve] for the first round of the podling vote on
    Apache Foo 1.0.0, marked as passed. *)
Lemma resolve_phase_transitions_witness :
  Models.phase (Examples.release_podling None) = Models.RELEASE_CANDIDATE
  /\ ("passed"%string = "passed"%string ->
      Notions.podling_release (Examples.release_podling None) = true ->
      Models.podling_thread_id (Examples.release_podling None) = None ->
      runStateT (Examples.resolve_as_m1 "passed")
        (Examples.session_of (Examples.release_podling None))
      = inl match
              Interaction.release_latest_vote_task false
                (VoteWriter.committed
                   (Examples.session_of (Examples.release_podling None)))
                (Examples.release_podling None)
            with
            | Some _ =>
                AttributeError
                  "module 'atr.db.interaction' has no attribute 'task_archive_url_cached'"
            | None =>
                RuntimeError "No vote task found, unable to send resolution message."
            end)
  /\ forall out s',
       runStateT (Examples.resolve_as_m1 "passed")
         (Examples.session_of (Examples.release_podling None))
       = inr (out, s') ->
       In (fst (fst (fst out))) (Models.db_releases (VoteWriter.committed s'))
       /\ ("passed"%string = "passed"%string ->
           (Notions.podling_release (Examples.release_podling None) = false
            \/ Models.podling_thread_id (Examples.release_podling None) <> None)
           /\ Models.phase (fst (fst (fst out))) = Models.RELEASE_PREVIEW)
       /\ ("passed"%string = "failed"%string ->
           Models.phase (fst (fst (fst out))) = Models.RELEASE_CANDIDATE_DRAFT).
Proof.
  apply (resolve_phase_transitions false "m1" 1700300000 Examples.user_tests_address
           (fun _ => []) Examples.vote_body_for Examples.new_revision
           Examples.first_round_thread
           "foo" "1.0.0" "passed" "Member One" "The vote passed."
           (Examples.session_of (Examples.release_podling None))
           (Examples.release_podling None)).
  vm_compute. reflexivity.
Defined.

(** Scenarios S3, S4 and S5 through [resolve]: the first round of a podling
    vote that passed raises; the second round and a failed vote return, with
    this phase and thread id of the release. *)
Example resolve_scenarios :
  runStateT (Examples.resolve_as_m1 "passed")
    (Examples.session_of (Examples.release_podling None))
  = inl (AttributeError
           "module 'atr.db.interaction' has no attribute 'task_archive_url_cached'")
  /\ (match runStateT (Examples.resolve_as_m1 "passed")
             (Examples.session_of (Examples.release_podling (Some "abc123"%string))) with
      | inr (out, _) =>
          Some (Models.phase (fst (fst (fst out))),
                Models.podling_thread_id (fst (fst (fst out))))
      | inl _ => None
      end = Some (Models.RELEASE_PREVIEW, Some "abc123"%string))
  /\ (match runStateT (Examples.resolve_as_m1 "failed")
             (Examples.session_of Examples.release_top_level) with
      | inr (out, _) =>
          Some (Models.phase (fst (fst (fst out))),
                Models.podling_thread_id (fst (fst (fst out))))
      | inl _ => None
      end = Some (Models.RELEASE_CANDIDATE_DRAFT, None)).
Proof. repeat split; vm_compute; reflexivity. Qed.

(** [resolve_release] at the same input: the first-round pass of the
    candidate foo-1.0.0 of a podling, with its finished vote task. *)
Example resolve_release_round_one_s3 :
  runStateT Examples.resolve_round_one_as_m1
    (Examples.session_of (Examples.release_podling None))
  = inl (AttributeError
           "module 'atr.db.interaction' has no attribute 'task_archive_url_cached'").
Proof. vm_compute. reflexivity. Qed.


(* ===================================================================== *)
(** * Further properties of the ballot parser *)
(* ===================================================================== *)

Section BallotParserMore.

Import PyStr.
Import Tabulate.
Import Notions.

(** A line the parser skips can be taken out of the lines it scans. *)
Lemma castings_loop_skip (pre post : list string) (q : string) :
  _vote_continue q = true ->
  _vote_castings_loop (pre ++ q :: post) = _vote_castings_loop (pre ++ post).
Proof.
  intros Hq. induction pre as [| l pre IH]; cbn [app _vote_castings_loop].
  - rewrite Hq. reflexivity.
  - rewrite IH. reflexivity.
Qed.

(** X1: a quoted line, and any other line [_vote_continue] skips, cannot
    alter the castings of a body: the body without the line has the same
    castings, wherever the line stands. *)
Theorem quoted_line_cannot_alter_castings (body body' : string)
    (pre post : list string) (q : string) :
  split_char newline body = pre ++ q :: post ->
  split_char newline body' = pre ++ post ->
  startswith q ">" = true \/ _vote_continue q = true ->
  _vote_castings body = _vote_castings body'.
Proof.
  intros Hb Hb' Hq. unfold _vote_castings. rewrite Hb, Hb'.
  apply castings_loop_skip.
  destruct Hq as [Hq | Hq]; [| exact Hq].
  unfold _vote_continue. rewrite Hq.
  destruct (existsb _ explanation_indicators); reflexivity.
Qed.

Lemma quoted_line_cannot_alter_castings_witness :
  _vote_castings ("+1" ++ nl_string ++ "> -1 from me" ++ nl_string ++ "thanks")
  = _vote_castings ("+1" ++ nl_string ++ "thanks").
Proof.
  apply (quoted_line_cannot_alter_castings
           ("+1" ++ nl_string ++ "> -1 from me" ++ nl_string ++ "thanks")
           ("+1" ++ nl_string ++ "thanks")
           ["+1"] ["thanks"] "> -1 from me").
  - reflexivity.
  - reflexivity.
  - left. reflexivity.
Defined.

(** X2: nothing at or after a line that stops the scan (a signature
    separator, a reply header, a "From: " line, a rule of underscores)
    counts: the castings are those of the lines before it. *)
Theorem castings_stop_at_break (body : string) (pre post : list string) (b : string) :
  split_char newline body = pre ++ b :: post ->
  terminates_scan b = true ->
  _vote_castings body = _vote_castings_loop pre.
Proof.
  intros Hb Hstop. unfold _vote_castings. rewrite Hb. clear Hb.
  unfold terminates_scan in Hstop. apply andb_true_iff in Hstop.
  destruct Hstop as [Hc Hbr]. apply negb_true_iff in Hc.
  induction pre as [| l pre IH]; cbn [app _vote_castings_loop].
  - rewrite Hc, Hbr. reflexivity.
  - rewrite IH. reflexivity.
Qed.

Lemma castings_stop_at_break_witness :
  _vote_castings ("+1" ++ nl_string ++ "-- " ++ nl_string ++ "-1 is my phone extension")
  = _vote_castings_loop ["+1"].
Proof.
  apply (castings_stop_at_break
           ("+1" ++ nl_string ++ "-- " ++ nl_string ++ "-1 is my phone extension")
           ["+1"] ["-1 is my phone extension"] "-- ").
  - reflexivity.
  - reflexivity.
Defined.

Lemma castings_loop_sound (lines : list string) :
  Forall
    (fun c =>
       In (snd c) lines
       /\ _vote_continue (snd c) = false
       /\ _vote_break (snd c) = false
       /\ tests_satisfied (snd c) = 1%nat
       /\ fst c = (if plus_one (snd c) then Vote.YES
                   else if minus_one (snd c) then Vote.NO
                   else Vote.ABSTAIN))
    (_vote_castings_loop lines).
Proof.
  induction lines as [| l lines IH]; cbn [_vote_castings_loop]; [constructor |].
  assert (Hrest :
            Forall
              (fun c =>
                 In (snd c) (l :: lines)
                 /\ _vote_continue (snd c) = false
                 /\ _vote_break (snd c) = false
                 /\ tests_satisfied (snd c) = 1%nat
                 /\ fst c = (if plus_one (snd c) then Vote.YES
                             else if minus_one (snd c) then Vote.NO
                             else Vote.ABSTAIN))
              (_vote_castings_loop lines)).
  { apply (Forall_impl _ (P := fun c =>
       In (snd c) lines
       /\ _vote_continue (snd c) = false
       /\ _vote_break (snd c) = false
       /\ tests_satisfied (snd c) = 1%nat
       /\ fst c = (if plus_one (snd c) then Vote.YES
                   else if minus_one (snd c) then Vote.NO
                   else Vote.ABSTAIN))); [| exact IH].
    intros c [H1 H2]. split; [right; exact H1 | exact H2]. }
  destruct (_vote_continue l) eqn:Ec; [exact Hrest |].
  destruct (_vote_break l) eqn:Eb; [constructor |].
  cbv zeta. unfold tests_satisfied in *.
  destruct (plus_one l) eqn:Ep, (minus_one l) eqn:Em, (zero l) eqn:Ez;
    cbn [andb orb]; try exact Hrest;
    (constructor; [| exact Hrest]); cbn [fst snd];
    rewrite ?Ep, ?Em, ?Ez, ?Ec, ?Eb; repeat split; left; reflexivity.
Qed.

(** X3: every casting the parser returns is one of the lines of the body,
    neither skipped nor a stop, that satisfies exactly one of the three
    tests, with the vote of that test; a casting is never UNKNOWN, and
    there are no more castings than lines. *)
Theorem castings_come_from_lines (body : string) :
  Forall
    (fun c =>
       In (snd c) (split_char newline body)
       /\ _vote_continue (snd c) = false
       /\ _vote_break (snd c) = false
       /\ tests_satisfied (snd c) = 1%nat
       /\ fst c = (if plus_one (snd c) then Vote.YES
                   else if minus_one (snd c) then Vote.NO
                   else Vote.ABSTAIN)
       /\ fst c <> Vote.UNKNOWN)
    (_vote_castings body)
  /\ (List.length (_vote_castings body) <= List.length (split_char newline body))%nat.
Proof.
  split.
  - unfold _vote_castings.
    eapply Forall_impl; [| apply castings_loop_sound].
    intros c [H1 [H2 [H3 [H4 H5]]]]. repeat split; try assumption.
    rewrite H5. destruct (plus_one (snd c)); [discriminate |].
    destruct (minus_one (snd c)); discriminate.
  - unfold _vote_castings. generalize (split_char newline body) as lines.
    induction lines as [| l lines IH]; cbn [_vote_castings_loop length]; [lia |].
    destruct (_vote_continue l); [lia |].
    destruct (_vote_break l); [cbn; lia |].
    cbv zeta.
    destruct (plus_one l), (minus_one l), (zero l); cbn [andb orb length]; lia.
Qed.

End BallotParserMore.


(* ===================================================================== *)
(** * Further properties of the identity resolver *)
(* ===================================================================== *)

Section IdentityMore.

Import PyStr.
Import Models.
Import Tabulate.

Variable email_from_uid : string -> option string.
Variable is_dev_environment : bool.
Variable committee_by_name : string -> option Committee.

Lemma length_append (s t : string) :
  String.length (s ++ t) = (String.length s + String.length t)%nat.
Proof. induction s as [| c s IH]; cbn; [reflexivity | rewrite IH; reflexivity]. Qed.

Lemma substring_all (s : string) : String.substring 0 (String.length s) s = s.
Proof. induction s as [| c s IH]; cbn; [reflexivity | rewrite IH; reflexivity]. Qed.

Lemma substring_skip (s t : string) (m : nat) :
  String.substring (String.length s) m (s ++ t) = String.substring 0 m t.
Proof. induction s as [| c s IH]; cbn; [reflexivity | exact IH]. Qed.

Lemma substring_take (s t : string) :
  String.substring 0 (String.length s) (s ++ t) = s.
Proof.
  induction s as [| c s IH]; cbn.
  - destruct t; reflexivity.
  - rewrite IH. reflexivity.
Qed.

Lemma endswith_append (s p : string) : endswith (s ++ p) p = true.
Proof.
  unfold endswith. rewrite length_append.
  replace (String.length s + String.length p - String.length p)%nat
    with (String.length s) by lia.
  rewrite substring_skip, substring_all, String.eqb_refl.
  rewrite andb_true_r. apply Nat.leb_le. lia.
Qed.

(** [removesuffix] takes off a suffix that was put on. *)
Lemma removesuffix_append (s p : string) :
  p <> EmptyString -> removesuffix (s ++ p) p = s.
Proof.
  intros Hp. unfold removesuffix. rewrite endswith_append.
  destruct (String.eqb_spec p ""); [contradiction |]. cbn [andb negb].
  rewrite length_append.
  replace (String.length s + String.length p - String.length p)%nat
    with (String.length s) by lia.
  apply substring_take.
Qed.

(** X4: the obfuscation of a sender address by a trailing ".invalid" is
    undone: a header that reads as [e ++ ".invalid"] resolves to the same
    identity, address and uid as a header that reads as [e]. *)
Theorem identity_strips_invalid_suffix (raw raw' e : string)
    (email_to_uid : PyDict.t string) :
  email_from_uid raw = Some (e ++ ".invalid")%string ->
  email_from_uid raw' = Some e ->
  e <> EmptyString ->
  endswith e ".invalid" = false ->
  _vote_identity email_from_uid raw email_to_uid
  = _vote_identity email_from_uid raw' email_to_uid
  /\ fst (fst (_vote_identity email_from_uid raw email_to_uid)) = true
  /\ snd (fst (_vote_identity email_from_uid raw email_to_uid)) = e.
Proof.
  intros Hraw Hraw' He Hend. unfold _vote_identity. rewrite Hraw, Hraw'.
  assert (Ht : truthy (e ++ ".invalid") = true).
  { destruct e; [contradiction | reflexivity]. }
  assert (Ht' : truthy e = true).
  { destruct e; [contradiction | reflexivity]. }
  rewrite Ht, Ht'. cbn [negb].
  rewrite removesuffix_append by discriminate.
  assert (Hsame : removesuffix e ".invalid" = e).
  { unfold removesuffix. rewrite Hend. reflexivity. }
  rewrite Hsame. repeat split.
Qed.

(** X5: for a sender whose address ends with "@apache.org" the uid is the
    part of the address before its first "@", and the directory snapshot is
    not looked at: two snapshots give the same identity. *)
Theorem identity_of_foundation_address (raw e : string)
    (snapshot snapshot' : PyDict.t string) :
  email_from_uid raw = Some e ->
  endswith (removesuffix e ".invalid") "@apache.org" = true ->
  _vote_identity email_from_uid raw snapshot
  = (true, removesuffix e ".invalid",
     Some (first_field (split_char "@" (removesuffix e ".invalid"))))
  /\ _vote_identity email_from_uid raw snapshot
     = _vote_identity email_from_uid raw snapshot'.
Proof.
  intros Hraw Hend. unfold _vote_identity. rewrite Hraw.
  assert (Ht : truthy e = true).
  { destruct e as [| c e]; [| reflexivity]. cbn in Hend. discriminate Hend. }
  rewrite Ht. cbn [negb]. rewrite Hend. split; reflexivity.
Qed.

(** X6: outside a development environment, with a committee, the status of
    a uid is BINDING exactly when it is a committee member, COMMITTER
    exactly when it is a committer and no member, CONTRIBUTOR otherwise,
    and never UNKNOWN; without a committee it is UNKNOWN. *)
Theorem vote_status_classification (asf_uid list_raw : string) (c : Committee) :
  let st := _vote_status false committee_by_name asf_uid list_raw (Some c) in
  (st = VoteStatus.BINDING <-> In asf_uid (committee_members c))
  /\ (st = VoteStatus.COMMITTER <->
      ~ In asf_uid (committee_members c) /\ In asf_uid (committers c))
  /\ (st = VoteStatus.CONTRIBUTOR <->
      ~ In asf_uid (committee_members c) /\ ~ In asf_uid (committers c))
  /\ st <> VoteStatus.UNKNOWN
  /\ _vote_status false committee_by_name asf_uid list_raw None = VoteStatus.UNKNOWN.
Proof.
  assert (Hin : forall l, existsb (String.eqb asf_uid) l = true <-> In asf_uid l).
  { intros l. rewrite existsb_exists. split.
    - intros [x [Hx He]]. apply String.eqb_eq in He. subst x. exact Hx.
    - intros H. exists asf_uid. split; [exact H | apply String.eqb_refl]. }
  cbn.
  destruct (existsb (String.eqb asf_uid) (committee_members c)) eqn:Em.
  - apply Hin in Em.
    split; [tauto |]. split; [split; [discriminate | tauto] |].
    split; [split; [discriminate | tauto] |]. split; [discriminate | reflexivity].
  - assert (Hm : ~ In asf_uid (committee_members c)).
    { intros H. apply Hin in H. congruence. }
    destruct (existsb (String.eqb asf_uid) (committers c)) eqn:Ec.
    + apply Hin in Ec.
      split; [split; [discriminate | tauto] |]. split; [tauto |].
      split; [split; [discriminate | tauto] |]. split; [discriminate | reflexivity].
    + assert (Hc : ~ In asf_uid (committers c)).
      { intros H. apply Hin in H. congruence. }
      split; [split; [discriminate | tauto] |].
      split; [split; [discriminate | tauto] |].
      split; [tauto |]. split; [discriminate | reflexivity].
Qed.

End IdentityMore.

Lemma identity_strips_invalid_suffix_witness :
  Tabulate._vote_identity Examples.plain_address "m1@apache.org.invalid" []
  = Tabulate._vote_identity Examples.plain_address "m1@apache.org" []
  /\ fst (fst (Tabulate._vote_identity Examples.plain_address "m1@apache.org.invalid" []))
     = true
  /\ snd (fst (Tabulate._vote_identity Examples.plain_address "m1@apache.org.invalid" []))
     = "m1@apache.org".
Proof.
  apply (identity_strips_invalid_suffix Examples.plain_address
           "m1@apache.org.invalid" "m1@apache.org" "m1@apache.org" []);
    try reflexivity.
  discriminate.
Defined.

Lemma identity_of_foundation_address_witness :
  Tabulate._vote_identity Examples.plain_address "m1@apache.org" [("m1@apache.org", "other")]
  = (true, PyStr.removesuffix "m1@apache.org" ".invalid",
     Some (PyStr.first_field
             (PyStr.split_char "@" (PyStr.removesuffix "m1@apache.org" ".invalid"))))
  /\ Tabulate._vote_identity Examples.plain_address "m1@apache.org"
       [("m1@apache.org", "other")]
     = Tabulate._vote_identity Examples.plain_address "m1@apache.org" [].
Proof.
  apply (identity_of_foundation_address Examples.plain_address
           "m1@apache.org" "m1@apache.org" [("m1@apache.org", "other")] []);
    reflexivity.
Defined.


(* ===================================================================== *)
(** * Further properties of the tabulator *)
(* ===================================================================== *)

Section TabulatorMore.

Import PyStr.
Import Models.
Import Tabulate.
Import Notions.

Variable email_from_uid : string -> option string.
Variable is_dev_environment : bool.
Variable committee_by_name : string -> option Committee.
Variable committee : option Committee.
Variable email_to_uid : PyDict.t string.

Local Abbreviation valid := (valid_identity email_from_uid email_to_uid).
Local Abbreviation key_of := (voter_key email_from_uid email_to_uid).
Local Abbreviation cutoff := (is_cutoff email_from_uid email_to_uid).
Local Abbreviation bears := (bears_castings email_from_uid email_to_uid).
Local Abbreviation entry_of :=
  (vote_email_of email_from_uid is_dev_environment committee_by_name committee
     email_to_uid).
Local Abbreviation loop :=
  (votes_loop email_from_uid is_dev_environment committee_by_name committee
     email_to_uid).
Local Abbreviation tabulate :=
  (votes email_from_uid is_dev_environment committee_by_name committee
     email_to_uid).
Local Abbreviation loop_unfold :=
  (loop_cons email_from_uid is_dev_environment committee_by_name committee
     email_to_uid).

Lemma keys_set {V : Type} (d : PyDict.t V) (k : string) (v : V) :
  PyDict.keys (PyDict.set d k v)
  = if PyDict.mem d k then PyDict.keys d else PyDict.keys d ++ [k].
Proof.
  unfold PyDict.mem, PyDict.keys. induction d as [| [k0 v0] d IH]; cbn; [reflexivity |].
  destruct (String.eqb_spec k0 k) as [E | NE]; cbn; [reflexivity |].
  rewrite IH. destruct (PyDict.get d k); reflexivity.
Qed.

Lemma mem_keys {V : Type} (d : PyDict.t V) (k : string) :
  PyDict.mem d k = false -> ~ In k (PyDict.keys d).
Proof.
  unfold PyDict.mem, PyDict.keys. induction d as [| [k0 v0] d IH]; cbn; [tauto |].
  destruct (String.eqb_spec k0 k) as [E | NE]; [discriminate |].
  intros H [E | Hin]; [contradiction | exact (IH H Hin)].
Qed.

(** Writing an entry keeps the keys of a map distinct. *)
Lemma set_nodup {V : Type} (d : PyDict.t V) (k : string) (v : V) :
  NoDup (PyDict.keys d) -> NoDup (PyDict.keys (PyDict.set d k v)).
Proof.
  intros H. rewrite keys_set. destruct (PyDict.mem d k) eqn:E; [exact H |].
  apply NoDup_app; [exact H | repeat constructor; intros [] |].
  intros x Hx [Hk | []]. subst x. exact (mem_keys d k E Hx).
Qed.

Lemma length_set {V : Type} (d : PyDict.t V) (k : string) (v : V) :
  (List.length (PyDict.set d k v) <= S (List.length d))%nat.
Proof.
  induction d as [| [k0 v0] d IH]; cbn; [lia |].
  destruct (String.eqb k0 k); cbn; lia.
Qed.

Lemma loop_nodup (l : list (string * Message)) (st : option Z)
    (tab : PyDict.t VoteEmail) :
  NoDup (PyDict.keys tab) -> NoDup (PyDict.keys (snd (loop l st tab))).
Proof.
  revert st tab. induction l as [| [i msg] l IH]; intros st tab H; [exact H |].
  rewrite loop_unfold.
  destruct (valid msg); cbn [negb]; [| apply IH; exact H].
  destruct (cutoff msg); [exact H |].
  destruct (bears msg); apply IH; [apply set_nodup |]; exact H.
Qed.

Lemma loop_length (l : list (string * Message)) (st : option Z)
    (tab : PyDict.t VoteEmail) :
  (List.length (snd (loop l st tab))
   <= List.length tab + List.length (List.filter (fun x => bears (snd x)) l))%nat.
Proof.
  revert st tab. induction l as [| [i msg] l IH]; intros st tab; [cbn; lia |].
  rewrite loop_unfold. cbn [filter snd].
  destruct (valid msg) eqn:Ev; cbn [negb].
  - destruct (cutoff msg).
    + cbn [snd]. lia.
    + destruct (bears msg).
      * etransitivity; [apply IH |].
        pose proof (length_set tab (key_of msg)
                      (entry_of msg (PyDict.mem tab (key_of msg)))).
        cbn [length]. lia.
      * apply IH.
  - destruct (bears msg) eqn:Eb.
    + rewrite (bears_valid _ _ msg Eb) in Ev. discriminate Ev.
    + apply IH.
Qed.

(** X7: the map the tabulator returns has one entry per voter key, no key
    twice, and no more entries than the thread has messages that bear
    castings. *)
Theorem tabulator_one_entry_per_voter (thread : list (string * Message)) :
  NoDup (PyDict.keys (snd (tabulate thread)))
  /\ (List.length (snd (tabulate thread))
      <= List.length (List.filter (fun x => bears (snd x)) thread))%nat.
Proof.
  split.
  - apply loop_nodup. constructor.
  - apply (loop_length thread None PyDict.empty).
Qed.

Lemma loop_skip_invalid (pre post : list (string * Message)) (x : string * Message)
    (st : option Z) (tab : PyDict.t VoteEmail) :
  valid (snd x) = false ->
  loop (pre ++ x :: post) st tab = loop (pre ++ post) st tab.
Proof.
  intros Hx. revert st tab.
  induction pre as [| [i msg] pre IH]; intros st tab.
  - destruct x as [i msg]. cbn [app snd] in *. rewrite loop_unfold, Hx. reflexivity.
  - cbn [app]. rewrite !loop_unfold.
    destruct (valid msg); cbn [negb]; [| apply IH].
    destruct (cutoff msg); [reflexivity |].
    destruct (bears msg); apply IH.
Qed.

(** The vote map does not depend on the start time the loop begins with. *)
Lemma loop_map_any_start (l : list (string * Message)) (st st' : option Z)
    (tab : PyDict.t VoteEmail) :
  snd (loop l st tab) = snd (loop l st' tab).
Proof.
  revert st st' tab. induction l as [| [i msg] l IH]; intros st st' tab;
    [reflexivity |].
  rewrite !loop_unfold.
  destruct (valid msg); cbn [negb]; [| apply IH].
  destruct (cutoff msg); [reflexivity |].
  destruct (bears msg); apply IH.
Qed.

Lemma loop_skip_silent (pre post : list (string * Message)) (x : string * Message)
    (st : option Z) (tab : PyDict.t VoteEmail) :
  cutoff (snd x) = false ->
  bears (snd x) = false ->
  snd (loop (pre ++ x :: post) st tab) = snd (loop (pre ++ post) st tab).
Proof.
  intros Hc Hb. revert st tab.
  induction pre as [| [i msg] pre IH]; intros st tab.
  - destruct x as [i msg]. cbn [app snd] in *. rewrite loop_unfold, Hc, Hb.
    destruct (valid msg); cbn [negb]; [apply loop_map_any_start | reflexivity].
  - cbn [app]. rewrite !loop_unfold.
    destruct (valid msg); cbn [negb]; [| apply IH].
    destruct (cutoff msg); [reflexivity |].
    destruct (bears msg); apply IH.
Qed.

(** X8: a message whose sender has no identity is ignored altogether, even
    when its subject contains "[RESULT]": the thread without it gives the
    same start time and the same map.  A message with an identity that is
    no cutoff and bears no castings (an empty body, no vote line) leaves
    the vote map as it is. *)
Theorem tabulator_ignores_silent_messages (pre post : list (string * Message))
    (x : string * Message) :
  (valid (snd x) = false ->
   tabulate (pre ++ x :: post) = tabulate (pre ++ post))
  /\ (cutoff (snd x) = false -> bears (snd x) = false ->
      snd (tabulate (pre ++ x :: post)) = snd (tabulate (pre ++ post))).
Proof.
  split.
  - intros H. apply loop_skip_invalid. exact H.
  - intros Hc Hb. apply loop_skip_silent; assumption.
Qed.

End TabulatorMore.


(* ===================================================================== *)
(** * Further properties of the summary and of the outcome *)
(* ===================================================================== *)

Section SummaryMore.

Import Models.
Import Tabulate.
Import Notions.

Local Open Scope Z_scope.

(** The entries of a list with a status among [statuses] and the vote [v]. *)
Lemma vote_delta_count (l : list VoteEmail) (k : string)
    (statuses : list VoteStatus.t) (v : Vote.t) :
  In (k, statuses, v)
    [ ("binding_votes_yes"%string, [VoteStatus.BINDING], Vote.YES);
      ("binding_votes_no"%string, [VoteStatus.BINDING], Vote.NO);
      ("non_binding_votes_yes"%string,
       [VoteStatus.COMMITTER; VoteStatus.CONTRIBUTOR], Vote.YES);
      ("non_binding_votes_no"%string,
       [VoteStatus.COMMITTER; VoteStatus.CONTRIBUTOR], Vote.NO);
      ("unknown_votes_yes"%string, [VoteStatus.UNKNOWN], Vote.YES);
      ("unknown_votes_no"%string, [VoteStatus.UNKNOWN], Vote.NO) ] ->
  fold_right (fun e acc => summary_delta e k + acc) 0 l
  = Z.of_nat
      (List.length
         (List.filter
            (fun e => existsb (VoteStatus.eqb (status e)) statuses
                      && Vote.eqb (vote e) v) l)).
Proof.
  intros Hk. induction l as [| e l IH]; [reflexivity |].
  cbn [fold_right filter]. rewrite IH.
  unfold summary_delta, one_if_value.
  cbn in Hk.
  repeat (destruct Hk as [Hk | Hk];
          [injection Hk as <- <- <-;
           destruct (status e), (vote e); cbn -[Z.of_nat Z.add]; lia |]).
  contradiction.
Qed.

(** X9: the counters of [vote_summary] are exact: every yes and no counter
    is the number of entries of its statuses with that vote, and the three
    totals add up to the number of entries of the map. *)
Theorem vote_summary_counts (tabulated_votes : PyDict.t VoteEmail) :
  let summary := vote_summary tabulated_votes in
  let count statuses v :=
    Z.of_nat
      (List.length
         (List.filter
            (fun e => existsb (VoteStatus.eqb (status e)) statuses
                      && Vote.eqb (vote e) v)
            (PyDict.values tabulated_votes))) in
  PyDict.get summary "binding_votes_yes" = Some (count [VoteStatus.BINDING] Vote.YES)
  /\ PyDict.get summary "binding_votes_no" = Some (count [VoteStatus.BINDING] Vote.NO)
  /\ PyDict.get summary "non_binding_votes_yes"
     = Some (count [VoteStatus.COMMITTER; VoteStatus.CONTRIBUTOR] Vote.YES)
  /\ PyDict.get summary "non_binding_votes_no"
     = Some (count [VoteStatus.COMMITTER; VoteStatus.CONTRIBUTOR] Vote.NO)
  /\ PyDict.get summary "unknown_votes_yes" = Some (count [VoteStatus.UNKNOWN] Vote.YES)
  /\ PyDict.get summary "unknown_votes_no" = Some (count [VoteStatus.UNKNOWN] Vote.NO)
  /\ exists b n u,
       PyDict.get summary "binding_votes" = Some b
       /\ PyDict.get summary "non_binding_votes" = Some n
       /\ PyDict.get summary "unknown_votes" = Some u
       /\ b + n + u = Z.of_nat (List.length tabulated_votes).
Proof.
  intros summary count. unfold summary, count, vote_summary.
  repeat (split;
          [rewrite get_summary_fold;
           cbn [PyDict.get summary_init String.eqb Ascii.eqb Bool.eqb option_map];
           erewrite vote_delta_count; [reflexivity | cbn; tauto] |]).
  eexists. eexists. eexists.
  repeat (split;
          [rewrite get_summary_fold;
           cbn [PyDict.get summary_init String.eqb Ascii.eqb Bool.eqb option_map];
           erewrite total_delta_count; [reflexivity | tauto] |]).
  unfold PyDict.values.
  induction tabulated_votes as [| [k e] l IH]; [reflexivity |].
  cbn [map filter snd length]. 
  destruct (status e); cbn -[Z.of_nat Z.add] in *; lia.
Qed.

(** X10: [vote_outcome] and [vote_summary] agree: whenever [vote_outcome]
    returns, the vote passes exactly when the summary's
    [binding_votes_yes] is at least 3 and greater than its
    [binding_votes_no]. *)
Theorem vote_outcome_agrees_with_summary (now : Z) (release : Release)
    (start_unixtime : option Z) (tabulated_votes : PyDict.t VoteEmail)
    (passed : bool) (msg : string) :
  vote_outcome now release start_unixtime tabulated_votes = inr (passed, msg) ->
  exists yes no,
    PyDict.get (vote_summary tabulated_votes) "binding_votes_yes" = Some yes
    /\ PyDict.get (vote_summary tabulated_votes) "binding_votes_no" = Some no
    /\ (passed = true <-> 3 <= yes /\ no < yes).
Proof.
  intros H.
  unfold vote_outcome in H.
  apply bind_returns in H. destruct H as [duration [_ H]].
  apply bind_returns in H. destruct H as [remaining [_ H]].
  rewrite count_binding_fold, vote_outcome_format_spec in H.
  cbn in H. injection H as Hp _. subst passed.
  eexists. eexists.
  split; [unfold vote_summary; rewrite get_summary_fold;
          cbn [PyDict.get summary_init String.eqb Ascii.eqb Bool.eqb option_map];
          erewrite vote_delta_count; [reflexivity | cbn; tauto] |].
  split; [unfold vote_summary; rewrite get_summary_fold;
          cbn [PyDict.get summary_init String.eqb Ascii.eqb Bool.eqb option_map];
          erewrite vote_delta_count; [reflexivity | cbn; tauto] |].
  cbn [existsb orb]. 
  rewrite andb_true_iff, Z.leb_le, Z.ltb_lt.
  assert (Hf : forall v l,
             List.filter
               (fun e => (VoteStatus.eqb (status e) VoteStatus.BINDING || false)
                         && Vote.eqb (vote e) v) l
             = List.filter
                 (fun e => VoteStatus.eqb (status e) VoteStatus.BINDING
                           && Vote.eqb (vote e) v) l).
  { intros v l. apply filter_ext. intros e. rewrite orb_false_r. reflexivity. }
  rewrite !Hf. lia.
Qed.

Lemma vote_outcome_agrees_with_summary_witness :
  exists yes no,
    PyDict.get (vote_summary Examples.votes_s1) "binding_votes_yes" = Some yes
    /\ PyDict.get (vote_summary Examples.votes_s1) "binding_votes_no" = Some no
    /\ (true = true <-> 3 <= yes /\ no < yes).
Proof.
  apply (vote_outcome_agrees_with_summary 1700000000 Examples.release_no_minimum
           (Some 1699990000) Examples.votes_s1 true "The vote passed.").
  vm_compute. reflexivity.
Defined.

(** X11: a thread without a start time never closes.  With no start time
    and a positive minimum duration of [h] hours, the 72-hour default or
    the policy's [min_hours], [vote_outcome] reports the vote as still open
    for [h] hours, whatever the time is. *)
Theorem vote_outcome_without_start (now h : Z) (release : Release)
    (tabulated_votes : PyDict.t VoteEmail) :
  (policy_of release = None /\ h = 72)
  \/ (exists policy, policy_of release = Some policy /\ min_hours policy = Some h) ->
  0 < h ->
  exists passed,
    vote_outcome now release None tabulated_votes
    = inr (passed,
           ("The vote is still open for " ++ PyNum.int_str h
            ++ " hours, but it would " ++ (if passed : bool then "pass" else "fail")%string
            ++ " if closed now.")%string).
Proof.
  intros Hmin Hh. unfold vote_outcome.
  assert (Hd :
            match release_project release with
            | Some project =>
                match release_policy project with
                | Some policy => or_none (min_hours policy)
                | None => Some 72
                end
            | None => Some 72
            end = Some h).
  { unfold policy_of in Hmin.
    destruct (release_project release) as [project |].
    - destruct (release_policy project) as [policy |].
      + destruct Hmin as [[Hn _] | [policy' [Hp Hm]]]; [discriminate Hn |].
        injection Hp as <-. rewrite Hm. cbn.
        destruct (Z.eqb_spec h 0); [lia | reflexivity].
      + destruct Hmin as [[_ ->] | [policy' [Hp _]]]; [reflexivity | discriminate Hp].
    - destruct Hmin as [[_ ->] | [policy' [Hp _]]]; [reflexivity | discriminate Hp]. }
  rewrite Hd. cbn [bind ret Monad_PyResult Monad_either PyNum.int_sub].
  destruct (fold_left count_binding (PyDict.values tabulated_votes) (0, 0))
    as [plus minus].
  rewrite vote_outcome_format_spec.
  exists ((3 <=? plus) && (minus <? plus)).
  unfold outcome_message. cbn [PyNum.gt_zero PyNum.round2 PyNum.num_str].
  rewrite Z.sub_0_r.
  destruct (Z.ltb_spec 0 h); [| lia].
  destruct ((3 <=? plus) && (minus <? plus)); reflexivity.
Qed.

Lemma vote_outcome_without_start_witness :
  exists passed,
    vote_outcome 1900000000 Examples.release_72 None Examples.votes_s1
    = inr (passed,
           ("The vote is still open for " ++ PyNum.int_str 72
            ++ " hours, but it would " ++ (if passed : bool then "pass" else "fail")%string
            ++ " if closed now.")%string).
Proof.
  apply (vote_outcome_without_start 1900000000 72 Examples.release_72 Examples.votes_s1).
  - right. exists (Examples.policy_with (Some 72)). split; reflexivity.
  - lia.
Defined.

End SummaryMore.


(* ===================================================================== *)
(** * Properties of the resolution renderer *)
(* ===================================================================== *)

Section RendererFacts.

Import PyStr.
Import Models.
Import Tabulate.
Import Notions.
Import Render.

Local Open Scope Z_scope.

Variable unknown_first : bool.

(** The entries a section lists. *)
Local Abbreviation listed statuses entries :=
  (List.filter (fun e : VoteEmail => status_in (status e) statuses) entries).

(** The loop yields the header once, before the first entry it lists, and
    clears it then. *)
Lemma resolution_votes_loop_closed (entries : list VoteEmail)
    (statuses : list VoteStatus.t) (header : option string) :
  _vote_resolution_votes_loop entries statuses header
  = match listed statuses entries, header with
    | [], _ => ([], header)
    | chosen, Some h => (h :: ""%string :: List.map vote_line chosen, None)
    | chosen, None => (List.map vote_line chosen, None)
    end.
Proof.
  revert header. induction entries as [| e rest IH]; intros header.
  - destruct header; reflexivity.
  - cbn [_vote_resolution_votes_loop filter].
    destruct (status_in (status e) statuses); cbn [negb].
    + destruct header as [h |]; rewrite (IH None);
        destruct (listed statuses rest); reflexivity.
    + apply IH.
Qed.

(** X12: a section of the resolution is empty when no entry has one of its
    statuses; otherwise it is the header, an empty line, one line per entry
    with one of the statuses, in the order of the map, and an empty line. *)
Theorem resolution_section_closed_form (tabulated_votes : PyDict.t VoteEmail)
    (statuses : list VoteStatus.t) :
  _vote_resolution_votes tabulated_votes statuses
  = match listed statuses (PyDict.values tabulated_votes) with
    | [] => []
    | chosen =>
        section_header statuses :: ""%string :: List.map vote_line chosen ++ [""%string]
    end.
Proof.
  unfold _vote_resolution_votes. rewrite resolution_votes_loop_closed.
  destruct (listed statuses (PyDict.values tabulated_votes)); [reflexivity |].
  reflexivity.
Qed.

(** Every key of the initial summary is in the summary, with the sum of the
    contributions of the entries. *)
Lemma summary_item_of_vote_summary (tabulated_votes : PyDict.t VoteEmail)
    (k : string) (z : Z) :
  PyDict.get summary_init k = Some z ->
  summary_item (vote_summary tabulated_votes) k
  = inr (z + fold_right (fun e acc => summary_delta e k + acc) 0
               (PyDict.values tabulated_votes)).
Proof.
  intros Hk. unfold summary_item, vote_summary.
  rewrite get_summary_fold, Hk. reflexivity.
Qed.

(** X13: rendered from the summary of the same map, the vote lines of a
    resolution never raise; the total they print is the number of entries
    the binding section lists, the two counts are those of the binding
    entries in favour and against, and the abstentions are always printed
    as 0, whatever the binding entries voted. *)
Theorem resolution_votes_of_summary (tabulated_votes : PyDict.t VoteEmail) :
  let entries := PyDict.values tabulated_votes in
  let total := Z.of_nat (List.length (listed [VoteStatus.BINDING] entries)) in
  let count v :=
    Z.of_nat
      (List.length
         (List.filter (fun e : VoteEmail => Vote.eqb (vote e) v)
            (listed [VoteStatus.BINDING] entries))) in
  _vote_resolution_body_votes unknown_first tabulated_votes
    (vote_summary tabulated_votes)
  = inr (_vote_resolution_votes tabulated_votes [VoteStatus.BINDING]
         ++ [ ("There " ++ (if (total =? 1)%Z then "was" else "were") ++ " "
               ++ PyNum.int_str total ++ " binding "
               ++ (if (total =? 1)%Z then "vote" else "votes") ++ ".")%string;
              ""%string;
              ("Of these binding votes, " ++ PyNum.int_str (count Vote.YES)
               ++ " were +1, " ++ PyNum.int_str (count Vote.NO)
               ++ " were -1, and 0 were 0.")%string;
              ""%string ]
         ++ _vote_resolution_votes tabulated_votes [VoteStatus.COMMITTER]
         ++ _vote_resolution_votes tabulated_votes (contributor_unknown unknown_first)).
Proof.
  intros entries total count. unfold _vote_resolution_body_votes.
  rewrite (summary_item_of_vote_summary tabulated_votes "binding_votes" 0 eq_refl).
  rewrite (summary_item_of_vote_summary tabulated_votes "binding_votes_yes" 0 eq_refl).
  rewrite (summary_item_of_vote_summary tabulated_votes "binding_votes_no" 0 eq_refl).
  rewrite (summary_item_of_vote_summary tabulated_votes "binding_votes_abstain" 0 eq_refl).
  rewrite (abstain_delta_zero _ "binding_votes_abstain") by (cbn; tauto).
  rewrite (total_delta_count _ "binding_votes" [VoteStatus.BINDING]) by tauto.
  rewrite (vote_delta_count _ "binding_votes_yes" [VoteStatus.BINDING] Vote.YES)
    by (cbn; tauto).
  rewrite (vote_delta_count _ "binding_votes_no" [VoteStatus.BINDING] Vote.NO)
    by (cbn; tauto).
  assert (Hc : forall v,
             List.filter
               (fun e => existsb (VoteStatus.eqb (status e)) [VoteStatus.BINDING]
                         && Vote.eqb (vote e) v)
               (PyDict.values tabulated_votes)
             = List.filter (fun e : VoteEmail => Vote.eqb (vote e) v)
                 (listed [VoteStatus.BINDING] entries)).
  { intros v. subst entries. unfold status_in.
    induction (PyDict.values tabulated_votes) as [| e l IH]; [reflexivity |].
    cbn [filter].
    destruct (existsb (VoteStatus.eqb (status e)) [VoteStatus.BINDING]);
      cbn [andb filter]; [destruct (Vote.eqb (vote e) v) |]; rewrite IH; reflexivity. }
  rewrite !Hc. fold entries. unfold status_in. fold total. fold (count Vote.YES).
  fold (count Vote.NO).
  cbn [bind ret Monad_PyResult Monad_either Z.add].
  reflexivity.
Qed.

(** X14: [vote_resolution] returns exactly when the release has a project
    and the summary has the four keys of the binding votes.  Without a
    project it raises AttributeError, whatever the summary holds; with a
    project and a key missing it raises KeyError. *)
Theorem vote_resolution_returns_iff (committee : Committee) (release : Release)
    (tabulated_votes : PyDict.t VoteEmail) (summary : PyDict.t Z) (passed : bool)
    (outcome full_name asf_uid thread_id : string) :
  let result :=
    vote_resolution unknown_first committee release tabulated_votes summary passed
      outcome full_name asf_uid thread_id in
  let keys :=
    [ "binding_votes"; "binding_votes_yes"; "binding_votes_no";
      "binding_votes_abstain" ]%string in
  ((exists body, result = inr body)
   <-> release_project release <> None
       /\ forallb (PyDict.mem summary) keys = true)
  /\ (release_project release = None -> exists m, result = inl (AttributeError m))
  /\ (release_project release <> None ->
      forallb (PyDict.mem summary) keys = false ->
      exists k, In k keys /\ PyDict.get summary k = None /\ result = inl (KeyError k)).
Proof.
  intros result keys. subst result keys.
  unfold vote_resolution, _vote_resolution_body, _vote_resolution_body_votes,
    summary_item, PyDict.mem.
  destruct (release_project release) as [project |].
  - cbn [bind ret Monad_PyResult Monad_either forallb].
    destruct (PyDict.get summary "binding_votes") as [a |] eqn:Ea;
      [destruct (PyDict.get summary "binding_votes_yes") as [b |] eqn:Eb;
       [destruct (PyDict.get summary "binding_votes_no") as [c |] eqn:Ec;
        [destruct (PyDict.get summary "binding_votes_abstain") as [d |] eqn:Ed | ] | ] | ];
      cbn [bind ret Monad_PyResult Monad_either andb].
    + split; [split; [intros _; split; [discriminate | reflexivity] | eauto] |].
      split; [discriminate | intros _ H; discriminate H].
    + split; [split; [intros [body H]; discriminate H | intros [_ H]; discriminate H] |].
      split; [discriminate |]. intros _ _.
      exists "binding_votes_abstain"%string. cbn. tauto.
    + split; [split; [intros [body H]; discriminate H | intros [_ H]; discriminate H] |].
      split; [discriminate |]. intros _ _.
      exists "binding_votes_no"%string. cbn. tauto.
    + split; [split; [intros [body H]; discriminate H | intros [_ H]; discriminate H] |].
      split; [discriminate |]. intros _ _.
      exists "binding_votes_yes"%string. cbn. tauto.
    + split; [split; [intros [body H]; discriminate H | intros [_ H]; discriminate H] |].
      split; [discriminate |]. intros _ _.
      exists "binding_votes"%string. cbn. tauto.
  - cbn [bind ret Monad_PyResult Monad_either].
    split; [split; [intros [body H]; discriminate H | intros [H _]; contradiction] |].
    split; [eauto | intros H; contradiction].
Qed.

(** X15: the resolution of a release with a non-empty thread id of a first
    round is addressed to the Incubator and cites the archive of that
    round; with no thread id, or an empty one, it is addressed to the
    committee by its display name.  Its third line states the outcome from
    [passed] alone: the [outcome] argument is never read. *)
Theorem vote_resolution_addressee (committee : Committee) (release : Release)
    (project : Project) (tabulated_votes : PyDict.t VoteEmail) (summary : PyDict.t Z)
    (passed : bool) (outcome full_name asf_uid thread_id : string)
    (lines : list string) :
  release_project release = Some project ->
  _vote_resolution_body unknown_first committee release tabulated_votes summary
    passed outcome full_name asf_uid thread_id = inr lines ->
  let addressee :=
    match podling_thread_id release with
    | Some (String _ _) => "Incubator"%string
    | _ => committee_display_name committee
    end in
  nth_error lines 0 = Some ("Dear " ++ addressee ++ " participants,")%string
  /\ nth_error lines 2
     = Some ("The vote on " ++ project_name project ++ " " ++ version release ++ " "
             ++ (if passed then "passed" else "failed") ++ ".")%string
  /\ (forall t, podling_thread_id release = Some t -> t <> ""%string ->
      nth_error lines 6 = Some ("https://lists.apache.org/thread/" ++ t)%string
      /\ nth_error lines 10 = Some ("https://lists.apache.org/thread/" ++ thread_id)%string)
  /\ (podling_thread_id release = None \/ podling_thread_id release = Some ""%string ->
      nth_error lines 6 = Some ("https://lists.apache.org/thread/" ++ thread_id)%string)
  /\ forall outcome',
       _vote_resolution_body unknown_first committee release tabulated_votes summary
         passed outcome' full_name asf_uid thread_id = inr lines.
Proof.
  intros Hp H addressee. subst addressee.
  unfold _vote_resolution_body in *. rewrite Hp in *.
  cbn [bind ret Monad_PyResult Monad_either] in *.
  destruct (_vote_resolution_body_votes unknown_first tabulated_votes summary)
    as [e | votes_lines]; [discriminate H |].
  cbn [bind ret Monad_PyResult Monad_either] in *.
  injection H as <-.
  unfold has_thread_id, truthy.
  destruct (podling_thread_id release) as [[| c t] |];
    cbn [app nth_error];
    (split; [reflexivity |]); (split; [reflexivity |]).
  - split; [intros t0 Ht Hne; injection Ht as <-; contradiction |].
    split; [intros _; reflexivity | intros outcome'; reflexivity].
  - split; [intros t0 Ht _; injection Ht as <-; split; reflexivity |].
    split; [intros [Hn | Hn]; discriminate Hn | intros outcome'; reflexivity].
  - split; [intros t0 Ht; discriminate Ht |].
    split; [intros _; reflexivity | intros outcome'; reflexivity].
Qed.

End RendererFacts.

(** The second round of a podling vote that passed, called with an outcome
    argument that says otherwise. *)
Lemma vote_resolution_addressee_witness :
  let lines := Scenarios.resolution_lines_second_round in
  let release := Examples.release_podling (Some "r1"%string) in
  let addressee :=
    match Models.podling_thread_id release with
    | Some (String _ _) => "Incubator"%string
    | _ => Models.committee_display_name Examples.committee_podling
    end in
  nth_error lines 0 = Some ("Dear " ++ addressee ++ " participants,")%string
  /\ nth_error lines 2
     = Some ("The vote on " ++ "foo" ++ " " ++ Models.version release ++ " "
             ++ "passed" ++ ".")%string
  /\ (forall t, Models.podling_thread_id release = Some t -> t <> ""%string ->
      nth_error lines 6 = Some ("https://lists.apache.org/thread/" ++ t)%string
      /\ nth_error lines 10 = Some ("https://lists.apache.org/thread/" ++ "r2")%string)
  /\ (Models.podling_thread_id release = None
      \/ Models.podling_thread_id release = Some ""%string ->
      nth_error lines 6 = Some ("https://lists.apache.org/thread/" ++ "r2")%string)
  /\ forall outcome',
       Render._vote_resolution_body false Examples.committee_podling release
         Examples.votes_s1 (Tabulate.vote_summary Examples.votes_s1) true outcome'
         "Member One" "m1" "r2" = inr lines.
Proof.
  apply (vote_resolution_addressee false Examples.committee_podling
           (Examples.release_podling (Some "r1"%string))
           (Examples.project_with (Some Examples.committee_podling) None)
           Examples.votes_s1 (Tabulate.vote_summary Examples.votes_s1) true
           "failed" "Member One" "m1" "r2" Scenarios.resolution_lines_second_round).
  - reflexivity.
  - vm_compute. reflexivity.
Defined.


(* ===================================================================== *)
(** * Properties of the queries on releases and tasks *)
(* ===================================================================== *)

Section QueryFacts.

Import Models.
Import Interaction.
Import Queries.
Import QueryNotions.

Local Open Scope Z_scope.

Lemma Z_ltb_asym (a b : Z) : (a <? b) = true -> (b <? a) = false.
Proof. intros H. apply Z.ltb_lt in H. apply Z.ltb_ge. lia. Qed.

Lemma Z_ltb_ge_trans (a b c : Z) :
  (a <? b) = false -> (b <? c) = false -> (a <? c) = false.
Proof. rewrite !Z.ltb_ge. lia. Qed.

Lemma phase_eqb_eq (a b : ReleasePhase) : phase_eqb a b = true <-> a = b.
Proof. destruct a, b; cbn; split; intros H; congruence. Qed.

(** The rows a query by phase selects. *)
Local Abbreviation selected project wanted :=
  (fun row : Z * Release =>
     String.eqb (release_project_name (snd row)) (project_name project)
     && phase_eqb (phase (snd row)) wanted).

(** The first entry of a sorted list has the greatest key. *)
Lemma sort_desc_head {A : Type} (l : list (Z * A)) (x : Z * A) (rest : list (Z * A)) :
  sort_desc Z.ltb l = x :: rest ->
  In x l /\ forall y, In y l -> fst y <= fst x.
Proof.
  intros H.
  pose proof (sort_desc_perm Z.ltb l) as Hperm.
  pose proof (sort_desc_sorted Z.ltb Z_ltb_asym Z_ltb_ge_trans l) as Hsorted.
  rewrite H in Hperm, Hsorted.
  split.
  - apply (Permutation_in _ Hperm). left. reflexivity.
  - intros y Hy.
    apply (Permutation_in _ (Permutation_sym Hperm)) in Hy.
    destruct Hy as [<- | Hy]; [lia |].
    inversion Hsorted as [| ? ? _ Hall]; subst.
    rewrite Forall_forall in Hall. specialize (Hall y Hy). cbn in Hall.
    apply Z.ltb_ge in Hall. exact Hall.
Qed.

(** X16: [releases_by_phase] returns the rows of the project in the phase
    asked for, each once, newest first by creation time, each with its
    [project] set to the project given. *)
Theorem releases_by_phase_sorted (rows : list (Z * Release)) (project : Project)
    (wanted : ReleasePhase) :
  exists results,
    releases_by_phase rows project wanted
    = List.map (fun row => set_project project (snd row)) results
    /\ Permutation results (List.filter (selected project wanted) rows)
    /\ StronglySorted (fun a b : Z * Release => fst b <= fst a) results
    /\ Forall
         (fun r => release_project r = Some project
                   /\ release_project_name r = project_name project
                   /\ phase r = wanted)
         (releases_by_phase rows project wanted).
Proof.
  unfold releases_by_phase.
  set (chosen := List.filter (selected project wanted) rows).
  exists (sort_desc Z.ltb chosen).
  split; [reflexivity |].
  split; [apply sort_desc_perm |].
  split.
  - pose proof (sort_desc_sorted Z.ltb Z_ltb_asym Z_ltb_ge_trans chosen) as Hs.
    induction Hs as [| a l Hl IH Ha]; constructor; [exact IH |].
    apply (Forall_impl (P := fun y : Z * Release => (fst a <? fst y) = false));
      [| exact Ha].
    intros y Hy. apply Z.ltb_ge in Hy. exact Hy.
  - apply Forall_map. apply Forall_forall. intros row Hrow.
    apply (Permutation_in _ (sort_desc_perm Z.ltb chosen)) in Hrow.
    apply filter_In in Hrow. destruct Hrow as [_ Hrow].
    apply andb_true_iff in Hrow. destruct Hrow as [Hname Hphase].
    apply String.eqb_eq in Hname. apply phase_eqb_eq in Hphase.
    cbn. auto.
Qed.

Lemma in_releases_by_phase (rows : list (Z * Release)) (project : Project)
    (wanted : ReleasePhase) (r : Release) :
  In r (releases_by_phase rows project wanted)
  <-> exists row, In row rows /\ selected project wanted row = true
                  /\ r = set_project project (snd row).
Proof.
  unfold releases_by_phase. rewrite in_map_iff. split.
  - intros [row [<- Hrow]].
    apply (Permutation_in _ (sort_desc_perm Z.ltb _)) in Hrow.
    apply filter_In in Hrow. destruct Hrow as [Hin Hsel]. eauto.
  - intros [row [Hin [Hsel ->]]]. exists row. split; [reflexivity |].
    apply (Permutation_in _ (Permutation_sym (sort_desc_perm Z.ltb _))).
    apply filter_In. auto.
Qed.

Lemma length_releases_by_phase (rows : list (Z * Release)) (project : Project)
    (wanted : ReleasePhase) :
  List.length (releases_by_phase rows project wanted)
  = List.length (List.filter (selected project wanted) rows).
Proof.
  unfold releases_by_phase. rewrite length_map.
  apply Permutation_length. apply sort_desc_perm.
Qed.

(** X17: the releases in progress of a project are the rows of the project
    whose phase is not RELEASE, each once and each with its [project] set;
    none of them is in phase RELEASE, and none is also a full release. *)
Theorem releases_in_progress_members (rows : list (Z * Release)) (project : Project) :
  (forall r,
     In r (releases_in_progress rows project)
     <-> exists row, In row rows /\ in_progress_row project row = true
                     /\ r = set_project project (snd row))
  /\ List.length (releases_in_progress rows project)
     = List.length (List.filter (in_progress_row project) rows)
  /\ (forall r, In r (releases_in_progress rows project) ->
      phase r <> RELEASE /\ ~ In r (full_releases rows project)).
Proof.
  assert (Hmem : forall r,
             In r (releases_in_progress rows project)
             <-> exists row, In row rows /\ in_progress_row project row = true
                             /\ r = set_project project (snd row)).
  { intros r. unfold releases_in_progress, candidate_drafts, candidates, previews.
    rewrite !in_app_iff, !in_releases_by_phase. unfold in_progress_row. split.
    - intros [H | [H | H]]; destruct H as [row [Hin [Hsel ->]]];
        exists row; (split; [exact Hin |]); (split; [| reflexivity]);
        apply andb_true_iff in Hsel; destruct Hsel as [-> Hphase];
        apply phase_eqb_eq in Hphase; rewrite Hphase; reflexivity.
    - intros [row [Hin [Hsel ->]]].
      apply andb_true_iff in Hsel. destruct Hsel as [Hname Hphase].
      destruct (phase (snd row)) eqn:E; try discriminate Hphase.
      + left. exists row. rewrite Hname, E. auto.
      + right. left. exists row. rewrite Hname, E. auto.
      + right. right. exists row. rewrite Hname, E. auto. }
  split; [exact Hmem |]. split.
  - unfold releases_in_progress, candidate_drafts, candidates, previews.
    rewrite !length_app, !length_releases_by_phase. unfold in_progress_row.
    clear Hmem. induction rows as [| row rows IH]; [reflexivity |].
    cbn [filter].
    destruct (String.eqb (release_project_name (snd row)) (project_name project));
      [destruct (phase (snd row)) |];
      cbn [andb phase_eqb negb length]; lia.
  - intros r Hr. apply Hmem in Hr. destruct Hr as [row [_ [Hsel ->]]].
    apply andb_true_iff in Hsel. destruct Hsel as [_ Hphase].
    assert (Hne : phase (snd row) <> RELEASE).
    { intros E. rewrite E in Hphase. discriminate Hphase. }
    split; [exact Hne |].
    unfold full_releases. rewrite in_releases_by_phase.
    intros [row' [_ [Hsel' Heq]]].
    apply andb_true_iff in Hsel'. destruct Hsel' as [_ Hphase'].
    apply phase_eqb_eq in Hphase'.
    apply (f_equal phase) in Heq. cbn in Heq. congruence.
Qed.

End QueryFacts.

Section LatestVoteTask.

Import Models.
Import Interaction.
Import QueryNotions.

Local Open Scope Z_scope.

Variable is_dev_environment : bool.

Local Abbreviation latest := (release_latest_vote_task is_dev_environment).

(** The filter of the query selects the tasks of [vote_task_of]. *)
Lemma vote_task_filter (release : Release) (t : Task) :
  String.eqb (task_project_name t) (release_project_name release)
  && String.eqb (task_version_name t) (version release)
  && task_type_eqb (task_type t) VOTE_INITIATE
  && negb (existsb (status_eqb (task_status t))
             (if is_dev_environment then [] else [QUEUED; ACTIVE]))
  && match task_result t with Some _ => true | None => false end = true
  <-> vote_task_of is_dev_environment release t.
Proof.
  unfold vote_task_of.
  rewrite !andb_true_iff, !String.eqb_eq, negb_true_iff.
  destruct is_dev_environment, (task_type t), (task_status t),
    (task_result t); cbn; intuition congruence.
Qed.

(** X18: [release_latest_vote_task] returns a task of the table that the
    query selects and that no selected task is newer than; it returns
    nothing only when the query selects no task.  Outside the development
    environment a queued or active vote is never returned. *)
Theorem latest_vote_task_is_newest (db : Database) (release : Release) :
  match latest db release with
  | Some t =>
      In t (db_tasks db)
      /\ vote_task_of is_dev_environment release t
      /\ forall t', In t' (db_tasks db) ->
                    vote_task_of is_dev_environment release t' ->
                    added t' <= added t
  | None =>
      forall t', In t' (db_tasks db) -> ~ vote_task_of is_dev_environment release t'
  end.
Proof.
  unfold release_latest_vote_task.
  set (chosen := List.filter _ (db_tasks db)).
  assert (Hchosen : forall t, In t chosen
                              <-> In t (db_tasks db)
                                  /\ vote_task_of is_dev_environment release t).
  { intros t. unfold chosen. rewrite filter_In, vote_task_filter. tauto. }
  destruct (sort_desc Z.ltb (List.map (fun t => (added t, t)) chosen))
    as [| x rest] eqn:E; cbn [List.map hd_error].
  - intros t' Hin Hq.
    assert (Ht : In t' chosen) by (apply Hchosen; auto).
    pose proof (sort_desc_perm Z.ltb (List.map (fun t => (added t, t)) chosen)) as Hp.
    rewrite E in Hp. apply Permutation_nil in Hp.
    destruct chosen; [contradiction | discriminate Hp].
  - destruct (sort_desc_head _ x rest E) as [Hx Hmax].
    apply in_map_iff in Hx. destruct Hx as [t [<- Ht]]. cbn [snd].
    apply Hchosen in Ht. destruct Ht as [Hin Hq].
    split; [exact Hin |]. split; [exact Hq |].
    intros t' Hin' Hq'.
    apply (Hmax (added t', t')). apply in_map_iff. exists t'.
    split; [reflexivity | apply Hchosen; auto].
Qed.

End LatestVoteTask.

(* ===================================================================== *)
(** * Further properties of the trusted publisher check *)
(* ===================================================================== *)

Section TrustedMore.

Import PyStr.
Import Models.
Import Interaction.

Variable verify_github_oidc : string -> PyResult (PyDict.t string).
Variable github_to_apache : string -> PyResult string.
Variable GITHUB_AUTOMATED_RELEASE_COMMITTEES : list string.

Local Abbreviation trusted :=
  (trusted_jwt verify_github_oidc github_to_apache GITHUB_AUTOMATED_RELEASE_COMMITTEES).
Local Abbreviation trusted_project :=
  (_trusted_project GITHUB_AUTOMATED_RELEASE_COMMITTEES).

Lemma string_append_assoc (s t u : string) :
  ((s ++ t) ++ u)%string = (s ++ t ++ u)%string.
Proof. induction s as [| c s IH]; cbn; [reflexivity | rewrite IH; reflexivity]. Qed.

Lemma prefix_append (p s : string) : String.prefix p (p ++ s) = true.
Proof.
  induction p as [| c p IH]; cbn; [destruct s; reflexivity |].
  destruct (ascii_dec c c); [exact IH | contradiction].
Qed.

Lemma removeprefix_append (p s : string) : removeprefix (p ++ s) p = s.
Proof.
  unfold removeprefix, startswith. rewrite prefix_append, length_append.
  replace (String.length p + String.length s - String.length p)%nat
    with (String.length s) by lia.
  rewrite substring_skip. apply substring_all.
Qed.

Lemma removeprefix_split (s p : string) :
  startswith s p = true -> s = (p ++ removeprefix s p)%string.
Proof.
  intros H. unfold removeprefix. rewrite H. apply prefix_split. exact H.
Qed.

Lemma contains_at (ref : string) : contains (String "@" ref) "@" = true.
Proof. cbn. destruct ref; reflexivity. Qed.

(** The text before the last "@" of a text, when what follows has none. *)
Lemma rsplit_append (path ref : string) :
  contains ref "@" = false ->
  rsplit_once_first "@" (path ++ String "@" ref) = path.
Proof.
  intros Href. induction path as [| c path IH].
  - cbn [append rsplit_once_first]. rewrite Href. reflexivity.
  - cbn [append rsplit_once_first].
    rewrite (prefix_contains path (String "@" ref) "@" (contains_at ref)).
    rewrite andb_false_r, IH. reflexivity.
Qed.

(** A text with an "@" is what precedes the last one, the "@", and a rest
    without any. *)
Lemma rsplit_split (s : string) :
  contains s "@" = true ->
  exists ref, contains ref "@" = false
              /\ s = (rsplit_once_first "@" s ++ String "@" ref)%string.
Proof.
  induction s as [| c s IH]; [discriminate |].
  intros H. cbn [rsplit_once_first].
  destruct (contains s "@") eqn:Es.
  - rewrite andb_false_r. destruct (IH eq_refl) as [ref [Href Hs]].
    exists ref. split; [exact Href |]. cbn [append]. f_equal. exact Hs.
  - rewrite andb_true_r.
    destruct (Ascii.eqb_spec c "@") as [-> | NE].
    + exists s. split; [exact Es | reflexivity].
    + exfalso. cbn [contains] in H. rewrite Es, orb_false_r in H.
      cbn [String.prefix] in H.
      destruct (ascii_dec "@" c) as [E | _]; [congruence | discriminate H].
Qed.

(** X19: [_trusted_project_checks] accepts exactly the workflow references
    of the form apache/<name>/<path>@<ref> for the repository apache/<name>,
    with <path> under .github/workflows/ and <ref> free of "@", and returns
    <name> and <path>. *)
Theorem trusted_project_checks_iff (repository workflow_ref name path : string) :
  _trusted_project_checks repository workflow_ref = inr (name, path)
  <-> repository = ("apache/" ++ name)%string
      /\ startswith path ".github/workflows/" = true
      /\ exists ref,
           contains ref "@" = false
           /\ workflow_ref = (repository ++ "/" ++ path ++ "@" ++ ref)%string.
Proof.
  unfold _trusted_project_checks, raise_exn. split.
  - destruct (startswith repository "apache/") eqn:E1; cbn [negb]; [| discriminate].
    destruct (startswith workflow_ref (repository ++ "/")) eqn:E2; cbn [negb];
      [| discriminate].
    destruct (contains (removeprefix workflow_ref (repository ++ "/")) "@") eqn:E3;
      cbn [negb]; [| discriminate].
    destruct (startswith
                (rsplit_once_first "@" (removeprefix workflow_ref (repository ++ "/")))
                ".github/workflows/") eqn:E4; cbn [negb]; [| discriminate].
    intros H. cbn in H. injection H as <- <-.
    split; [apply removeprefix_split; exact E1 |].
    split; [exact E4 |].
    destruct (rsplit_split _ E3) as [ref [Href Hs]].
    exists ref. split; [exact Href |].
    rewrite (removeprefix_split workflow_ref (repository ++ "/") E2) at 1.
    rewrite Hs at 1. rewrite !string_append_assoc. reflexivity.
  - intros [-> [Hpath [ref [Href ->]]]].
    unfold startswith at 1. rewrite prefix_append. cbn [negb].
    rewrite removeprefix_append.
    replace (("apache/" ++ name) ++ "/" ++ path ++ "@" ++ ref)%string
      with ((("apache/" ++ name) ++ "/") ++ path ++ String "@" ref)%string
      by (rewrite !string_append_assoc; reflexivity).
    unfold startswith at 1. rewrite prefix_append. cbn [negb].
    rewrite removeprefix_append.
    rewrite (prefix_contains path (String "@" ref) "@" (contains_at ref)). cbn [negb].
    rewrite (rsplit_append path ref Href), Hpath. reflexivity.
Qed.

(** The getter of a claim returns what the payload holds. *)
Lemma getitem_returns (d : PyDict.t string) (k v : string) :
  getitem d k = inr v -> PyDict.get d k = Some v.
Proof.
  unfold getitem. destruct (PyDict.get d k); cbn; [| discriminate].
  intros H. injection H as <-. reflexivity.
Qed.

(** X20: what [trusted_jwt] returns is vouched for.  The payload is the one
    the verifier returned for the token, the uid is the one the directory
    gives for the actor of the payload, and the project is a row of the
    project table, bound to a policy of the policy table that names the
    repository and lists the workflow path for the phase; its committee is
    one of those that can make automated releases. *)
Theorem trusted_jwt_sound (db : Database) (publisher jwt : string)
    (phase : TrustedProjectPhase) (payload : PyDict.t string) (asf_uid : string)
    (project : Project) :
  trusted db publisher jwt phase = inr (payload, asf_uid, project) ->
  publisher = "github"%string
  /\ verify_github_oidc jwt = inr payload
  /\ exists actor_id repository workflow_ref name path policy bound c,
       PyDict.get payload "actor_id" = Some actor_id
       /\ github_to_apache actor_id = inr asf_uid
       /\ PyDict.get payload "repository" = Some repository
       /\ PyDict.get payload "workflow_ref" = Some workflow_ref
       /\ _trusted_project_checks repository workflow_ref = inr (name, path)
       /\ In policy (db_release_policies db)
       /\ github_repository_name policy = name
       /\ In path (workflow_paths phase policy)
       /\ In project (db_projects db)
       /\ release_policy project = Some bound
       /\ policy_id bound = policy_id policy
       /\ committee project = Some c
       /\ In (committee_name c) GITHUB_AUTOMATED_RELEASE_COMMITTEES.
Proof.
  unfold trusted_jwt.
  destruct (String.eqb_spec publisher "github") as [-> | NE]; cbn [negb];
    [| discriminate].
  intros H.
  apply bind_returns in H. destruct H as [payload' [Hv H]].
  apply bind_returns in H. destruct H as [actor_id [Ha H]].
  apply bind_returns in H. destruct H as [uid [Hu H]].
  apply bind_returns in H. destruct H as [repository [Hr H]].
  apply bind_returns in H. destruct H as [workflow_ref [Hw H]].
  apply bind_returns in H. destruct H as [project' [Hp H]].
  cbn in H. injection H as -> -> ->.
  split; [reflexivity |]. split; [exact Hv |].
  unfold _trusted_project in Hp.
  apply bind_returns in Hp. destruct Hp as [[name path] [Hc Hp]].
  apply bind_returns in Hp. destruct Hp as [policy [Hpol Hp]].
  apply bind_returns in Hp. destruct Hp as [found [Hproj Hp]].
  destruct (committee found) as [c |] eqn:Ec; [| discriminate Hp].
  destruct (existsb (String.eqb (committee_name c)) GITHUB_AUTOMATED_RELEASE_COMMITTEES)
    eqn:Eallow; cbn [negb] in Hp; [| discriminate Hp].
  cbn in Hp. injection Hp as ->.
  unfold demand, release_policy_query in Hpol.
  destruct (find _ (db_release_policies db)) as [policy' |] eqn:Ef; [| discriminate Hpol].
  cbn in Hpol. injection Hpol as ->.
  apply find_some in Ef. destruct Ef as [Hin Hsel].
  apply andb_true_iff in Hsel. destruct Hsel as [Hname Hlisted].
  apply String.eqb_eq in Hname.
  apply existsb_exists in Hlisted. destruct Hlisted as [p [Hp_in Hp_eq]].
  apply String.eqb_eq in Hp_eq. subst p.
  unfold demand, project_query in Hproj.
  destruct (find _ (db_projects db)) as [project'' |] eqn:Eg; [| discriminate Hproj].
  cbn in Hproj. injection Hproj as ->.
  apply find_some in Eg. destruct Eg as [Hin_p Hbound].
  destruct (release_policy project) as [bound |] eqn:Eb; [| discriminate Hbound].
  apply Z.eqb_eq in Hbound.
  apply existsb_exists in Eallow. destruct Eallow as [n [Hn_in Hn_eq]].
  apply String.eqb_eq in Hn_eq. subst n.
  exists actor_id, repository, workflow_ref, name, path, policy, bound, c.
  repeat split; try assumption; try (apply getitem_returns; assumption).
Qed.

End TrustedMore.

(** The token of scenario S6. *)
Lemma trusted_jwt_sound_witness :
  "github"%string = "github"%string
  /\ Examples.verify_s6 "signed-token" = inr Examples.payload_s6
  /\ exists actor_id repository workflow_ref name path policy bound c,
       PyDict.get Examples.payload_s6 "actor_id" = Some actor_id
       /\ Examples.directory_s6 actor_id = inr "m1"%string
       /\ PyDict.get Examples.payload_s6 "repository" = Some repository
       /\ PyDict.get Examples.payload_s6 "workflow_ref" = Some workflow_ref
       /\ Interaction._trusted_project_checks repository workflow_ref = inr (name, path)
       /\ In policy (Models.db_release_policies Examples.database_s6)
       /\ Models.github_repository_name policy = name
       /\ In path (Interaction.workflow_paths Interaction.VOTE policy)
       /\ In (Examples.project_with (Some Examples.committee_s1)
                (Some (Examples.policy_with (Some 72%Z))))
            (Models.db_projects Examples.database_s6)
       /\ Models.release_policy
            (Examples.project_with (Some Examples.committee_s1)
               (Some (Examples.policy_with (Some 72%Z)))) = Some bound
       /\ Models.policy_id bound = Models.policy_id policy
       /\ Models.committee
            (Examples.project_with (Some Examples.committee_s1)
               (Some (Examples.policy_with (Some 72%Z)))) = Some c
       /\ In (Models.committee_name c) ["tooling"%string].
Proof.
  apply (trusted_jwt_sound Examples.verify_s6 Examples.directory_s6 ["tooling"%string]
           Examples.database_s6 "github" "signed-token" Interaction.VOTE
           Examples.payload_s6 "m1"
           (Examples.project_with (Some Examples.committee_s1)
              (Some (Examples.policy_with (Some 72%Z))))).
  vm_compute. reflexivity.
Defined.


(* ===================================================================== *)
(** * Further properties of the vote writer: starting a vote *)
(* ===================================================================== *)

Section StartFacts.

Import PyStr.
Import Models.
Import VoteWriter.
Import Notions.

#[local] Existing Instance Monad_stateT.

Variable utcnow : Z.
Variable permitted_recipients_of : string -> list string.

Local Abbreviation start_cmd := (start utcnow permitted_recipients_of).

(** The release [start] works on: the one given, or the row of the project
    and version. *)
Local Abbreviation resolved release s pn vn :=
  (match release with
   | Some r => Some r
   | None => release_by_version (working s) pn vn
   end).

Local Abbreviation allowed permitted uid :=
  (match permitted with
   | Some l => l
   | None => permitted_recipients_of uid
   end).

Lemma existsb_eqb_in (x : string) (l : list string) :
  existsb (String.eqb x) l = true <-> In x l.
Proof.
  rewrite existsb_exists. split.
  - intros [y [Hy E]]. apply String.eqb_eq in E. subst y. exact Hy.
  - intros H. exists x. split; [exact H | apply String.eqb_refl].
Qed.

(** X21: a vote is started only on a permitted list, and only without
    promotion.  When [start] returns, [promote] is not set, the address is
    among the permitted recipients, those given or else those of the user;
    the task returned is a queued vote initiation for the release, without
    a result, and it is the one row the task table gains; nothing else in
    the tables changes, and the session is committed. *)
Theorem start_queues_permitted_vote (email_to pn vn revision : string) (duration : Z)
    (subject text uid fullname : string) (release : option Release) (promote : bool)
    (permitted : option (list string)) (s s' : Session) (task : Task) :
  runStateT
    (start_cmd email_to pn vn revision duration subject text uid fullname release
       promote permitted) s
  = inr (task, s') ->
  promote = false
  /\ In email_to (allowed permitted uid)
  /\ exists r,
       resolved release s pn vn = Some r
       /\ task = {| task_status := QUEUED;
                    task_type := VOTE_INITIATE;
                    task_args :=
                      Initiate (name_of r) email_to duration uid fullname subject text;
                    task_result := None;
                    added := utcnow;
                    task_asf_uid := uid;
                    task_project_name := pn;
                    task_version_name := vn |}
       /\ committed s' = working s'
       /\ working s' = with_tasks (working s) (db_tasks (working s) ++ [task]).
Proof.
  intros H. unfold start in H.
  apply run_bind_inv in H. destruct H as [r [s1 [Hfirst H]]].
  assert (Hres : resolved release s pn vn = Some r /\ s1 = s).
  { destruct release as [r0 |]; cbn in Hfirst.
    - injection Hfirst as <- <-. split; reflexivity.
    - destruct (release_by_version (working s) pn vn) as [r0 |];
        cbn in Hfirst; [| discriminate Hfirst].
      injection Hfirst as <- <-. split; reflexivity. }
  destruct Hres as [Hres ->].
  destruct (existsb (String.eqb email_to) (allowed permitted uid)) eqn:Eperm;
    cbn [negb] in H; [| cbn in H; discriminate H].
  destruct promote; [cbn in H; discriminate H |].
  split; [reflexivity |].
  split; [apply existsb_eqb_in; exact Eperm |].
  exists r. split; [exact Hres |].
  cbn in H. injection H as <- <-. cbn.
  repeat split.
Qed.

(** X22: [start] does not return in these cases, tested in this order.
    It raises AccessError "Release not found" when no release is given and
    none has the project and version, and AccessError "Invalid mailing list
    choice" when the address is not permitted, whether or not a promotion
    is asked for.  With a permitted address and [promote] set it raises
    AttributeError at the lookup of [interaction.promote_release], which
    the module does not define; no task is queued. *)
Theorem start_refusals (email_to pn vn revision : string) (duration : Z)
    (subject text uid fullname : string) (release : option Release) (promote : bool)
    (permitted : option (list string)) (s : Session) :
  let run :=
    runStateT
      (start_cmd email_to pn vn revision duration subject text uid fullname release
         promote permitted) s in
  (resolved release s pn vn = None -> run = inl (AccessError "Release not found"))
  /\ (forall r, resolved release s pn vn = Some r ->
      ~ In email_to (allowed permitted uid) ->
      run = inl (AccessError "Invalid mailing list choice"))
  /\ (forall r,
      resolved release s pn vn = Some r ->
      In email_to (allowed permitted uid) ->
      promote = true ->
      run = inl (AttributeError
                   "module 'atr.db.interaction' has no attribute 'promote_release'")).
Proof.
  intros run. subst run. unfold start.
  split; [| split].
  - intros Hres. destruct release as [r |]; [discriminate Hres |].
    cbn. rewrite Hres. reflexivity.
  - intros r Hres Hnot.
    assert (Eperm : existsb (String.eqb email_to) (allowed permitted uid) = false).
    { destruct (existsb (String.eqb email_to) (allowed permitted uid)) eqn:E;
        [| reflexivity].
      apply existsb_eqb_in in E. contradiction. }
    destruct release as [r0 |]; cbn.
    + rewrite Eperm. reflexivity.
    + cbn in Hres. rewrite Hres. cbn. rewrite Eperm. reflexivity.
  - intros r Hres Hin ->.
    apply existsb_eqb_in in Hin.
    destruct release as [r0 |]; cbn.
    + rewrite Hin. reflexivity.
    + cbn in Hres. rewrite Hres. cbn. rewrite Hin. reflexivity.
Qed.

End StartFacts.

(** The member m1 starts the vote on Apache Foo 1.0.0. *)
Lemma start_queues_permitted_vote_witness :
  false = false
  /\ In "dev@foo.apache.org"%string ["dev@foo.apache.org"%string]
  /\ exists r,
       VoteWriter.release_by_version
         (VoteWriter.working (Examples.session_of Examples.release_top_level))
         "foo" "1.0.0" = Some r
       /\ Scenarios.started_task
          = {| Models.task_status := Models.QUEUED;
               Models.task_type := Models.VOTE_INITIATE;
               Models.task_args :=
                 Models.Initiate (Models.name_of r) "dev@foo.apache.org" 72 "m1"
                   "Member One" "[VOTE] Release Apache Foo 1.0.0" "Please vote.";
               Models.task_result := None;
               Models.added := 1700000000;
               Models.task_asf_uid := "m1";
               Models.task_project_name := "foo";
               Models.task_version_name := "1.0.0" |}
       /\ VoteWriter.committed Scenarios.started_session
          = VoteWriter.working Scenarios.started_session
       /\ VoteWriter.working Scenarios.started_session
          = VoteWriter.with_tasks
              (VoteWriter.working (Examples.session_of Examples.release_top_level))
              (Models.db_tasks
                 (VoteWriter.working (Examples.session_of Examples.release_top_level))
               ++ [Scenarios.started_task]).
Proof.
  apply (start_queues_permitted_vote 1700000000
           (fun _ => ["dev@foo.apache.org"%string])
           "dev@foo.apache.org" "foo" "1.0.0" "00003" 72
           "[VOTE] Release Apache Foo 1.0.0" "Please vote." "m1" "Member One"
           None false None (Examples.session_of Examples.release_top_level)
           Scenarios.started_session Scenarios.started_task).
  vm_compute. reflexivity.
Defined.

(* ===================================================================== *)
(** * Further properties of the vote writer: resolving a vote *)
(* ===================================================================== *)

Section ResolveFacts.

Import PyStr.
Import Models.
Import VoteWriter.
Import Notions.

#[local] Existing Instance Monad_stateT.

Variable is_dev_environment : bool.
Variable self_asf_uid : string.
Variable utcnow : Z.
Variable USER_TESTS_ADDRESS : string.
Variable permitted_recipients_of : string -> list string.
Variable start_vote_default : string -> PyResult string.
Variable create_and_manage : string -> string -> string -> string -> PyResult string.
Variable email_mid_from_thread_id : string -> PyResult (string * string).

Local Abbreviation send := (send_resolution is_dev_environment utcnow).
Local Abbreviation resolve_cmd :=
  (resolve is_dev_environment self_asf_uid utcnow USER_TESTS_ADDRESS
     permitted_recipients_of start_vote_default create_and_manage
     email_mid_from_thread_id).
Local Abbreviation resolve_rel :=
  (resolve_release is_dev_environment self_asf_uid utcnow USER_TESTS_ADDRESS
     permitted_recipients_of start_vote_default create_and_manage
     email_mid_from_thread_id).
Local Abbreviation mid_of := (Interaction.task_mid_get is_dev_environment).

Local Abbreviation no_thread_message :=
  ("No vote thread found, unable to send resolution message."%string).

(** What [send_resolution] does, by the message id of the vote: without one
    it returns its error text and leaves the session as it was; with one it
    queues a reply to the vote on the list of the vote and, for an extra
    destination, a copy in reply there, and commits. *)
Lemma send_resolution_exact (release : Release)
    (resolution body uid fullname : string) (task : Task)
    (extra : option (string * string)) (s : Session) (x : option string)
    (s' : Session) :
  runStateT (send release resolution body uid fullname task extra) s = inr (x, s') ->
  match mid_of task with
  | None => x = Some no_thread_message /\ s' = s
  | Some mid =>
      x = None
      /\ committed s' = working s'
      /\ db_releases (working s') = db_releases (working s)
      /\ db_revisions (working s') = db_revisions (working s)
      /\ exists recipient sender subject text first rest,
           args_email_to task = inr recipient
           /\ db_tasks (working s') = db_tasks (working s) ++ first :: rest
           /\ queued_message first
           /\ task_args first = Send sender recipient subject text mid
           /\ match extra with
              | None => rest = []
              | Some (address, message_id) =>
                  exists second,
                    rest = [second]
                    /\ queued_message second
                    /\ task_args second = Send sender address subject text message_id
              end
  end.
Proof.
  unfold send_resolution. intros H.
  destruct (mid_of task) as [mid |].
  - cbn in H.
    destruct (args_email_to task) as [e | recipient]; [discriminate H |].
    destruct (project_of release) as [e | project]; [discriminate H |].
    destruct extra as [[address message_id] |]; cbn in H; injection H as <- <-; cbn;
      (split; [reflexivity |]); (split; [reflexivity |]); (split; [reflexivity |]);
      (split; [reflexivity |]);
      do 6 eexists; (split; [reflexivity |]); (split; [reflexivity |]);
      (split; [split; reflexivity |]); (split; [reflexivity |]).
    + eexists. split; [reflexivity |]. split; [split; reflexivity | reflexivity].
    + reflexivity.
  - cbn in H. injection H as <- <-. split; reflexivity.
Qed.

(** What follows the three branches of [resolve_release]: a commit, and
    the resolution sent from the committed session. *)
Lemma resolve_tail_exact (release : Release) (vr : option Z)
    (vote_result msg : string) (extra : option (string * string))
    (body fullname : string) (task : Task) (s1 s' : Session)
    (out : Release * option Z * string * option string) :
  runStateT
    (bind commit (fun _ =>
       bind (send release vote_result body self_asf_uid fullname task extra)
         (fun error_message => ret (release, vr, msg, error_message)))) s1
  = inr (out, s') ->
  exists err,
    out = (release, vr, msg, err)
    /\ runStateT (send release vote_result body self_asf_uid fullname task extra)
         {| working := working s1; committed := working s1 |}
       = inr (err, s').
Proof.
  intros H. apply run_bind_inv in H. destruct H as [u [s2 [Hc H]]].
  cbn in Hc. injection Hc as _ <-.
  apply run_bind_inv in H. destruct H as [err [s3 [Hs H]]].
  cbn in H. injection H as <- <-.
  exists err. split; [reflexivity | exact Hs].
Qed.

(** The tables after the branch of [resolve_release] that a call which
    returns has taken: the release is written over its row and the task
    table is as it was.  The branch of a first-round pass does not return. *)
Lemma resolve_release_inv (pn : string) (release : Release) (vr : option Z)
    (vote_result : string) (task : Task) (fullname body : string) (s s' : Session)
    (out : Release * option Z * string * option string) :
  runStateT (resolve_rel pn release vr vote_result task fullname body) s = inr (out, s') ->
  exists release' msg extra err s1,
    out = (release', vr, msg, err)
    /\ runStateT (send release' vote_result body self_asf_uid fullname task extra)
         {| working := working s1; committed := working s1 |}
       = inr (err, s')
    /\ db_releases (working s1) = replace_row release' (db_releases (working s))
    /\ db_tasks (working s1) = db_tasks (working s)
    /\ ~ (vr = Some 1%Z /\ vote_result = "passed"%string)
    /\ (vote_result = "passed"%string ->
        release' = set_phase release RELEASE_PREVIEW
        /\ exists number,
             create_and_manage pn (version release) self_asf_uid
               "Create a preview revision from the last candidate draft"
             = inr number
             /\ db_revisions (working s1)
                = db_revisions (working s)
                  ++ [ {| revision_release_name := name_of release;
                          revision_number := number;
                          revision_asfuid := self_asf_uid;
                          revision_description :=
                            "Create a preview revision from the last candidate draft" |} ]
             /\ match vr, podling_thread_id release with
                | Some 2%Z, Some thread_id =>
                    exists destination,
                      email_mid_from_thread_id thread_id = inr destination
                      /\ extra = Some destination
                | _, _ => extra = None
                end)
    /\ (vote_result <> "passed"%string ->
        release' = set_phase release RELEASE_CANDIDATE_DRAFT
        /\ extra = None
        /\ db_revisions (working s1) = db_revisions (working s)).
Proof.
  intros H. unfold resolve_release in H.
  apply run_bind_inv in H. destruct H as [[[release' msg] extra] [s1 [Hb H]]].
  apply resolve_tail_exact in H. destruct H as [err [Hout Hsend]].
  exists release', msg, extra, err, s1.
  destruct (String.eqb_spec vote_result "passed") as [Epass | NEpass].
  - subst vote_result.
    destruct (match vr with Some 1%Z => true | _ => false end) eqn:Eround;
      [cbn in Hb; discriminate Hb |].
    cbn [andb String.eqb Ascii.eqb Bool.eqb] in Hb. cbn in Hb.
    destruct (create_and_manage pn (version release) self_asf_uid
                "Create a preview revision from the last candidate draft")
      as [e | number] eqn:Ecreate; cbn in Hb; [discriminate Hb |].
    split; [exact Hout |]. split; [exact Hsend |].
    destruct vr as [[| [p | [p | p |] |] | p] |]; try discriminate Eround;
      cbn in Hb;
      repeat match type of Hb with
        | context [match podling_thread_id release with _ => _ end] =>
            destruct (podling_thread_id release); cbn in Hb
        | context [match email_mid_from_thread_id ?t with _ => _ end] =>
            destruct (email_mid_from_thread_id t) eqn:?; cbn in Hb
        end;
      try discriminate Hb;
      injection Hb as <- <- <- <-; cbn;
      (split; [reflexivity |]); (split; [reflexivity |]);
      (split; [intros [Hvr _]; discriminate Hvr |]);
      (split; [| intros Hne; contradiction Hne; reflexivity]);
      intros _; (split; [reflexivity |]); exists number;
      (split; [reflexivity |]); (split; [reflexivity |]);
      try reflexivity; eauto.
  - rewrite andb_false_r in Hb. cbn in Hb.
    injection Hb as <- <- <- <-.
    split; [exact Hout |]. split; [exact Hsend |]. cbn.
    split; [reflexivity |]. split; [reflexivity |].
    split; [intros [_ E]; contradiction |].
    split; [intros E; contradiction |].
    intros _. auto.
Qed.

(** X23: without a message id of the vote there is no resolution mail.  In
    the development environment, or when the result of the vote task is
    not that of a vote initiation, a call of [resolve_release] that returns
    is not the first-round pass of a podling vote, and it reports "No vote
    thread found, unable to send resolution message."; the change of the
    release is committed all the same, and the task table is left as it
    was: no message is queued. *)
Theorem resolution_needs_vote_thread (pn : string) (release : Release)
    (vr : option Z) (vote_result : string) (task : Task) (fullname body : string)
    (s s' : Session) (out : Release * option Z * string * option string) :
  is_dev_environment = true
  \/ (forall mid url, task_result task <> Some (VoteInitiate mid url)) ->
  runStateT (resolve_rel pn release vr vote_result task fullname body) s = inr (out, s') ->
  ~ (vr = Some 1%Z /\ vote_result = "passed"%string)
  /\ snd out = Some no_thread_message
  /\ committed s' = working s'
  /\ db_releases (working s')
     = replace_row (fst (fst (fst out))) (db_releases (working s))
  /\ db_tasks (working s') = db_tasks (working s).
Proof.
  intros Hmid H.
  assert (Hnone : mid_of task = None).
  { unfold Interaction.task_mid_get.
    destruct Hmid as [-> | Hres]; [reflexivity |].
    destruct is_dev_environment; [reflexivity |].
    destruct (task_result task) as [[mid url |] |]; try reflexivity.
    contradiction (Hres mid url). reflexivity. }
  apply resolve_release_inv in H.
  destruct H as [release' [msg [extra [err [s1 H]]]]].
  destruct H as [-> [Hsend [Hrows [Htasks [Hround _]]]]].
  apply send_resolution_exact in Hsend. rewrite Hnone in Hsend.
  destruct Hsend as [-> ->]. cbn.
  split; [exact Hround |].
  split; [reflexivity |]. split; [reflexivity |]. split; [exact Hrows | exact Htasks].
Qed.

(** X24: the second round of a podling vote that passed.  With the thread
    id of the first round on the release, [resolve_release] for round 2
    looks up the list and message id of that thread; when it returns, the
    release is in phase PREVIEW, one preview revision is recorded for it,
    and, when the vote task has a message id, exactly two messages are
    queued: the resolution in reply to the vote on the list of the vote,
    and a copy with the same sender, subject and text in reply to the first
    round on its list. *)
Theorem resolve_release_round_two_pass (pn : string) (release : Release)
    (thread_id : string) (task : Task) (fullname body : string) (s s' : Session)
    (out : Release * option Z * string * option string) :
  podling_thread_id release = Some thread_id ->
  runStateT (resolve_rel pn release (Some 2%Z) "passed" task fullname body) s
  = inr (out, s') ->
  exists address message_id number,
    email_mid_from_thread_id thread_id = inr (address, message_id)
    /\ create_and_manage pn (version release) self_asf_uid
         "Create a preview revision from the last candidate draft" = inr number
    /\ fst (fst (fst out)) = set_phase release RELEASE_PREVIEW
    /\ db_releases (committed s')
       = replace_row (set_phase release RELEASE_PREVIEW) (db_releases (working s))
    /\ db_revisions (committed s')
       = db_revisions (working s)
         ++ [ {| revision_release_name := name_of release;
                 revision_number := number;
                 revision_asfuid := self_asf_uid;
                 revision_description :=
                   "Create a preview revision from the last candidate draft" |} ]
    /\ forall mid,
         mid_of task = Some mid ->
         exists recipient sender subject text first second,
           args_email_to task = inr recipient
           /\ db_tasks (committed s') = db_tasks (working s) ++ [first; second]
           /\ queued_message first
           /\ queued_message second
           /\ task_args first = Send sender recipient subject text mid
           /\ task_args second = Send sender address subject text message_id.
Proof.
  intros Hthread H.
  apply resolve_release_inv in H.
  destruct H as [release' [msg [extra [err [s1 H]]]]].
  destruct H as [-> [Hsend [Hrows [Htasks [_ [Hpass _]]]]]].
  destruct (Hpass eq_refl) as [-> [number [Hcreate [Hrevs Hextra]]]].
  rewrite Hthread in Hextra. destruct Hextra as [[address message_id] [Hlookup ->]].
  exists address, message_id, number.
  split; [exact Hlookup |]. split; [exact Hcreate |]. split; [reflexivity |].
  apply send_resolution_exact in Hsend.
  destruct (mid_of task) as [mid |].
  - destruct Hsend as [_ [Hcom [Hrel [Hrev Hsend]]]].
    destruct Hsend as [recipient [sender [subject [text [first [rest Hsend]]]]]].
    destruct Hsend as [Hto [Hnew [Hq1 [Ha1 [second [-> [Hq2 Ha2]]]]]]].
    cbn in Hrel, Hrev, Hnew. rewrite Hcom.
    split; [congruence |]. split; [congruence |].
    intros mid' Hmid. injection Hmid as <-.
    exists recipient, sender, subject, text, first, second.
    repeat split; try assumption; try apply Hq1; try apply Hq2. congruence.
  - destruct Hsend as [_ ->]. cbn.
    split; [exact Hrows |]. split; [exact Hrevs |].
    intros mid Hmid. discriminate Hmid.
Qed.

(** A release that is written over its row in a phase other than CANDIDATE
    is no longer found as a candidate. *)
Lemma release_by_name_replaced (release' : Release) (rows : list Release) :
  phase release' <> RELEASE_CANDIDATE ->
  release_by_name
    {| db_releases := replace_row release' rows;
       db_projects := [];
       db_release_policies := [];
       db_tasks := [];
       db_revisions := [] |}
    (name_of release') RELEASE_CANDIDATE = None.
Proof.
  intros Hphase. unfold release_by_name, replace_row. cbn [db_releases].
  induction rows as [| row rows IH]; [reflexivity |].
  cbn [List.map find].
  destruct (String.eqb (name_of row) (name_of release')) eqn:E.
  - destruct (phase release'); try (rewrite andb_false_r; exact IH).
    contradiction.
  - rewrite E. exact IH.
Qed.

(** X25: a vote is resolved once.  After [resolve] has returned for a
    release, other than for the first round of a podling vote that passed,
    the release is no longer a candidate, and every further call of
    [resolve] for it raises AccessError "Release not found". *)
Theorem resolve_not_repeatable (pn vn vote_result fullname body : string)
    (s s' : Session) (r : Release)
    (out : Release * option Z * string * option string) :
  release_by_name (working s) (release_name pn vn) RELEASE_CANDIDATE = Some r ->
  runStateT (resolve_cmd pn vn vote_result fullname body) s = inr (out, s') ->
  ~ (vote_result = "passed"%string
     /\ podling_release r = true /\ podling_thread_id r = None) ->
  forall vote_result' fullname' body',
    runStateT (resolve_cmd pn vn vote_result' fullname' body') s'
    = inl (AccessError "Release not found").
Proof.
  intros Hfind H Hnot vote_result' fullname' body'.
  destruct (resolve_dispatch _ _ _ _ _ _ _ _ pn vn vote_result fullname body
              s s' r out Hfind H) as [task [_ Hrun]].
  apply resolve_release_inv in Hrun.
  destruct Hrun as [release' [msg [extra [err [s1 Hrun]]]]].
  destruct Hrun as [_ [Hsend [Hrows [_ [_ [Hpass Hfail]]]]]].
  assert (Hname : name_of r = release_name pn vn).
  { unfold release_by_name in Hfind. apply find_some in Hfind.
    destruct Hfind as [_ Hsel]. apply andb_true_iff in Hsel.
    apply String.eqb_eq. apply Hsel. }
  assert (Hrel : name_of release' = release_name pn vn
                 /\ phase release' <> RELEASE_CANDIDATE).
  { destruct (String.eqb_spec vote_result "passed") as [E | NE].
    - destruct (Hpass E) as [-> _]. split; [exact Hname | discriminate].
    - destruct (Hfail NE) as [-> _]. split; [exact Hname | discriminate]. }
  destruct Hrel as [Hname' Hphase].
  assert (Hrows' : db_releases (working s')
                   = replace_row release' (db_releases (working s))).
  { apply send_resolution_exact in Hsend.
    destruct (mid_of task).
    - destruct Hsend as [_ [_ [Hrel _]]]. cbn in Hrel. congruence.
    - destruct Hsend as [_ ->]. exact Hrows. }
  pose proof (release_by_name_replaced release' (db_releases (working s)) Hphase)
    as Hnone.
  unfold release_by_name in Hnone. cbn [db_releases] in Hnone.
  rewrite <- Hrows', Hname' in Hnone.
  unfold resolve. cbn. unfold release_by_name. rewrite Hnone. reflexivity.
Qed.

End ResolveFacts.

(** The development environment, for a vote that failed. *)
Lemma resolution_needs_vote_thread_witness :
  ~ (@None Z = Some 1%Z /\ "failed"%string = "passed"%string)
  /\ snd Scenarios.dev_failed_out
     = Some "No vote thread found, unable to send resolution message."%string
  /\ VoteWriter.committed Scenarios.dev_failed_session
     = VoteWriter.working Scenarios.dev_failed_session
  /\ Models.db_releases (VoteWriter.working Scenarios.dev_failed_session)
     = Notions.replace_row (fst (fst (fst Scenarios.dev_failed_out)))
         (Models.db_releases
            (VoteWriter.working (Examples.session_of Examples.release_top_level)))
  /\ Models.db_tasks (VoteWriter.working Scenarios.dev_failed_session)
     = Models.db_tasks
         (VoteWriter.working (Examples.session_of Examples.release_top_level)).
Proof.
  apply (resolution_needs_vote_thread true "m1" 1700300000
           Examples.user_tests_address (fun _ => [])
           Examples.vote_body_for Examples.new_revision
           Examples.first_round_thread "foo" Examples.release_top_level None
           "failed" Examples.vote_task_done "Member One" "The vote failed.").
  - left. reflexivity.
  - vm_compute. reflexivity.
Defined.

(** The second round of the podling vote on Apache Foo 1.0.0. *)
Lemma resolve_release_round_two_pass_witness :
  exists address message_id number,
    Examples.first_round_thread "r1" = inr (address, message_id)
    /\ Examples.new_revision "foo"
         (Models.version (Examples.release_podling (Some "r1"%string))) "m1"
         "Create a preview revision from the last candidate draft" = inr number
    /\ fst (fst (fst Scenarios.round_two_out))
       = VoteWriter.set_phase (Examples.release_podling (Some "r1"%string))
           Models.RELEASE_PREVIEW
    /\ Models.db_releases (VoteWriter.committed Scenarios.round_two_session)
       = Notions.replace_row
           (VoteWriter.set_phase (Examples.release_podling (Some "r1"%string))
              Models.RELEASE_PREVIEW)
           (Models.db_releases
              (VoteWriter.working
                 (Examples.session_of (Examples.release_podling (Some "r1"%string)))))
    /\ Models.db_revisions (VoteWriter.committed Scenarios.round_two_session)
       = Models.db_revisions
           (VoteWriter.working
              (Examples.session_of (Examples.release_podling (Some "r1"%string))))
         ++ [ {| Models.revision_release_name :=
                   Models.name_of (Examples.release_podling (Some "r1"%string));
                 Models.revision_number := number;
                 Models.revision_asfuid := "m1";
                 Models.revision_description :=
                   "Create a preview revision from the last candidate draft" |} ]
    /\ forall mid,
         Interaction.task_mid_get false Examples.vote_task_done = Some mid ->
         exists recipient sender subject text first second,
           VoteWriter.args_email_to Examples.vote_task_done = inr recipient
           /\ Models.db_tasks (VoteWriter.committed Scenarios.round_two_session)
              = Models.db_tasks
                  (VoteWriter.working
                     (Examples.session_of (Examples.release_podling (Some "r1"%string))))
                ++ [first; second]
           /\ Notions.queued_message first
           /\ Notions.queued_message second
           /\ Models.task_args first = Models.Send sender recipient subject text mid
           /\ Models.task_args second
              = Models.Send sender address subject text message_id.
Proof.
  apply (resolve_release_round_two_pass false "m1" 1700300000
           Examples.user_tests_address (fun _ => [])
           Examples.vote_body_for Examples.new_revision
           Examples.first_round_thread "foo" (Examples.release_podling (Some "r1"%string))
           "r1" Examples.vote_task_done "Member One" "The vote passed.").
  - reflexivity.
  - vm_compute. reflexivity.
Defined.

(** The vote on the top-level release, resolved as passed, and resolved
    again. *)
Lemma resolve_not_repeatable_witness :
  runStateT
    (VoteWriter.resolve false "m1" 1700300000 Examples.user_tests_address
       (fun _ => [])
       Examples.vote_body_for Examples.new_revision Examples.first_round_thread
       "foo" "1.0.0" "failed" "Member One" "The vote failed.")
    Examples.top_level_session
  = inl (AccessError "Release not found").
Proof.
  apply (resolve_not_repeatable false "m1" 1700300000 Examples.user_tests_address
           (fun _ => [])
           Examples.vote_body_for Examples.new_revision Examples.first_round_thread
           "foo" "1.0.0" "passed" "Member One" "The vote passed."
           (Examples.session_of Examples.release_top_level)
           Examples.top_level_session Examples.release_top_level
           Examples.top_level_out).
  - vm_compute. reflexivity.
  - vm_compute. reflexivity.
  - intros [_ [H _]]. vm_compute in H. discriminate H.
Defined.


(* ===================================================================== *)
(** * From the thread to the outcome: who can make a vote pass *)
(* ===================================================================== *)

Section BindingVotes.

Import PyStr.
Import Models.
Import Tabulate.
Import Notions.

Variable email_from_uid : string -> option string.
Variable committee_by_name : string -> option Committee.
Variable committee : option Committee.
Variable email_to_uid : PyDict.t string.

(** The tabulator outside the development environment. *)
Local Abbreviation valid := (valid_identity email_from_uid email_to_uid).
Local Abbreviation key_of := (voter_key email_from_uid email_to_uid).
Local Abbreviation cutoff := (is_cutoff email_from_uid email_to_uid).
Local Abbreviation bears := (bears_castings email_from_uid email_to_uid).
Local Abbreviation entry_of :=
  (vote_email_of email_from_uid false committee_by_name committee email_to_uid).
Local Abbreviation loop :=
  (votes_loop email_from_uid false committee_by_name committee email_to_uid).
Local Abbreviation tabulate :=
  (votes email_from_uid false committee_by_name committee email_to_uid).

(** The status of an entry is earned by the voter it is keyed by. *)
Local Abbreviation earned :=
  (fun kv : string * VoteEmail =>
     asf_uid_or_email (snd kv) = fst kv
     /\ match status (snd kv) with
        | VoteStatus.BINDING =>
            exists c, committee = Some c /\ In (fst kv) (committee_members c)
        | VoteStatus.COMMITTER =>
            exists c, committee = Some c /\ In (fst kv) (committers c)
                      /\ ~ In (fst kv) (committee_members c)
        | VoteStatus.CONTRIBUTOR =>
            exists c, committee = Some c /\ ~ In (fst kv) (committers c)
                      /\ ~ In (fst kv) (committee_members c)
        | VoteStatus.UNKNOWN => True
        end).

Lemma set_forall {V : Type} (Q : string * V -> Prop) (d : PyDict.t V)
    (k : string) (v : V) :
  Q (k, v) -> Forall Q d -> Forall Q (PyDict.set d k v).
Proof.
  intros Hq. induction 1 as [| [k0 v0] d H0 Hd IH]; cbn.
  - constructor; [exact Hq | constructor].
  - destruct (String.eqb_spec k0 k) as [-> | NE].
    + constructor; [exact Hq | exact Hd].
    + constructor; [exact H0 | exact IH].
Qed.

Lemma not_existsb_eqb_in (x : string) (l : list string) :
  existsb (String.eqb x) l = false -> ~ In x l.
Proof.
  intros H Hin. apply existsb_eqb_in in Hin. congruence.
Qed.

(** The entry built from a message is earned by the sender. *)
Lemma entry_earned (msg : Message) (again : bool) :
  earned (key_of msg, entry_of msg again).
Proof.
  unfold vote_email_of, voter_key.
  destruct (_vote_identity email_from_uid (from_raw msg) email_to_uid)
    as [[ok from_email_lower] [uid |]]; cbn [fst snd asf_uid_or_email status];
    (split; [reflexivity |]); [| exact I].
  unfold _vote_status.
  destruct committee as [c |]; [| exact I].
  destruct (existsb (String.eqb uid) (committee_members c)) eqn:Em.
  - exists c. split; [reflexivity | apply existsb_eqb_in; exact Em].
  - apply not_existsb_eqb_in in Em.
    destruct (existsb (String.eqb uid) (committers c)) eqn:Ec.
    + exists c. split; [reflexivity |].
      split; [apply existsb_eqb_in; exact Ec | exact Em].
    + apply not_existsb_eqb_in in Ec. exists c. auto.
Qed.

Lemma loop_earned (l : list (string * Message)) (st : option Z)
    (tab : PyDict.t VoteEmail) :
  Forall earned tab -> Forall earned (snd (loop l st tab)).
Proof.
  revert st tab. induction l as [| [i msg] l IH]; intros st tab Htab; [exact Htab |].
  rewrite (loop_cons email_from_uid false committee_by_name committee email_to_uid).
  destruct (valid msg); cbn [negb]; [| apply IH; exact Htab].
  destruct (cutoff msg); [exact Htab |].
  destruct (bears msg); [| apply IH; exact Htab].
  apply IH. apply set_forall; [apply entry_earned | exact Htab].
Qed.

(** X26: outside the development environment, every entry of the map the
    tabulator returns sits under the [asf_uid_or_email] it holds, and its
    status is earned by that voter in the committee given: BINDING by a
    member, COMMITTER by a committer who is no member, CONTRIBUTOR by
    neither; without a committee no entry has one of these. *)
Theorem tabulated_status_is_earned (thread : list (string * Message)) :
  Forall
    (fun kv : string * VoteEmail =>
       asf_uid_or_email (snd kv) = fst kv
       /\ match status (snd kv) with
          | VoteStatus.BINDING =>
              exists c, committee = Some c /\ In (fst kv) (committee_members c)
          | VoteStatus.COMMITTER =>
              exists c, committee = Some c /\ In (fst kv) (committers c)
                        /\ ~ In (fst kv) (committee_members c)
          | VoteStatus.CONTRIBUTOR =>
              exists c, committee = Some c /\ ~ In (fst kv) (committers c)
                        /\ ~ In (fst kv) (committee_members c)
          | VoteStatus.UNKNOWN => True
          end)
    (snd (tabulate thread)).
Proof.
  apply (loop_earned thread None PyDict.empty). constructor.
Qed.

Lemma in_get {V : Type} (d : PyDict.t V) (k : string) (v : V) :
  NoDup (PyDict.keys d) -> In (k, v) d -> PyDict.get d k = Some v.
Proof.
  unfold PyDict.keys. induction d as [| [k0 v0] d IH]; cbn; [tauto |].
  intros Hnd [E | Hin].
  - injection E as -> ->. rewrite String.eqb_refl. reflexivity.
  - inversion Hnd as [| ? ? Hnot Hrest]; subst.
    destruct (String.eqb_spec k0 k) as [-> | NE]; [| apply IH; assumption].
    exfalso. apply Hnot. apply in_map_iff. exists (k, v). auto.
Qed.

Lemma nodup_keys_filter {V : Type} (f : string * V -> bool) (d : PyDict.t V) :
  NoDup (List.map fst d) -> NoDup (List.map fst (List.filter f d)).
Proof.
  induction d as [| x d IH]; cbn; [tauto |].
  intros Hnd. inversion Hnd as [| ? ? Hnot Hrest]; subst.
  destruct (f x); cbn; [| apply IH; exact Hrest].
  constructor; [| apply IH; exact Hrest].
  intros Hin. apply Hnot. apply in_map_iff in Hin.
  destruct Hin as [y [Hy Hin]]. apply filter_In in Hin.
  apply in_map_iff. exists y. tauto.
Qed.

Lemma filter_values {V : Type} (f : V -> bool) (d : PyDict.t V) :
  List.filter f (PyDict.values d)
  = List.map snd (List.filter (fun kv => f (snd kv)) d).
Proof.
  unfold PyDict.values. induction d as [| x d IH]; cbn; [reflexivity |].
  destruct (f (snd x)); cbn; rewrite IH; reflexivity.
Qed.

(** X27: outside the development environment a vote passes only on the
    votes of three members.  When [vote_outcome] finds that the votes
    tabulated from a thread pass, the committee given is set, and at least
    three different members of it each have their entry in the map, with
    BINDING status and the vote YES. *)
Theorem passing_needs_three_members (now : Z) (release : Release)
    (start_unixtime : option Z) (thread : list (string * Message)) (msg : string) :
  vote_outcome now release start_unixtime (snd (tabulate thread)) = inr (true, msg) ->
  exists c voters,
    committee = Some c
    /\ NoDup voters
    /\ (3 <= List.length voters)%nat
    /\ Forall
         (fun k =>
            In k (committee_members c)
            /\ exists e, PyDict.get (snd (tabulate thread)) k = Some e
                         /\ status e = VoteStatus.BINDING
                         /\ vote e = Vote.YES)
         voters.
Proof.
  intros H.
  set (tab := snd (tabulate thread)) in *.
  assert (Hnd : NoDup (PyDict.keys tab)).
  { apply (loop_nodup email_from_uid false committee_by_name committee email_to_uid
             thread None PyDict.empty). constructor. }
  pose proof (loop_earned thread None PyDict.empty (Forall_nil _)) as Hearned.
  fold tab in Hearned.
  unfold vote_outcome in H.
  apply bind_returns in H. destruct H as [duration [_ H]].
  apply bind_returns in H. destruct H as [remaining [_ H]].
  rewrite count_binding_fold, vote_outcome_format_spec in H.
  cbn in H. injection H as Hp _.
  apply andb_true_iff in Hp. destruct Hp as [Hthree _].
  apply Z.leb_le in Hthree.
  rewrite filter_values, length_map in Hthree.
  set (chosen :=
         List.filter
           (fun kv : string * VoteEmail =>
              VoteStatus.eqb (status (snd kv)) VoteStatus.BINDING
              && Vote.eqb (vote (snd kv)) Vote.YES) tab) in *.
  assert (Hchosen : forall kv, In kv chosen ->
                      In kv tab /\ status (snd kv) = VoteStatus.BINDING
                      /\ vote (snd kv) = Vote.YES).
  { intros kv Hin. apply filter_In in Hin. destruct Hin as [Hin Hsel].
    apply andb_true_iff in Hsel. destruct Hsel as [Hs Hv].
    split; [exact Hin |]. split.
    - destruct (status (snd kv)); try discriminate Hs; reflexivity.
    - destruct (vote (snd kv)); try discriminate Hv; reflexivity. }
  assert (Hc : exists c, committee = Some c).
  { destruct chosen as [| kv rest] eqn:E; [cbn in Hthree; lia |].
    destruct (Hchosen kv (or_introl eq_refl)) as [Hin [Hs _]].
    rewrite Forall_forall in Hearned. destruct (Hearned kv Hin) as [_ He].
    rewrite Hs in He. destruct He as [c [Hc _]]. eauto. }
  destruct Hc as [c Hc].
  exists c, (List.map fst chosen).
  split; [exact Hc |].
  split; [apply nodup_keys_filter; exact Hnd |].
  split; [rewrite length_map; lia |].
  apply Forall_forall. intros k Hk.
  apply in_map_iff in Hk. destruct Hk as [[k' e] [Hfst Hin]]. cbn in Hfst. subst k'.
  destruct (Hchosen (k, e) Hin) as [Htab [Hs Hv]]. cbn [snd] in Hs, Hv.
  rewrite Forall_forall in Hearned. destruct (Hearned (k, e) Htab) as [_ He].
  cbn [fst snd] in He. rewrite Hs in He. destruct He as [c' [Hc' Hmember]].
  assert (c' = c) by congruence. subst c'.
  split; [exact Hmember |].
  exists e. split; [apply in_get; assumption | auto].
Qed.

End BindingVotes.

(** Scenario S1: the members m1 to m4 vote in favour, m3 after a change of
    mind. *)
Lemma passing_needs_three_members_witness :
  exists c voters,
    Some Examples.committee_s1 = Some c
    /\ NoDup voters
    /\ (3 <= List.length voters)%nat
    /\ Forall
         (fun k =>
            In k (Models.committee_members c)
            /\ exists e,
                 PyDict.get
                   (snd (Tabulate.votes Examples.plain_address false
                           Examples.no_committee_lookup (Some Examples.committee_s1)
                           [] Scenarios.thread_s1)) k = Some e
                 /\ Tabulate.status e = Tabulate.VoteStatus.BINDING
                 /\ Tabulate.vote e = Tabulate.Vote.YES)
         voters.
Proof.
  apply (passing_needs_three_members Examples.plain_address
           Examples.no_committee_lookup (Some Examples.committee_s1) []
           1700300000%Z Examples.release_no_minimum (Some 1700000000%Z)
           Scenarios.thread_s1 "The vote passed.").
  vm_compute. reflexivity.
Defined.


(* ===================================================================== *)
(** * The resolution lists every voter once *)
(* ===================================================================== *)

Section RendererVoters.

Import PyStr.
Import Models.
Import Tabulate.
Import Render.

Variable unknown_first : bool.

Local Abbreviation listed statuses entries :=
  (List.filter (fun e : VoteEmail => status_in (status e) statuses) entries).

(** A section that lists the entries [chosen]. *)
Local Abbreviation section_of statuses chosen :=
  (match chosen%list with
   | [] => []
   | _ :: _ =>
       section_header statuses :: ""%string
       :: List.map vote_line chosen%list ++ [""%string]
   end).

(** Three tests of which every element passes exactly one split a list. *)
Lemma filter_three_ways {A : Type} (p q r : A -> bool) (l : list A) :
  (forall x, In x l ->
             (p x = true /\ q x = false /\ r x = false)
             \/ (p x = false /\ q x = true /\ r x = false)
             \/ (p x = false /\ q x = false /\ r x = true)) ->
  Permutation (List.filter p l ++ List.filter q l ++ List.filter r l) l.
Proof.
  intros H. induction l as [| x l IH]; [constructor |].
  assert (IH' : Permutation (List.filter p l ++ List.filter q l ++ List.filter r l) l).
  { apply IH. intros y Hy. apply H. right. exact Hy. }
  cbn [filter].
  destruct (H x (or_introl eq_refl)) as [[-> [-> ->]] | [[-> [-> ->]] | [-> [-> ->]]]].
  - cbn [app]. constructor. exact IH'.
  - apply Permutation_sym. apply Permutation_cons_app.
    apply Permutation_sym. exact IH'.
  - apply Permutation_sym.
    rewrite app_assoc. apply Permutation_cons_app.
    rewrite <- app_assoc. apply Permutation_sym. exact IH'.
Qed.

(** X28: the resolution lists every voter once.  The vote lines that
    [_vote_resolution_body_votes] yields are three sections, for the
    binding votes, for the votes of committers, and for those of
    contributors and unknown voters, with the two lines of counts after the
    first; the entries the three sections list are together the entries of
    the map, each exactly once, and each section keeps the order of the
    map. *)
Theorem resolution_lists_every_voter (tabulated_votes : PyDict.t VoteEmail)
    (summary : PyDict.t Z) (lines : list string) :
  _vote_resolution_body_votes unknown_first tabulated_votes summary = inr lines ->
  let entries := PyDict.values tabulated_votes in
  let binding := listed [VoteStatus.BINDING] entries in
  let committer := listed [VoteStatus.COMMITTER] entries in
  let others := listed (contributor_unknown unknown_first) entries in
  Permutation (binding ++ committer ++ others) entries
  /\ exists total_line breakdown_line,
       lines
       = section_of [VoteStatus.BINDING] binding
         ++ [total_line; ""%string; breakdown_line; ""%string]
         ++ section_of [VoteStatus.COMMITTER] committer
         ++ section_of (contributor_unknown unknown_first) others.
Proof.
  intros H entries binding committer others.
  split.
  - apply filter_three_ways. intros e _. unfold status_in, contributor_unknown.
    destruct unknown_first, (status e); cbn; tauto.
  - unfold _vote_resolution_body_votes in H.
    apply bind_returns in H. destruct H as [total [_ H]].
    apply bind_returns in H. destruct H as [yes [_ H]].
    apply bind_returns in H. destruct H as [no [_ H]].
    apply bind_returns in H. destruct H as [abstain [_ H]].
    cbn in H. injection H as <-.
    unfold _vote_resolution_votes. rewrite !resolution_votes_loop_closed.
    fold entries. fold binding. fold committer. fold others.
    do 2 eexists.
    destruct binding, committer, others; reflexivity.
Qed.

End RendererVoters.

(** Scenario S1: four binding votes and the vote of a contributor. *)
Lemma resolution_lists_every_voter_witness :
  Permutation
    (List.filter
       (fun e => Render.status_in (Tabulate.status e) [Tabulate.VoteStatus.BINDING])
       (PyDict.values Examples.votes_s1)
     ++ List.filter
          (fun e => Render.status_in (Tabulate.status e) [Tabulate.VoteStatus.COMMITTER])
          (PyDict.values Examples.votes_s1)
     ++ List.filter
          (fun e => Render.status_in (Tabulate.status e)
                      (Render.contributor_unknown false))
          (PyDict.values Examples.votes_s1))
    (PyDict.values Examples.votes_s1)
  /\ exists total_line breakdown_line,
       Scenarios.resolution_votes_s1
       = match
           List.filter
             (fun e => Render.status_in (Tabulate.status e)
                         [Tabulate.VoteStatus.BINDING])
             (PyDict.values Examples.votes_s1)
         with
         | [] => []
         | _ :: _ =>
             Render.section_header [Tabulate.VoteStatus.BINDING] :: ""%string
             :: List.map Render.vote_line
                  (List.filter
                     (fun e => Render.status_in (Tabulate.status e)
                                 [Tabulate.VoteStatus.BINDING])
                     (PyDict.values Examples.votes_s1))
                ++ [""%string]
         end
         ++ [total_line; ""%string; breakdown_line; ""%string]
         ++ match
              List.filter
                (fun e => Render.status_in (Tabulate.status e)
                            [Tabulate.VoteStatus.COMMITTER])
                (PyDict.values Examples.votes_s1)
            with
            | [] => []
            | _ :: _ =>
                Render.section_header [Tabulate.VoteStatus.COMMITTER] :: ""%string
                :: List.map Render.vote_line
                     (List.filter
                        (fun e => Render.status_in (Tabulate.status e)
                                    [Tabulate.VoteStatus.COMMITTER])
                        (PyDict.values Examples.votes_s1))
                   ++ [""%string]
            end
         ++ match
              List.filter
                (fun e => Render.status_in (Tabulate.status e)
                            (Render.contributor_unknown false))
                (PyDict.values Examples.votes_s1)
            with
            | [] => []
            | _ :: _ =>
                Render.section_header (Render.contributor_unknown false) :: ""%string
                :: List.map Render.vote_line
                     (List.filter
                        (fun e => Render.status_in (Tabulate.status e)
                                    (Render.contributor_unknown false))
                        (PyDict.values Examples.votes_s1))
                   ++ [""%string]
            end.
Proof.
  apply (resolution_lists_every_voter false Examples.votes_s1
           (Tabulate.vote_summary Examples.votes_s1) Scenarios.resolution_votes_s1).
  vm_compute. reflexivity.
Defined.


(* ===================================================================== *)
(** * Properties of the unfinished releases of a user *)
(* ===================================================================== *)

Section UnfinishedFacts.

Import Models.
Import Interaction.
Import Queries.
Import QueryNotions.
Import Unfinished.

Local Open Scope Z_scope.

Variable user_projects_of : string -> list Project.
Variable short_display_name : Project -> string.

Local Abbreviation unfinished :=
  (unfinished_releases user_projects_of short_display_name).
Local Abbreviation group_of := (unfinished_of short_display_name).

(** A project with a row that is in progress. *)
Local Abbreviation busy rows :=
  (fun project : Project => existsb (in_progress_row project) rows).

(** Sorting a sorted list changes nothing. *)
Lemma sort_desc_sorted_fixed {A K : Type} (ltb : K -> K -> bool) (l : list (K * A)) :
  StronglySorted (fun x y => ltb (fst x) (fst y) = false) l -> sort_desc ltb l = l.
Proof.
  induction 1 as [| x l Hl IH Hx]; [reflexivity |].
  cbn [sort_desc]. rewrite IH.
  destruct l as [| y l]; [reflexivity |].
  cbn [insert_desc]. inversion Hx as [| ? ? Hxy _]; subst. rewrite Hxy. reflexivity.
Qed.

Lemma active_is_in_progress (project : Project) (row : Z * Release) :
  String.eqb (release_project_name (snd row)) (project_name project)
  && existsb (phase_eqb (phase (snd row))) active_phases
  = in_progress_row project row.
Proof.
  unfold in_progress_row. destruct (phase (snd row)); reflexivity.
Qed.

Lemma active_rows_perm (rows : list (Z * Release)) (project : Project) :
  Permutation (active_rows rows project) (List.filter (in_progress_row project) rows).
Proof.
  unfold active_rows.
  rewrite (filter_ext _ (in_progress_row project) (active_is_in_progress project)).
  apply sort_desc_perm.
Qed.

Lemma active_rows_sorted (rows : list (Z * Release)) (project : Project) :
  StronglySorted (fun a b : Z * Release => (fst a <? fst b) = false)
    (active_rows rows project).
Proof.
  unfold active_rows. apply sort_desc_sorted; [exact Z_ltb_asym | exact Z_ltb_ge_trans].
Qed.

(** The second sort of the loop, by creation time, finds the rows in that
    order already. *)
Lemma second_sort_fixed (active : list (Z * Release)) :
  StronglySorted (fun a b : Z * Release => (fst a <? fst b) = false) active ->
  List.map snd (sort_desc Z.ltb (List.map (fun row => (fst row, row)) active)) = active.
Proof.
  intros H. rewrite sort_desc_sorted_fixed.
  - rewrite map_map. cbn. apply map_id.
  - induction H as [| x l Hl IH Hx]; cbn [List.map]; constructor; [exact IH |].
    apply Forall_map. exact Hx.
Qed.

Lemma group_of_spec (rows : list (Z * Release)) (project : Project) :
  group_of rows project
  = match active_rows rows project with
    | [] => []
    | active =>
        [(short_display_name project, project_name project, active)]
    end.
Proof.
  unfold unfinished_of.
  pose proof (active_rows_sorted rows project) as Hs.
  destruct (active_rows rows project) as [| x l] eqn:E; [reflexivity |].
  rewrite (second_sort_fixed (x :: l) Hs). reflexivity.
Qed.

Lemma busy_active (rows : list (Z * Release)) (project : Project) :
  busy rows project = match active_rows rows project with [] => false | _ => true end.
Proof.
  pose proof (active_rows_perm rows project) as Hp.
  destruct (active_rows rows project) as [| x l].
  - apply Permutation_nil in Hp.
    induction rows as [| row rows IH]; [reflexivity |].
    cbn [filter existsb] in *.
    destruct (in_progress_row project row); [discriminate Hp | exact (IH Hp)].
  - apply existsb_exists. exists x.
    assert (Hx : In x (List.filter (in_progress_row project) rows)).
    { apply (Permutation_in _ Hp). left. reflexivity. }
    apply filter_In in Hx. exact Hx.
Qed.

Lemma string_gtb_ge_trans (a b c : string) :
  String.ltb b a = false -> String.ltb c b = false -> String.ltb c a = false.
Proof.
  intros Hba Hcb. destruct (String.ltb c a) eqn:Hca; [| reflexivity].
  destruct (String.eqb b a) eqn:E.
  - apply String.eqb_eq in E. subst b. congruence.
  - pose proof (string_ltb_trichotomy b a Hba E) as Hab.
    pose proof (string_ltb_trans c a b Hca Hab). congruence.
Qed.

Lemma sorted_filter {A : Type} (R : A -> A -> Prop) (f : A -> bool) (l : list A) :
  StronglySorted R l -> StronglySorted R (List.filter f l).
Proof.
  induction 1 as [| x l Hl IH Hx]; cbn; [constructor |].
  destruct (f x); [| exact IH].
  constructor; [exact IH |].
  rewrite Forall_forall in *. intros y Hy. apply Hx.
  apply filter_In in Hy. tauto.
Qed.

(** X29: [unfinished_releases] lists, for the projects of the user that
    have a release in progress and for no other, the project with its
    releases in progress: the rows of the project whose phase is not
    RELEASE, each once, newest first, the same releases that
    [releases_in_progress] returns for the project.  No project is listed
    with an empty list, and the projects come in the order of their
    display names. *)
Theorem unfinished_releases_groups (rows : list (Z * Release)) (asfuid : string) :
  Forall
    (fun group : string * string * list (Z * Release) =>
       snd group <> []
       /\ exists project,
            In project (user_projects_of asfuid)
            /\ busy rows project = true
            /\ fst group = (short_display_name project, project_name project)
            /\ Permutation (snd group) (List.filter (in_progress_row project) rows)
            /\ StronglySorted (fun a b : Z * Release => fst b <= fst a) (snd group)
            /\ Permutation
                 (List.map (fun row => set_project project (snd row)) (snd group))
                 (releases_in_progress rows project))
    (unfinished rows asfuid)
  /\ exists projects,
       Permutation projects (List.filter (busy rows) (user_projects_of asfuid))
       /\ StronglySorted
            (fun p q =>
               String.ltb (project_display_name q) (project_display_name p) = false)
            projects
       /\ List.map fst (unfinished rows asfuid)
          = List.map (fun p => (short_display_name p, project_name p)) projects.
Proof.
  unfold unfinished_releases.
  set (decorated :=
         List.map (fun p => (project_display_name p, p)) (user_projects_of asfuid)).
  set (sorted := List.map snd (sort_asc String.ltb decorated)).
  assert (Hperm : Permutation sorted (user_projects_of asfuid)).
  { unfold sorted, sort_asc.
    apply Permutation_trans with (List.map snd decorated).
    - apply Permutation_map. apply sort_desc_perm.
    - unfold decorated. rewrite map_map. cbn. rewrite map_id. apply Permutation_refl. }
  assert (Hsorted : StronglySorted
                      (fun p q =>
                         String.ltb (project_display_name q) (project_display_name p)
                         = false) sorted).
  { unfold sorted, sort_asc.
    pose proof (sort_desc_sorted (fun a b => String.ltb b a)
                  (fun a b H => string_ltb_asym b a H)
                  (fun a b c => string_gtb_ge_trans a b c) decorated) as Hs.
    assert (Hkeys : Forall (fun e : string * Project => fst e = project_display_name (snd e))
                      (sort_desc (fun a b => String.ltb b a) decorated)).
    { apply (Permutation_Forall (Permutation_sym (sort_desc_perm _ decorated))).
      unfold decorated. apply Forall_map. apply Forall_forall. reflexivity. }
    induction Hs as [| e l Hl IH He]; cbn [List.map]; constructor.
    - apply IH. inversion Hkeys; assumption.
    - inversion Hkeys as [| ? ? Hk Hkl]; subst.
      apply Forall_map. rewrite Forall_forall in *. intros z Hz.
      specialize (He z Hz). cbn in He. rewrite <- Hk, <- (Hkl z Hz). exact He. }
  split.
  - apply Forall_forall. intros group Hg.
    apply in_flat_map in Hg. destruct Hg as [project [Hin Hg]].
    rewrite group_of_spec in Hg.
    pose proof (active_rows_perm rows project) as Hp.
    pose proof (active_rows_sorted rows project) as Hs.
    pose proof (busy_active rows project) as Hbusy.
    destruct (active_rows rows project) as [| x l] eqn:E; [contradiction |].
    destruct Hg as [<- | []]. cbn [fst snd].
    split; [discriminate |].
    exists project.
    split; [apply (Permutation_in _ Hperm); exact Hin |].
    split; [exact Hbusy |]. split; [reflexivity |]. split; [exact Hp |].
    split.
    + clear -Hs. remember (x :: l) as active. clear Heqactive.
      induction Hs as [| a rest Hrest IH Ha]; constructor; [exact IH |].
      apply (Forall_impl (P := fun b : Z * Release => (fst a <? fst b) = false));
        [| exact Ha].
      intros b Hb. apply Z.ltb_ge in Hb. exact Hb.
    + apply Permutation_trans
        with (List.map (fun row => set_project project (snd row))
                (List.filter (in_progress_row project) rows)).
      * apply Permutation_map. exact Hp.
      * apply Permutation_sym.
        unfold releases_in_progress, candidate_drafts, candidates, previews,
          releases_by_phase.
        rewrite <- !map_app. apply Permutation_map.
        apply Permutation_trans
          with (List.filter
                  (fun row : Z * Release =>
                     String.eqb (release_project_name (snd row)) (project_name project)
                     && phase_eqb (phase (snd row)) RELEASE_CANDIDATE_DRAFT) rows
                ++ List.filter
                     (fun row : Z * Release =>
                        String.eqb (release_project_name (snd row))
                          (project_name project)
                        && phase_eqb (phase (snd row)) RELEASE_CANDIDATE) rows
                ++ List.filter
                     (fun row : Z * Release =>
                        String.eqb (release_project_name (snd row))
                          (project_name project)
                        && phase_eqb (phase (snd row)) RELEASE_PREVIEW) rows).
        -- repeat apply Permutation_app; apply sort_desc_perm.
        -- clear. induction rows as [| row rows IH]; [constructor |].
           unfold in_progress_row in *. cbn [filter].
           destruct (String.eqb (release_project_name (snd row)) (project_name project));
             [destruct (phase (snd row)) |]; cbn [andb phase_eqb negb]; try exact IH.
           ++ cbn [app]. constructor. exact IH.
           ++ apply Permutation_sym. apply Permutation_cons_app.
              apply Permutation_sym. exact IH.
           ++ apply Permutation_sym. rewrite app_assoc. apply Permutation_cons_app.
              rewrite <- app_assoc. apply Permutation_sym. exact IH.
  - exists (List.filter (busy rows) sorted).
    split.
    + clear Hsorted. induction Hperm; cbn [filter].
      * constructor.
      * destruct (busy rows x); [constructor |]; assumption.
      * destruct (busy rows x), (busy rows y); try apply Permutation_refl.
        apply perm_swap.
      * eapply Permutation_trans; eassumption.
    + split; [apply sorted_filter; exact Hsorted |].
      clear. induction sorted as [| p l IH]; [reflexivity |].
      cbn [flat_map filter]. rewrite map_app, IH, group_of_spec, busy_active.
      destruct (active_rows rows p); reflexivity.
Qed.

End UnfinishedFacts.


(* ===================================================================== *)
(** * The committee of a vote in the development environment *)
(* ===================================================================== *)

Section CommitteeLabel.

Import PyStr.
Import Models.
Import Tabulate.
Import VoteCommittee.

Variable committee_by_name : string -> option Committee.

(** A character that is not in a text is not its first. *)
Lemma not_contains_head (d c : ascii) (s : string) :
  contains (String c s) (String d EmptyString) = false ->
  c <> d /\ contains s (String d EmptyString) = false.
Proof.
  cbn [contains String.prefix]. intros H. apply orb_false_iff in H.
  destruct H as [Hp Hs]. split; [| exact Hs].
  intros ->. destruct (ascii_dec d d) as [_ | NE]; [| contradiction].
  destruct s; discriminate Hp.
Qed.

(** [split] passes over a text that does not hold the first character of
    the separator. *)
Lemma split_once_skip (d : ascii) (sep' s t : string) :
  contains s (String d EmptyString) = false ->
  split_once (String d sep') (s ++ t)
  = (s ++ fst (split_once (String d sep') t), snd (split_once (String d sep') t))%string.
Proof.
  intros H. induction s as [| c s IH].
  - cbn [append]. destruct (split_once (String d sep') t); reflexivity.
  - apply not_contains_head in H. destruct H as [NE Hs].
    cbn [append split_once String.prefix].
    destruct (ascii_dec d c) as [E | _]; [congruence |].
    rewrite (IH Hs). reflexivity.
Qed.

(** [split] stops at a separator it stands at. *)
Lemma split_once_here (sep t : string) :
  sep <> EmptyString ->
  split_once sep (sep ++ t) = (EmptyString, Some t).
Proof.
  intros Hsep. destruct sep as [| d sep']; [contradiction |].
  cbn [append split_once].
  change (String d (sep' ++ t)) with (String d sep' ++ t)%string.
  rewrite prefix_append, length_append.
  replace (String.length (String d sep') + String.length t - String.length (String d sep'))%nat
    with (String.length t) by lia.
  rewrite substring_skip, substring_all. reflexivity.
Qed.

Lemma split_once_absent (d : ascii) (sep' s : string) :
  contains s (String d EmptyString) = false ->
  split_once (String d sep') s = (s, None).
Proof.
  intros H. induction s as [| c s IH].
  - cbn. reflexivity.
  - apply not_contains_head in H. destruct H as [NE Hs].
    cbn [split_once String.prefix].
    destruct (ascii_dec d c) as [E | _]; [congruence |].
    rewrite (IH Hs). reflexivity.
Qed.

(** [split] passes over a character at which the separator does not
    begin. *)
Lemma split_once_miss (sep : string) (c : ascii) (s : string) :
  String.prefix sep (String c s) = false ->
  split_once sep (String c s)
  = (String c (fst (split_once sep s)), snd (split_once sep s)).
Proof.
  intros H. cbn [split_once]. rewrite H.
  destruct (split_once sep s); reflexivity.
Qed.

Lemma append_empty (s : string) : (s ++ "")%string = s.
Proof. induction s as [| c s IH]; cbn; [reflexivity | rewrite IH; reflexivity]. Qed.

(** The name of a list does not begin the domain. *)
Lemma label_not_domain (label rest : string) :
  contains label "." = false ->
  String.prefix "apache.org" (label ++ ".apache.org" ++ rest) = false.
Proof.
  intros H.
  do 7 (destruct label as [| c label];
        [vm_compute; reflexivity |];
        apply not_contains_head in H; destruct H as [? H];
        cbn [append String.prefix];
        match goal with
        | |- context [ascii_dec ?a c] => destruct (ascii_dec a c) as [<- | _]
        end; [| reflexivity]).
  contradiction.
Qed.

(** X30: in the development environment the committee of a vote is read
    off the list id of its first message.  For a list id
    <sub>.<label>.apache.org, with no "." in <sub> and <label>, whatever
    follows, [vote_committee] returns the committee named <label>, not the
    committee of the release, and [_vote_status] rates a voter against
    that committee, not the one passed in; a list id without a "." names
    the committee itself, the empty id the committee with the empty name. *)
Theorem dev_committee_from_list_id (sub label rest : string) (i : string)
    (msg : Message) (thread : list (string * Message)) (release : Release)
    (asf_uid : string) (committee : option Committee) :
  contains sub "." = false ->
  contains label "." = false ->
  list_raw msg = (sub ++ "." ++ label ++ ".apache.org" ++ rest)%string ->
  committee_label (list_raw msg) = label
  /\ vote_committee true committee_by_name ((i, msg) :: thread) release
     = committee_by_name label
  /\ _vote_status true committee_by_name asf_uid (list_raw msg) committee
     = _vote_status false committee_by_name asf_uid (list_raw msg)
         (committee_by_name label)
  /\ (forall raw, contains raw "." = false -> committee_label raw = raw).
Proof.
  intros Hsub Hlabel Hraw.
  assert (Hparse : committee_label (list_raw msg) = label).
  { unfold committee_label, split_once_first, split_once_last. rewrite Hraw.
    rewrite (split_once_skip "." "apache.org" sub _ Hsub). cbn [fst].
    assert (Hdot : split_once ".apache.org"
                     (String "." (label ++ ".apache.org" ++ rest))
                   = (String "." label, Some rest)).
    { rewrite split_once_miss.
      - rewrite (split_once_skip "." "apache.org" label _ Hlabel).
        rewrite (split_once_here ".apache.org" rest) by discriminate.
        cbn [fst snd]. rewrite append_empty. reflexivity.
      - cbn [String.prefix].
        destruct (ascii_dec "." ".") as [_ | NE]; [| contradiction].
        apply label_not_domain. exact Hlabel. }
    change ("." ++ label ++ ".apache.org" ++ rest)%string
      with (String "." (label ++ ".apache.org" ++ rest)).
    rewrite Hdot. cbn [fst].
    rewrite (split_once_skip "." "" sub (String "." label) Hsub).
    change (String "." label) with ("." ++ label)%string.
    rewrite (split_once_here "." label) by discriminate.
    reflexivity. }
  split; [exact Hparse |].
  split; [unfold vote_committee; rewrite Hparse; reflexivity |].
  split.
  - unfold _vote_status. fold (committee_label (list_raw msg)). rewrite Hparse.
    reflexivity.
  - intros raw H. unfold committee_label, split_once_first, split_once_last.
    rewrite (split_once_absent "." "apache.org" raw H). cbn [fst].
    rewrite (split_once_absent "." "" raw H). reflexivity.
Qed.

End CommitteeLabel.

(** The list of the project foo, with the angle brackets of the header. *)
Lemma dev_committee_from_list_id_witness :
  VoteCommittee.committee_label
    (Tabulate.list_raw
       (Examples.mail "m1@apache.org" "[VOTE] Release Apache Foo 1.0.0" "+1" None))
  = "foo"%string
  /\ VoteCommittee.vote_committee true Examples.no_committee_lookup
       [("m1", Examples.mail "m1@apache.org" "[VOTE] Release Apache Foo 1.0.0" "+1" None)]
       Examples.release_top_level
     = Examples.no_committee_lookup "foo"
  /\ Tabulate._vote_status true Examples.no_committee_lookup "m1"
       (Tabulate.list_raw
          (Examples.mail "m1@apache.org" "[VOTE] Release Apache Foo 1.0.0" "+1" None))
       (Some Examples.committee_s1)
     = Tabulate._vote_status false Examples.no_committee_lookup "m1"
         (Tabulate.list_raw
            (Examples.mail "m1@apache.org" "[VOTE] Release Apache Foo 1.0.0" "+1" None))
         (Examples.no_committee_lookup "foo")
  /\ (forall raw, PyStr.contains raw "." = false -> VoteCommittee.committee_label raw = raw).
Proof.
  apply (dev_committee_from_list_id Examples.no_committee_lookup "dev" "foo" "" "m1"
           (Examples.mail "m1@apache.org" "[VOTE] Release Apache Foo 1.0.0" "+1" None)
           [] Examples.release_top_level "m1" (Some Examples.committee_s1)).
  - reflexivity.
  - reflexivity.
  - reflexivity.
Defined.
